(** * mast.datapower.status: the status-charting plugin

    A shallow embedding of [mast/datapower/status/docroot/plugin.js]: the
    chart registry [window.charts], the provider check boxes, the
    [statusCharting] toggle, the poll request and the reschedule timer,
    with the event handlers of the plugin as state transformers. *)

From stdpp Require Import base strings list gmap fin_maps.
From Stdlib Require Import ZArith NArith Lia Wf_nat.
From Stdlib Require Import Ascii.
From Stdlib Require HexString.

Local Open Scope Z_scope.
Set Warnings "-clear-no-such-hyp".

(** * The embedding *)

(** ** Data *)

(** The [value] attribute of [input[name='statusCharting']]: the plugin
    writes only ["Start"] and ["Stop"] into it (lines 235, 237, 254). *)
Inductive Toggle := Start | Stop.

(** An entry of [environment.appliances]. *)
Record Appliance := mkAppliance {
  hostname : string;
  credentials : string
}.

(** The members every object has from [Object.prototype]: for such a
    name [k], [k in o] is true and [o[k]] reads the inherited member (a
    function, for ["__proto__"] the prototype itself), also when [o] has
    no property [k] of its own. *)
Definition object_prototype : list string :=
  ["constructor"; "hasOwnProperty"; "isPrototypeOf"; "propertyIsEnumerable";
   "toLocaleString"; "toString"; "valueOf"; "__defineGetter__";
   "__defineSetter__"; "__lookupGetter__"; "__lookupSetter__"; "__proto__"].

(** What [config.colors[hostname]] reads: a configured colour, the k-th
    call of [randomColor] (the drawn number itself is not modelled), or
    the member of [Object.prototype] of that name. *)
Inductive Color :=
| Configured (c : string)
| RandomColor (k : nat)
| Inherited (member : string).

(** What line 169 pushes into a series: a number of the poll response,
    the [undefined] that indexing past the end of an array (or indexing
    something that is no array) yields, or a text. *)
Inductive Value :=
| Num (z : Z)
| Undefined
| Str (s : string).

(** One element of [chart.data.datasets]. [borderColor] is [None] when
    [config.colors[hostname]] is [undefined]. *)
Record Dataset := mkDataset {
  label : string;
  borderColor : option Color;
  data : list Value
}.

(** A Chart.js widget: [chart.data.labels], [chart.data.datasets] and the
    number of [update()] calls it received. *)
Record Chart := mkChart {
  labels : list Z;
  datasets : list Dataset;
  updates : nat
}.

(** The body of the POST to [/status] built by [get_data]. The
    credentials are those of the appliances, obfuscated by the [xor]
    collaborator, which is kept symbolic. *)
Inductive Obfuscated := XorEncoded (credentials : string).

Record Request := mkRequest {
  req_appliances : list string;
  req_credentials : list Obfuscated;
  req_providers : list string;
  req_check_hostname : bool
}.

(** The JSON answer of [/status] as [add_data] reads it: the members
    [data.time] and [data.appliances], and in [resp_values] the other
    members the answer has of its own, one list of numbers per provider. *)
Record Response := mkResponse {
  time : Z;
  resp_appliances : list string;
  resp_values : gmap string (list Z)
}.

(** What [data[provider]] reads. *)
Inductive Member :=
| Numbers (vs : list Z)
| Hosts (hs : list string)
| NotIndexed.

(** - [Numbers vs]: the list the answer has for a provider;
    - [Hosts hs]: [data.appliances];
    - [NotIndexed]: a number ([data.time]) or a member inherited from
      [Object.prototype]: indexing it yields [undefined]. *)
Definition member (data : Response) (provider : string) : option Member :=
  match resp_values data !! provider with
  | Some vs => Some (Numbers vs)
  | None =>
      if decide (provider = "appliances") then Some (Hosts (resp_appliances data))
      else if decide (provider = "time") then Some NotIndexed
      else if decide (provider ∈ object_prototype) then Some NotIndexed
      else None
  end.

(** [vs[j]] for an array of numbers. *)
Definition number_at (vs : list Z) (j : nat) : Value :=
  match vs !! j with
  | Some z => Num z
  | None => Undefined
  end.

(** [m[j]]. *)
Definition element (m : Member) (j : nat) : Value :=
  match m with
  | Numbers vs => number_at vs j
  | Hosts hs => match hs !! j with Some h => Str h | None => Undefined end
  | NotIndexed => Undefined
  end.

(** What the plugin does to the page under [#status_main]: [Removed p]
    when the selector of the container of [p] found something to remove,
    [Appended p] for the container of [p]. *)
Inductive DomOp :=
| Removed (provider : string)
| Appended (provider : string).

(** A chart container under [#status_main], as the template of line 29
    makes it: the [div] with the id [status_<provider>_container], in it
    the [canvas] with the id [status_<provider>] and the [div] with the id
    [status_<provider>_legend]. [has_canvas] and [has_legend] are false
    once that element has been removed from the container. *)
Record Container := mkContainer {
  cont_provider : string;
  has_canvas : bool;
  has_legend : bool
}.

Inductive Tag := DivTag | CanvasTag.

(** [config.charts], with [parseInt] already applied: [None] is [NaN].
    The configuration is taken to have every member the plugin reads;
    [animation] and [animationsteps] (lines 100-101) only reach the
    options of the chart and are left out. *)
Record ChartsConfig := mkChartsConfig {
  datapoints : option Z;
  interval : option Z;
  startonload : bool
}.

(** The whole state the plugin reads and writes:
    - [toggle]: the value of the [statusCharting] button;
    - [appliances]: [environment.appliances];
    - [checked]: the values of the checked boxes under [#status_top], in
      document order (what [get_selected_providers] returns);
    - [global_no_check_hostname]: the box of that name in the appliance form;
    - [config_charts], [config_colors]: [config.charts] and the own
      properties of [config.colors] ([None] while [config] has no [colors]);
    - [random_calls]: how often [randomColor] was called;
    - [charts]: the own properties of [window.charts], a property being
      [None] when it holds [undefined];
    - [status_main]: the chart containers under [#status_main], in
      document order;
    - [dom_log]: every removal and insertion of a container so far;
    - [in_flight]: the requests posted to [/status] and not yet answered;
    - [pending_timers]: the timers set and neither fired nor cleared, each
      with its delay;
    - [window_timeout]: [window.timeout];
    - [next_timer]: the handle the next [setTimeout] returns. *)
Record State := mkState {
  toggle : Toggle;
  appliances : list Appliance;
  checked : list string;
  global_no_check_hostname : bool;
  config_charts : ChartsConfig;
  config_colors : option (gmap string Color);
  random_calls : nat;
  charts : gmap string (option Chart);
  status_main : list Container;
  dom_log : list DomOp;
  in_flight : list Request;
  pending_timers : list (nat * option Z);
  window_timeout : option nat;
  next_timer : nat
}.

(** ** Selectors and ids *)

(** [sanitize_provider]: the characters the regular expression of line 13
    matches. *)
Definition selector_special (c : Ascii.ascii) : bool :=
  (Ascii.eqb c ":" || Ascii.eqb c "." || Ascii.eqb c "[" || Ascii.eqb c "]")%char.

(** [provider.replace( /(:|\.|\[|\])/g, "\\$1" )]: a backslash goes
    before every match. *)
Fixpoint sanitize_provider (provider : string) : string :=
  match provider with
  | EmptyString => EmptyString
  | String c rest =>
      if selector_special c
      then String "\" (String c (sanitize_provider rest))
      else String c (sanitize_provider rest)
  end.

(** How often the regular expression matches. *)
Fixpoint special_count (s : string) : nat :=
  match s with
  | EmptyString => 0
  | String c rest =>
      ((if selector_special c then 1 else 0) + special_count rest)%nat
  end.

(** Reading an escaped selector back: a backslash before one of the four
    characters is dropped. *)
Fixpoint unescape_selector (s : string) : string :=
  match s with
  | EmptyString => EmptyString
  | String c rest =>
      if Ascii.eqb c "\" then
        match rest with
        | String c' rest' =>
            if selector_special c' then String c' (unescape_selector rest')
            else String c (unescape_selector rest)
        | EmptyString => String c EmptyString
        end
      else String c (unescape_selector rest)
  end.

(** The characters jQuery takes as part of an id without an escape:
    [[\w-]], the letters, the digits, the underscore and the hyphen. *)
Definition selector_plain (c : Ascii.ascii) : bool :=
  let n := Ascii.N_of_ascii c in
  ((48 <=? n) && (n <=? 57) || (65 <=? n) && (n <=? 90)
   || (97 <=? n) && (n <=? 122) || (n =? 95) || (n =? 45))%N.

Fixpoint all_plain (s : string) : bool :=
  match s with
  | EmptyString => true
  | String c rest => selector_plain c && all_plain rest
  end.

(** The id a selector text names after its [#] when the text is one
    identifier: plain characters, and the four characters of line 13
    each behind a backslash. A text with anything else in it (a blank, a
    comma, a backslash before another character, ...) is another
    selector, or none. *)
Fixpoint identifier (s : string) : option string :=
  match s with
  | EmptyString => Some EmptyString
  | String c rest =>
      if Ascii.eqb c "\" then
        match rest with
        | String c' rest' =>
            if selector_special c' then String c' <$> identifier rest'
            else None
        | EmptyString => None
        end
      else if selector_plain c then String c <$> identifier rest
      else None
  end.

Definition id_of_selector (selector : string) : option string :=
  match selector with
  | String c rest => if Ascii.eqb c "#" then identifier rest else None
  | EmptyString => None
  end.

(** [$( "#id" )] with an id of plain characters only is answered by
    [document.getElementById], which gives the first element of that id
    in document order and no other; an id selector with an escape goes
    to [querySelectorAll], which gives every element of that id. *)
Definition by_getElementById (selector : string) : bool :=
  match selector with
  | String c rest => Ascii.eqb c "#" && all_plain rest
  | EmptyString => false
  end.

(** The names for which the escape of line 13 is enough: every character
    is plain or one of the four. *)
Fixpoint selectable (name : string) : bool :=
  match name with
  | EmptyString => true
  | String c rest => (selector_plain c || selector_special c) && selectable rest
  end.

(** [s] ends with [suffix]. *)
Fixpoint ends_with (suffix s : string) : bool :=
  String.eqb s suffix ||
  match s with
  | EmptyString => false
  | String _ rest => ends_with suffix rest
  end.

(** The ids of the template of line 29 and the selectors the plugin
    builds for them (lines 35, 145 and 48). *)
Definition container_id (provider : string) : string :=
  "status_" +:+ provider +:+ "_container".
Definition canvas_id (provider : string) : string := "status_" +:+ provider.
Definition legend_id (provider : string) : string :=
  "status_" +:+ provider +:+ "_legend".

Definition container_selector (provider : string) : string :=
  "#status_" +:+ sanitize_provider provider +:+ "_container".
Definition canvas_selector (provider : string) : string :=
  "#status_" +:+ sanitize_provider provider.

(** The elements with an id that a container brings into the document,
    in document order. *)
Definition elements (c : Container) : list (string * Tag) :=
  (container_id (cont_provider c), DivTag)
  :: (if has_canvas c then [(canvas_id (cont_provider c), CanvasTag)] else [])
  ++ (if has_legend c then [(legend_id (cont_provider c), DivTag)] else []).

(** Modelled from the spec: the page the plugin runs in is not in the
    sources. Of its elements the plugin names two with an id that begins
    with [status_]: [#status_top] (line 113) and [#status_main] (line
    28), which holds the containers. Both are taken to be [div]s that
    come before the containers in document order, and the page to have
    no other id that begins with [status_]. *)
Definition page_ids : list (string * Tag) :=
  [("status_top", DivTag); ("status_main", DivTag)].

Definition document (cs : list Container) : list (string * Tag) :=
  page_ids ++ flat_map elements cs.

(** [$( selector ).get(0)] for an id selector: the tag of the first
    element of that id. *)
Definition first_with_id (x : string) (doc : list (string * Tag))
  : option Tag :=
  snd <$> List.find (fun e => String.eqb e.1 x) doc.

Definition has_id (x : string) (c : Container) : bool :=
  existsb (fun e => String.eqb e.1 x) (elements c).

(** The container once its element of the id [x] is removed: nothing is
    left of it when that element is the container itself. *)
Definition without_id (x : string) (c : Container) : option Container :=
  if String.eqb (container_id (cont_provider c)) x then None
  else Some (mkContainer (cont_provider c)
               (has_canvas c && negb (String.eqb (canvas_id (cont_provider c)) x))
               (has_legend c && negb (String.eqb (legend_id (cont_provider c)) x))).

(** [.remove()] on the first element of the id [x], and on every one. *)
Fixpoint remove_first (x : string) (cs : list Container) : list Container :=
  match cs with
  | [] => []
  | c :: cs' =>
      if has_id x c then option_list (without_id x c) ++ cs'
      else c :: remove_first x cs'
  end.

Definition remove_every (x : string) (cs : list Container) : list Container :=
  omap (without_id x) cs.

(** A provider whose chart [initialize_chart] can build on any page: its
    name is selectable, its canvas has an id that no other element can
    have (not the id of [#status_main] or [#status_top], nor that of
    the container or legend of another provider), and it is not
    ["__proto__"], which as a key of [window.charts] names the prototype
    and no property. *)
Definition chartable (p : string) : bool :=
  selectable p
  && negb (ends_with "_container" p) && negb (ends_with "_legend" p)
  && negb (String.eqb p "main") && negb (String.eqb p "top")
  && negb (String.eqb p "__proto__").

(** Field updates, written out. *)
Definition set_toggle (t : Toggle) (s : State) : State :=
  mkState t (appliances s) (checked s) (global_no_check_hostname s)
    (config_charts s) (config_colors s) (random_calls s) (charts s)
    (status_main s) (dom_log s) (in_flight s) (pending_timers s)
    (window_timeout s) (next_timer s).

Definition set_appliances (a : list Appliance) (s : State) : State :=
  mkState (toggle s) a (checked s) (global_no_check_hostname s)
    (config_charts s) (config_colors s) (random_calls s) (charts s)
    (status_main s) (dom_log s) (in_flight s) (pending_timers s)
    (window_timeout s) (next_timer s).

Definition set_checked (p : list string) (s : State) : State :=
  mkState (toggle s) (appliances s) p (global_no_check_hostname s)
    (config_charts s) (config_colors s) (random_calls s) (charts s)
    (status_main s) (dom_log s) (in_flight s) (pending_timers s)
    (window_timeout s) (next_timer s).

Definition set_colors (c : option (gmap string Color)) (n : nat) (s : State)
  : State :=
  mkState (toggle s) (appliances s) (checked s) (global_no_check_hostname s)
    (config_charts s) c n (charts s)
    (status_main s) (dom_log s) (in_flight s) (pending_timers s)
    (window_timeout s) (next_timer s).

Definition set_charts (c : gmap string (option Chart)) (s : State) : State :=
  mkState (toggle s) (appliances s) (checked s) (global_no_check_hostname s)
    (config_charts s) (config_colors s) (random_calls s) c
    (status_main s) (dom_log s) (in_flight s) (pending_timers s)
    (window_timeout s) (next_timer s).

Definition set_dom (d : list Container) (l : list DomOp) (s : State) : State :=
  mkState (toggle s) (appliances s) (checked s) (global_no_check_hostname s)
    (config_charts s) (config_colors s) (random_calls s) (charts s)
    d l (in_flight s) (pending_timers s)
    (window_timeout s) (next_timer s).

Definition set_in_flight (r : list Request) (s : State) : State :=
  mkState (toggle s) (appliances s) (checked s) (global_no_check_hostname s)
    (config_charts s) (config_colors s) (random_calls s) (charts s)
    (status_main s) (dom_log s) r (pending_timers s)
    (window_timeout s) (next_timer s).

Definition set_timers (p : list (nat * option Z)) (w : option nat) (n : nat)
    (s : State) : State :=
  mkState (toggle s) (appliances s) (checked s) (global_no_check_hostname s)
    (config_charts s) (config_colors s) (random_calls s) (charts s)
    (status_main s) (dom_log s) (in_flight s) p w n.

(** ** Handlers as computations

    A handler reads and writes the state and may stop with a
    [TypeError] (a property read on [undefined]); what it wrote before
    the error stays written. *)
Inductive Completion (A : Type) :=
| Normal (a : A)
| TypeError.
Arguments Normal {A} a.
Arguments TypeError {A}.

Definition Js (A : Type) : Type := State -> State * Completion A.

Definition ret {A} (a : A) : Js A := fun s => (s, Normal a).

Definition bind {A B} (m : Js A) (k : A -> Js B) : Js B :=
  fun s => match m s with
           | (s', Normal a) => k a s'
           | (s', TypeError) => (s', TypeError)
           end.

Definition throw {A} : Js A := fun s => (s, TypeError).
Definition gets {A} (f : State -> A) : Js A := fun s => (s, Normal (f s)).
Definition modify (f : State -> State) : Js unit := fun s => (f s, Normal tt).

Notation "x <- m ;; k" := (bind m (fun x => k))
  (at level 100, m at next level, right associativity).
Notation "m ;;; k" := (bind m (fun _ => k))
  (at level 100, right associativity).

(** [$.each] over an array: the callback gets the index and the element. *)
Fixpoint each_from {A} (i : nat) (l : list A) (f : nat -> A -> Js unit)
  : Js unit :=
  match l with
  | [] => ret tt
  | x :: l' => f i x ;;; each_from (S i) l' f
  end.

Definition each {A} (l : list A) (f : nat -> A -> Js unit) : Js unit :=
  each_from 0 l f.

(** [$.each] over the own properties of an object. The callback is
    called once for every property; the properties are visited in the
    order of the keys of the map, which need not be the order in which
    the object got them. *)
Definition each_property {V} (m : gmap string V) (f : string -> V -> Js unit)
  : Js unit :=
  each (map_to_list m) (fun _ kv => f kv.1 kv.2).

(** The state a handler leaves behind; an uncaught error ends the
    handler, nothing more. *)
Definition run {A} (m : Js A) (s : State) : State := (m s).1.

Definition completes {A} (m : Js A) (s : State) : Prop :=
  exists a, (m s).2 = Normal a.

(** ** The plugin *)

(** [randomColor]: a fresh draw. *)
Definition randomColor : Js Color :=
  fun s => (set_colors (config_colors s) (S (random_calls s)) s,
            Normal (RandomColor (random_calls s))).

(** [$( "#status_" + sanitize_provider(provider) + "_container" ).remove()]
    (lines 35 and 145): what the selector names is looked up in the
    document and removed. The ids of [page_ids] never end in
    [_container], so only the containers are searched. A text that is
    not one identifier (a name with a blank in it, as ["a b"], makes a
    descendant selector) is taken to find nothing. *)
Definition remove_container (provider : string) (s : State) : State :=
  let selector := container_selector provider in
  match id_of_selector selector with
  | Some x =>
      if existsb (has_id x) (status_main s) then
        set_dom ((if by_getElementById selector
                  then remove_first x else remove_every x) (status_main s))
                (dom_log s ++ [Removed provider]) s
      else s
  | None => s
  end.

(** [el.append(html)] for the container of [provider]. *)
Definition append_container (provider : string) (s : State) : State :=
  set_dom (status_main s ++ [mkContainer provider true true])
          (dom_log s ++ [Appended provider]) s.

(** [hostname in config.colors] and [config.colors[hostname]] on the
    object whose own properties are [cs]. *)
Definition has_property {V} (o : gmap string V) (k : string) : bool :=
  bool_decide (is_Some (o !! k)) || bool_decide (k ∈ object_prototype).

Definition read_color (cs : gmap string Color) (h : string) : option Color :=
  match cs !! h with
  | Some c => Some c
  | None => if decide (h ∈ object_prototype) then Some (Inherited h) else None
  end.

(** [config.colors[hostname]]; reading it throws when [config] has no
    [colors]. *)
Definition color_of (h : string) : Js (option Color) :=
  fun s => match config_colors s with
           | Some cs => (s, Normal (read_color cs h))
           | None => (s, TypeError)
           end.

(** The loop of [initialize_chart] that fills [datasets]. *)
Fixpoint new_datasets (l : list Appliance) : Js (list Dataset) :=
  match l with
  | [] => ret []
  | a :: l' =>
      c <- color_of (hostname a) ;;
      ds <- new_datasets l' ;;
      ret (mkDataset (hostname a) c [] :: ds)
  end.

(** Line 48: [$( "#status_" + _provider ).get(0).getContext("2d")]. The
    first element the selector names has to be a [canvas]: when it names
    none, [get(0)] is [undefined], and a [div] has no [getContext];
    either way the call throws. *)
Definition get_context (provider : string) : Js unit :=
  fun s =>
    match id_of_selector (canvas_selector provider) with
    | Some x =>
        match first_with_id x (document (status_main s)) with
        | Some CanvasTag => (s, Normal tt)
        | _ => (s, TypeError)
        end
    | None => (s, TypeError)
    end.

(** [initialize_chart(provider)]; [None] is the [undefined] it returns
    when there is no appliance. [new Chart] is taken to succeed on the
    canvas that was found. *)
Definition initialize_chart (provider : string) : Js (option Chart) :=
  apps <- gets appliances ;;
  match apps with
  | [] => ret None
  | _ =>
      modify (remove_container provider) ;;;
      modify (append_container provider) ;;;
      ds <- new_datasets apps ;;
      get_context provider ;;;
      ret (Some (mkChart [] ds 0))
  end.

Definition get_selected_providers : Js (list string) := gets checked.

(** [get_data]: the request goes out; its [success] callback is
    [success] below, run when the answer arrives. *)
Definition get_data : Js unit :=
  providers <- get_selected_providers ;;
  modify (fun s =>
    set_in_flight
      (in_flight s ++
       [mkRequest (hostname <$> appliances s)
                  ((fun a => XorEncoded (credentials a)) <$> appliances s)
                  providers
                  (negb (global_no_check_hostname s))]) s).

(** The colour loop of [initialize_all] (lines 133-138). *)
Definition assign_color (a : Appliance) : Js unit :=
  cs <- gets config_colors ;;
  match cs with
  | None => throw
  | Some cs =>
      if has_property cs (hostname a) then ret tt
      else
        c <- randomColor ;;
        modify (fun s =>
          set_colors (Some (<[hostname a := c]> cs)) (random_calls s) s)
  end.

(** [initialize_all], the subscriber of [startCharting] and of
    [modifyAppliances]. *)
Definition initialize_all : Js unit :=
  t <- gets toggle ;;
  match t with
  | Start => ret tt
  | Stop =>
      apps <- gets appliances ;;
      match apps with
      | [] => ret tt
      | _ =>
          cs <- gets config_colors ;;
          match cs with
          | None => modify (fun s => set_colors (Some ∅) (random_calls s) s)
          | Some _ => ret tt
          end ;;;
          each apps (fun _ a => assign_color a) ;;;
          providers <- get_selected_providers ;;
          old <- gets charts ;;
          each_property old (fun provider _ =>
            if decide (provider ∈ providers) then ret tt
            else modify (remove_container provider)) ;;;
          modify (set_charts ∅) ;;;
          each providers (fun _ provider =>
            c <- initialize_chart provider ;;
            modify (fun s => set_charts (<[provider := c]> (charts s)) s)) ;;;
          get_data
      end
  end.

(** [window.charts[provider]], read for a property access. *)
Definition chart_of (provider : string) : Js Chart :=
  fun s => match charts s !! provider with
           | Some (Some c) => (s, Normal c)
           | _ => (s, TypeError)
           end.

Definition put_chart (provider : string) (c : Chart) : Js unit :=
  modify (fun s => set_charts (<[provider := Some c]> (charts s)) s).

Definition push_data (v : Value) (d : Dataset) : Dataset :=
  mkDataset (label d) (borderColor d) (data d ++ [v]).

Definition shift_data (d : Dataset) : Dataset :=
  mkDataset (label d) (borderColor d) (tail (data d)).

(** Line 169: [datasets[appliance_index].data.push(data[provider][appliance_index])].
    It throws when the chart has no such dataset and when
    [data[provider]] is [undefined]. *)
Definition push_value (data : Response) (provider : string) (i : nat)
  : Js unit :=
  c <- chart_of provider ;;
  match datasets c !! i, member data provider with
  | Some d, Some m =>
      put_chart provider
        (mkChart (labels c) (<[i := push_data (element m i) d]> (datasets c))
                 (updates c))
  | _, _ => throw
  end.

(** Lines 178-185: the eviction. [n > NaN] is false. *)
Definition exceeds (n : nat) (cap : option Z) : bool :=
  match cap with
  | Some k => bool_decide (k < Z.of_nat n)
  | None => false
  end.

Definition evict (provider : string) : Js unit :=
  c <- chart_of provider ;;
  cap <- gets (fun s => datapoints (config_charts s)) ;;
  match datasets c with
  | [] => throw
  | d0 :: _ =>
      if exceeds (length (data d0)) cap then
        put_chart provider
          (mkChart (tail (labels c)) (shift_data <$> datasets c) (updates c))
      else ret tt
  end.

(** The body of the provider loop of [add_data]. *)
Definition add_provider_data (data : Response) (provider : string)
  : Js unit :=
  c <- chart_of provider ;;
  put_chart provider (mkChart (labels c ++ [time data]) (datasets c) (updates c)) ;;;
  each (resp_appliances data) (fun i _ => push_value data provider i) ;;;
  evict provider ;;;
  c <- chart_of provider ;;
  put_chart provider (mkChart (labels c) (datasets c) (S (updates c))).

Definition add_data (data : Response) : Js unit :=
  providers <- get_selected_providers ;;
  each providers (fun _ provider => add_provider_data data provider).

Definition clearTimeout (t : nat) : Js unit :=
  modify (fun s =>
    set_timers (filter (fun p => p.1 ≠ t) (pending_timers s))
               (window_timeout s) (next_timer s) s).

Definition setTimeout (delay : option Z) : Js nat :=
  fun s => (set_timers (pending_timers s ++ [(next_timer s, delay)])
                       (window_timeout s) (S (next_timer s)) s,
            Normal (next_timer s)).

Definition set_window_timeout (t : nat) : Js unit :=
  modify (fun s => set_timers (pending_timers s) (Some t) (next_timer s) s).

(** The [success] callback of the request of [get_data]. *)
Definition success (data : Response) : Js unit :=
  t <- gets toggle ;;
  match t with
  | Stop =>
      add_data data ;;;
      w <- gets window_timeout ;;
      delay <- gets (fun s => interval (config_charts s)) ;;
      match w with
      | Some old =>
          clearTimeout old ;;;
          t <- setTimeout delay ;;
          set_window_timeout t
      | None =>
          t <- setTimeout delay ;;
          set_window_timeout t
      end
  | Start => ret tt
  end.

(** Modelled from the spec: [$.publish] and [$.subscribe] are not in the
    sources; the spec has them as an in-process publish/subscribe. The
    subscribers take the event as their first argument (so does the
    [modifyAppliances] subscriber of the ssh plugin), as the handlers of
    a jQuery event do, and such an event is dispatched before the call
    that triggers it returns: [$.publish("startCharting", ...)] runs the
    subscribers at once. This plugin subscribes [initialize_all] (line
    228). *)
Definition publish_startCharting : Js unit := initialize_all.

(** The click handler of the toggle. *)
Definition on_click : Js unit :=
  t <- gets toggle ;;
  match t with
  | Start =>
      publish_startCharting ;;;
      modify (set_toggle Stop)
  | Stop => modify (set_toggle Start)
  end.

(** The change handler of the check boxes. *)
Definition on_change : Js unit := publish_startCharting.

(** ** The page as a transition system *)

(** What can happen to the plugin once it is loaded. *)
Inductive Event :=
| Click
| Change (providers : list string)
| ModifyAppliances (apps : list Appliance)
| Answer (i : nat) (data : Response)
| Failure (i : nat)
| Timeout (t : nat).

(** - [Click]: the toggle is clicked;
    - [Change ps]: a check box is toggled, [ps] are the boxes now checked;
    - [ModifyAppliances apps]: the roster becomes [apps] and
      [modifyAppliances] is published;
    - [Answer i data]: the i-th request in flight is answered with [data];
    - [Failure i]: the i-th request in flight fails (no callback);
    - [Timeout t]: the pending timer [t] fires and calls [get_data]. *)
Definition step (e : Event) (s : State) : State :=
  match e with
  | Click => run on_click s
  | Change ps => run on_change (set_checked ps s)
  | ModifyAppliances apps => run initialize_all (set_appliances apps s)
  | Answer i data =>
      match in_flight s !! i with
      | Some _ => run (success data) (set_in_flight (delete i (in_flight s)) s)
      | None => s
      end
  | Failure i => set_in_flight (delete i (in_flight s)) s
  | Timeout t =>
      if decide (t ∈ (pending_timers s).*1) then
        run get_data
          (set_timers (filter (fun p => p.1 ≠ t) (pending_timers s))
                      (window_timeout s) (next_timer s) s)
      else s
  end.

Definition exec (es : list Event) (s : State) : State :=
  foldl (fun s e => step e s) s es.

(** The state once the plugin is loaded (lines 2 and 248-254). *)
Definition loaded (cfg : ChartsConfig) (colors : option (gmap string Color))
    (apps : list Appliance) (boxes : list string) (no_check : bool) : State :=
  mkState (if startonload cfg then Stop else Start) apps boxes no_check
          cfg colors 0 ∅ [] [] [] [] None 0.

Definition reachable (s : State) : Prop :=
  exists cfg colors apps boxes no_check es,
    s = exec es (loaded cfg colors apps boxes no_check).

(** ** Observations of the state *)

(** [keeps f m]: running [m] does not change the observation [f] of the
    state, whether [m] completes or throws. *)
Definition keeps {A B} (f : State -> B) (m : Js A) : Prop :=
  forall s, f (m s).1 = f s.

(** The timer part of the state. *)
Definition timers (s : State) : list (nat * option Z) * option nat * nat :=
  (pending_timers s, window_timeout s, next_timer s).

(** A handler that only touches the charts, the page and the colours. *)
Record frame_of_widgets {B} (f : State -> B) : Prop := {
  fw_colors : forall c n s, f (set_colors c n s) = f s;
  fw_charts : forall c s, f (set_charts c s) = f s;
  fw_dom : forall d l s, f (set_dom d l s) = f s
}.

(** ** The handlers in closed form *)

(** The state after the timer part of [success], spelled out. *)
Definition rescheduled (s : State) : State :=
  set_timers
    (match window_timeout s with
     | Some old => filter (fun p => p.1 ≠ old) (pending_timers s)
     | None => pending_timers s
     end ++ [(next_timer s, interval (config_charts s))])
    (Some (next_timer s)) (S (next_timer s)) s.

(** At most the timer named by [window.timeout] is pending. *)
Definition timer_inv (s : State) : Prop :=
  match pending_timers s with
  | [] => True
  | [(t, _)] => window_timeout s = Some t
  | _ => False
  end.

(** [window.charts[provider] = c]. *)
Definition with_chart (p : string) (c : Chart) (s : State) : State :=
  set_charts (<[p := Some c]> (charts s)) s.

(** The chart after lines 163-171, 178-185 and 186, when no read fails. *)
Definition pushed (t : Z) (vs : list Z) (c : Chart) : Chart :=
  mkChart (labels c ++ [t])
          (imap (fun j d => push_data (number_at vs j) d) (datasets c))
          (updates c).

Definition evicted (cap : option Z) (c : Chart) : Chart :=
  match datasets c with
  | d0 :: _ =>
      if exceeds (length (data d0)) cap then
        mkChart (tail (labels c)) (shift_data <$> datasets c) (updates c)
      else c
  | [] => c
  end.

Definition updated (c : Chart) : Chart :=
  mkChart (labels c) (datasets c) (S (updates c)).

Definition sampled (cap : option Z) (t : Z) (vs : list Z) (c : Chart) : Chart :=
  updated (evicted cap (pushed t vs c)).

(** The datasets while the loop of line 164 runs: the indices from [i]
    to [i + n] have got their value. *)
Definition pushed_range (vs : list Z) (i n : nat) (ds : list Dataset)
  : list Dataset :=
  imap (fun j d => if decide (i <= j < i + n)%nat
                   then push_data (number_at vs j) d else d) ds.

(** The label list and every series of the chart have one length. *)
Definition aligned (c : Chart) : Prop :=
  Forall (fun d => length (data d) = length (labels c)) (datasets c).

(** The answer has what [add_provider_data] reads for [p]: a list with
    one number per appliance, and as many appliances as the chart of [p]
    has datasets. *)
Definition answers_for (data : Response) (p : string) (s : State) : Prop :=
  exists c vs,
    charts s !! p = Some (Some c) /\ datasets c ≠ [] /\
    resp_values data !! p = Some vs /\
    length vs = length (resp_appliances data) /\
    length (resp_appliances data) = length (datasets c).

(** What a pass over providers does to each chart that was there. *)
Definition charts_evolve (s s' : State) : Prop :=
  forall p c, charts s !! p = Some (Some c) ->
    exists c', charts s' !! p = Some (Some c') /\
               length (datasets c') = length (datasets c) /\
               (aligned c -> aligned c').

(** The last [n] elements of a list. *)
Definition last_n {A} (n : nat) (l : list A) : list A :=
  drop (length l - n) l.

(** What the answer [r] has for provider [p] and the j-th appliance:
    [r[p][j]]. *)
Definition value_at (r : Response) (p : string) (j : nat) : Value :=
  match member r p with
  | Some m => element m j
  | None => Undefined
  end.

(** The samples of the answers [rs], appended one after the other to the
    series of provider [p]. *)
Definition append_all (p : string) (rs : list Response) : Js unit :=
  each rs (fun _ r => add_provider_data r p).

(** Provider [p] has received its sample of [data] between [s] and [s']. *)
Definition received (data : Response) (p : string) (s s' : State) : Prop :=
  exists c vs,
    charts s !! p = Some (Some c) /\
    resp_values data !! p = Some vs /\
    charts s' !! p
    = Some (Some (sampled (datapoints (config_charts s)) (time data) vs c)).

(** All or nothing: the answer reaches every selected provider, or no
    chart is touched. *)
Definition commits_atomically (s : State) (data : Response) : Prop :=
  let s' := run (success data) s in
  (forall p, p ∈ checked s -> received data p s s') \/ charts s' = charts s.

(** One turn of the colour loop. *)
Definition colored (s : State) (a : Appliance) : State :=
  match config_colors s with
  | Some cs =>
      if has_property cs (hostname a) then s
      else
        set_colors (Some (<[hostname a := RandomColor (random_calls s)]> cs))
                   (S (random_calls s)) s
  | None => s
  end.

(** One turn of the loop over the old charts, for the selection [ps]. *)
Definition dropped (ps : list string) (s : State) (kv : string * option Chart)
  : State :=
  if decide (kv.1 ∈ ps) then s else remove_container kv.1 s.

(** The chart [initialize_chart] returns. *)
Definition new_chart (s : State) : Chart :=
  mkChart []
    ((fun a => mkDataset (hostname a)
                 (config_colors s ≫= fun cs => read_color cs (hostname a)) [])
       <$> appliances s)
    0.

(** One turn of the loop over the selection, when line 48 finds the
    canvas. *)
Definition installed (s : State) (p : string) : State :=
  let s1 := append_container p (remove_container p s) in
  set_charts (<[p := Some (new_chart s)]> (charts s1)) s1.

Definition with_colors (s : State) : State :=
  match config_colors s with
  | None => set_colors (Some ∅) (random_calls s) s
  | Some _ => s
  end.

(** The state [initialize_all] leaves when the toggle displays "Stop",
    there is an appliance and no turn of the loop over the selection
    throws. *)
Definition synced (s : State) : State :=
  let s1 := foldl colored (with_colors s) (appliances s) in
  let s2 := foldl (dropped (checked s)) s1 (map_to_list (charts s1)) in
  let s3 := foldl installed (set_charts ∅ s2) (checked s) in
  run get_data s3.

(** What the loops leave alone. *)
Definition roster (s : State) : Toggle * list Appliance * list string :=
  (toggle s, appliances s, checked s).

Definition settings (s : State)
  : list Appliance * option (gmap string Color) * nat :=
  (appliances s, config_colors s, random_calls s).

Definition page (s : State) : list Container * list DomOp :=
  (status_main s, dom_log s).

(** A container as the template makes it, and the providers of the
    containers on the page. *)
Definition whole (p : string) : Container := mkContainer p true true.

Definition container_names (s : State) : list string :=
  cont_provider <$> status_main s.

(** The containers as the plugin leaves them when it only ever charts
    chartable providers: every container is whole, no provider has two,
    and the providers are chartable, so that every id is that of one
    element. *)
Definition tidy_page (s : State) : Prop :=
  status_main s = whole <$> container_names s /\
  NoDup (container_names s) /\
  Forall (fun p => chartable p = true) (container_names s).

(** The registry names chartable providers only, so that every selector
    line 145 builds is the id of the container of its provider. *)
Definition chartable_registry (s : State) : Prop :=
  forall p, is_Some (charts s !! p) -> chartable p = true.

(** A tidy page: tidy containers and a registry of chartable providers.
    On such a page, and with chartable providers checked, every selector
    the plugin builds is one identifier. *)
Definition tidy (s : State) : Prop := tidy_page s /\ chartable_registry s.

(** The providers of the containers and the log, after one turn of the
    loop over the selection on a tidy page. *)
Definition page_installed (dl : list string * list DomOp) (p : string)
  : list string * list DomOp :=
  (filter (fun c => c ≠ p) dl.1 ++ [p],
   dl.2 ++ (if decide (p ∈ dl.1) then [Removed p] else []) ++ [Appended p]).

Definition names_page (s : State) : list string * list DomOp :=
  (container_names s, dom_log s).

(** The containers after the loop: the others, then the selected ones. *)
Definition rebuilt (ps : list string) (d : list string) : list string :=
  foldl (fun d p => filter (fun c => c ≠ p) d ++ [p]) d ps.

(** [h in config.colors]. *)
Definition has_color (s : State) (h : string) : Prop :=
  exists cs, config_colors s = Some cs /\ has_property cs h = true.

(** One turn of the loop over the selection, as [initialize_all] has it. *)
Definition install (provider : string) : Js unit :=
  c <- initialize_chart provider ;;
  modify (fun s => set_charts (<[provider := c]> (charts s)) s).

(** The second half of [initialize_all] when no turn throws: the charts
    of the selection are built anew and the first request goes out. *)
Definition resync (s : State) : State :=
  run get_data (foldl installed (set_charts ∅ s) (checked s)).

Definition request_of (s : State) : Request :=
  mkRequest (hostname <$> appliances s)
            ((fun a => XorEncoded (credentials a)) <$> appliances s)
            (checked s) (negb (global_no_check_hostname s)).

(** The first half: the colours, and the containers of the charts that
    are no longer selected. *)
Definition cleaned (s : State) : State :=
  let s1 := foldl colored (with_colors s) (appliances s) in
  foldl (dropped (checked s)) s1 (map_to_list (charts s1)).

(** What the second half reads and leaves as it is. *)
Definition inputs (s : State)
  : Toggle * list Appliance * list string * bool
    * option (gmap string Color) * nat :=
  (toggle s, appliances s, checked s, global_no_check_hostname s,
   config_colors s, random_calls s).

(** What C2 promises of a change of the selection: the container of a
    chart that is registered and no longer selected is gone. *)
Definition deselected_widgets_removed (s : State) (ps : list string) : Prop :=
  forall p, is_Some (charts s !! p) -> p ∉ ps ->
            p ∉ container_names (step (Change ps) s).

(** What C4 promises of a second [sync] with the same selection and
    roster: no container is removed and none is appended. *)
Definition second_sync_does_nothing (s : State) : Prop :=
  let s1 := run initialize_all s in
  dom_log (run initialize_all s1) = dom_log s1.

(** What C10 promises of [add_data]: when every chart is aligned and the
    answer carries one number per device for every selected provider,
    the chart of every selected provider is aligned afterwards. *)
Definition one_value_per_device (data : Response) (s : State) : Prop :=
  Forall (fun p => exists vs, resp_values data !! p = Some vs /\
                              length vs = length (resp_appliances data))
         (checked s).

Definition alignment_kept_as_claimed (s : State) (data : Response) : Prop :=
  (forall p c, charts s !! p = Some (Some c) -> aligned c) ->
  one_value_per_device data s ->
  forall p, p ∈ checked s ->
    exists c', charts (run (add_data data) s) !! p = Some (Some c') /\
               aligned c'.

(** How a pass of [add_data] may change the chart of a provider: the
    datasets stay the same in number, an aligned chart stays aligned,
    its labels do not become fewer, and with a cap [N] they do not
    become more than [N] unless they were. *)
Definition grown (cap : option Z) (c c' : Chart) : Prop :=
  length (datasets c') = length (datasets c) /\
  (aligned c ->
   aligned c' /\
   (length (labels c) <= length (labels c'))%nat /\
   forall N, cap = Some N ->
     Z.of_nat (length (labels c')) <= Z.max (Z.of_nat (length (labels c))) N).

(** What the loop over the selection keeps, whether it runs to its end
    or stops at line 48: the settings, and that every chart in the
    registry is the new chart of these settings. *)
Definition all_new (s0 s : State) : Prop :=
  settings s = settings s0 /\
  forall q v, charts s !! q = Some v -> v = Some (new_chart s0).

(** The events after which every checked provider is chartable, given
    that they were before. *)
Definition chartable_event (e : Event) : Prop :=
  match e with
  | Change ps => Forall (fun p => chartable p = true) ps
  | _ => True
  end.

(** ** Further observations of the page *)

(** The polls under way: a request in flight will be answered, a pending
    timer will fire and post the next request. *)
Definition poll_chains (s : State) : nat :=
  length (in_flight s) + length (pending_timers s).

(** The events that run [initialize_all] for a new selection or roster. *)
Definition starts_chain (e : Event) : bool :=
  match e with
  | Change _ | ModifyAppliances _ => true
  | _ => false
  end.

(** [config.colors[h]], [None] when there is none. *)
Definition color_at (s : State) (h : string) : option Color :=
  config_colors s ≫= (.!! h).

(** The appliances a chart was built for: the labels of its datasets. *)
Definition layout (c : Chart) : list string := label <$> datasets c.

Definition layouts (s : State) : gmap string (option (list string)) :=
  (fun v : option Chart => layout <$> v) <$> charts s.

(** Every property of [window.charts] holds a chart, and all the charts
    are built for the same appliances, at least one. *)
Definition registry_ok (s : State) : Prop :=
  exists hs, hs ≠ [] /\
    forall p v, charts s !! p = Some v ->
      exists c, v = Some c /\ layout c = hs.

(** ** Ids of terminals and colour texts *)

(** The download handler of the ssh plugin reads the host name back from
    the id of the terminal: [id.replace( /ssh_/g, "" )]. [skip] counts
    the characters of a match that are still to be dropped. *)
Definition matches_ssh (s : string) : bool :=
  match s with
  | String c1 (String c2 (String c3 (String c4 _))) =>
      (Ascii.eqb c1 "s" && Ascii.eqb c2 "s" && Ascii.eqb c3 "h"
       && Ascii.eqb c4 "_")%char
  | _ => false
  end.

Fixpoint remove_ssh (skip : nat) (s : string) : string :=
  match s with
  | EmptyString => EmptyString
  | String c rest =>
      match skip with
      | S k => remove_ssh k rest
      | O => if matches_ssh s then remove_ssh 3%nat rest
             else String c (remove_ssh 0%nat rest)
      end
  end.

(** The id of the terminal of a host (the template of line 12) and the
    host name the download handler sends (line 57). *)
Definition terminal_id (hostname : string) : string := "ssh_" +:+ hostname.
Definition download_hostname (id : string) : string := remove_ssh 0%nat id.

Definition contains_ssh (s : string) : Prop :=
  exists pre post, s = pre +:+ "ssh_" +:+ post.

(** The text [randomColor] returns (lines 5-10), for the number [n] that
    [Math.floor(Math.random()*16777215)] yields:
    ['#' + n.toString(16)]. *)
Definition hex_of (n : N) : string :=
  match n with
  | N0 => "0"
  | Npos p => HexString.Raw.of_pos p ""
  end.

Definition color_text (n : N) : string := String "#" (hex_of n).

(** The number of hexadecimal digits of a positive number. *)
Definition hex_digits (p : positive) : nat :=
  ((Pos.size_nat p + 3) / 4)%nat.

(** ** The ssh plugin

    The second plugin of the sources shares [environment.appliances]
    with the charts: one terminal per appliance, a text box for the
    command, and the answers of [/ssh] appended to the transcripts. *)

(** A terminal under [#mast.datapower.ssh]: the [div] with the id
    [ssh_<host>] and the text of its [textarea]. *)
Record Terminal := mkTerminal {
  term_host : string;
  transcript : string
}.

(** The body of the POST to [/ssh]. *)
Record SshRequest := mkSshRequest {
  ssh_command : string;
  ssh_hosts : list string;
  ssh_credentials : list Obfuscated;
  ssh_session : string
}.

(** What the ssh plugin reads and writes:
    - [ssh_appliances]: [environment.appliances];
    - [ssh_checked]: the host names whose check box
      [input[type='checkbox'][name=<host>]] is checked;
    - [terminals]: the terminals, in document order;
    - [command_box]: the text in [input[name='sshCommand']];
    - [ephemeral_session]: the value of that hidden field;
    - [ssh_posted]: the requests posted and not yet answered. *)
Record SshPage := mkSshPage {
  ssh_appliances : list Appliance;
  ssh_checked : list string;
  terminals : list Terminal;
  command_box : string;
  ephemeral_session : string;
  ssh_posted : list SshRequest
}.

(** The first terminal of a host. *)
Definition terminal_of (ts : list Terminal) (h : string) : option Terminal :=
  head (filter (fun t => term_host t = h) ts).

(** Line 21: the selector of the terminal of a host, with the
    replacement of [sanitize_provider]. *)
Definition terminal_selector (h : string) : string :=
  "#ssh_" +:+ sanitize_provider h.

(** [$( id )] of line 25: the first terminal whose id the selector
    names. The other ids of the pane begin with [download_]; the page
    around the pane is not in the sources and is taken to have no
    element of such an id. A text that is not one identifier is taken to
    find nothing. *)
Definition find_terminal (ts : list Terminal) (h : string) : option Terminal :=
  match id_of_selector (terminal_selector h) with
  | Some x => head (filter (fun t => terminal_id (term_host t) = x) ts)
  | None => None
  end.

Definition transcript_of (ts : list Terminal) (h : string) : option string :=
  transcript <$> terminal_of ts h.

(** [textarea.val( cont )] of line 42 on what
    [$( "#mast\\.datapower\\.ssh" ).find( id )] gives: the first terminal
    of the host, or every one. *)
Fixpoint set_first (h text : string) (ts : list Terminal) : list Terminal :=
  match ts with
  | [] => []
  | t :: ts' =>
      if decide (term_host t = h) then mkTerminal (term_host t) text :: ts'
      else t :: set_first h text ts'
  end.

Definition set_every (h text : string) (ts : list Terminal) : list Terminal :=
  (fun t => if decide (term_host t = h) then mkTerminal (term_host t) text
            else t) <$> ts.

(** Lines 40-44 for one host whose terminal was found in the old pane. *)
Definition restore (old : list Terminal) (ts : list Terminal) (h : string)
  : list Terminal :=
  match find_terminal old h with
  | Some t0 =>
      if by_getElementById (terminal_selector h)
      then set_first h (transcript t0) ts
      else set_every h (transcript t0) ts
  | None => ts
  end.

(** The text that the rebuild writes back into the terminal of [h]. *)
Definition restored (old : list Terminal) (h : string) (text : string) : string :=
  match terminal_of old h with
  | Some t0 => transcript t0
  | None => text
  end.

(** The subscriber of [modifyAppliances] (lines 5-45). For every
    appliance the [div] of its terminal is copied when the selector
    finds one, or made from the template; either way the new pane has
    one terminal per appliance with an empty [textarea], since the text
    a [textarea] was given by [val] is not part of its [outerHTML]. Then
    the texts remembered in [content] are written back, selector by
    selector. *)
Definition ssh_rebuild (s : SshPage) : SshPage :=
  mkSshPage (ssh_appliances s) (ssh_checked s)
            (foldl (restore (terminals s))
                   ((fun a => mkTerminal (hostname a) "") <$> ssh_appliances s)
                   (hostname <$> ssh_appliances s))
            "" (ephemeral_session s) (ssh_posted s).

(** The appliances whose box is checked, in the order of the roster. *)
Definition checked_appliances (s : SshPage) : list Appliance :=
  filter (fun a => hostname a ∈ ssh_checked s) (ssh_appliances s).

(** The click on "Issue Command" (lines 65-100): the text box is
    emptied and the command is posted for the checked appliances. *)
Definition ssh_issue (s : SshPage) : SshPage :=
  mkSshPage (ssh_appliances s) (ssh_checked s) (terminals s) ""
            (ephemeral_session s)
            (ssh_posted s ++
             [mkSshRequest (command_box s)
                (hostname <$> checked_appliances s)
                ((fun a => XorEncoded (credentials a)) <$> checked_appliances s)
                (ephemeral_session s)]).

(** [content + _data[hostname]]: a missing key reads as [undefined],
    which the concatenation turns into text. *)
Definition output_for (answer : gmap string string) (h : string) : string :=
  match answer !! h with
  | Some out => out
  | None => "undefined"
  end.

(** Lines 108-112 for one host: the text of the first [textarea] of that
    name, with the output after it, is written to every one of them. *)
Definition append_output (answer : gmap string string) (ts : list Terminal)
    (h : string) : list Terminal :=
  match terminal_of ts h with
  | Some t0 =>
      (fun t => if decide (term_host t = h)
                then mkTerminal (term_host t)
                                (transcript t0 +:+ output_for answer h)
                else t) <$> ts
  | None => ts
  end.

(** The callback of the POST (lines 100-121), for the appliances that
    are checked when the answer arrives. *)
Definition ssh_answer (answer : gmap string string) (s : SshPage) : SshPage :=
  mkSshPage (ssh_appliances s) (ssh_checked s)
            (foldl (append_output answer) (terminals s)
                   (hostname <$> checked_appliances s))
            (command_box s) (ephemeral_session s) (ssh_posted s).

(** What can happen to the ssh pane. *)
Inductive SshEvent :=
| SshModify (apps : list Appliance)
| SshCheck (hosts : list string)
| SshType (text : string)
| SshIssue
| SshAnswer (i : nat) (answer : gmap string string).

(** - [SshModify apps]: the roster becomes [apps] and [modifyAppliances]
      is published;
    - [SshCheck hosts]: the boxes of [hosts] are the checked ones now;
    - [SshType text]: the user types [text] into the text box;
    - [SshIssue]: the button is clicked (or Enter is pressed in the box);
    - [SshAnswer i answer]: the i-th request posted is answered. *)
Definition ssh_step (e : SshEvent) (s : SshPage) : SshPage :=
  match e with
  | SshModify apps =>
      ssh_rebuild (mkSshPage apps (ssh_checked s) (terminals s)
                     (command_box s) (ephemeral_session s) (ssh_posted s))
  | SshCheck hosts =>
      mkSshPage (ssh_appliances s) hosts (terminals s) (command_box s)
                (ephemeral_session s) (ssh_posted s)
  | SshType text =>
      mkSshPage (ssh_appliances s) (ssh_checked s) (terminals s) text
                (ephemeral_session s) (ssh_posted s)
  | SshIssue => ssh_issue s
  | SshAnswer i answer =>
      match ssh_posted s !! i with
      | Some _ =>
          ssh_answer answer
            (mkSshPage (ssh_appliances s) (ssh_checked s) (terminals s)
               (command_box s) (ephemeral_session s)
               (delete i (ssh_posted s)))
      | None => s
      end
  end.

Definition ssh_exec (es : list SshEvent) (s : SshPage) : SshPage :=
  foldl (fun s e => ssh_step e s) s es.

(** ** Concrete pages *)

Module Scenario.
Definition cfg : ChartsConfig := mkChartsConfig (Some 3) (Some 1000) true.
Definition dp1 : Appliance := mkAppliance "dp1" "admin:secret".

(** An answer for one appliance and the providers "cpu" and "memory". *)
Definition answer (t : Z) : Response :=
  mkResponse t ["dp1"] {[ "cpu" := [t + 40]; "memory" := [t + 70] ]}.

(** The same answer without the key "memory". *)
Definition answer_without_memory (t : Z) : Response :=
  mkResponse t ["dp1"] {[ "cpu" := [t + 40] ]}.

(** The page is loaded with [startonload], without appliances and with
    the box "cpu" checked. *)
Definition at_load : State := loaded cfg None [] ["cpu"] false.

(** An appliance is added: monitoring starts with a fresh chart. *)
Definition started : State :=
  Eval vm_compute in exec [ModifyAppliances [dp1]] at_load.

Definition fresh_chart : Chart :=
  mkChart [] [mkDataset "dp1" (Some (RandomColor 0)) []] 0.

(** The same with the boxes "cpu" and "memory" checked. *)
Definition started2 : State :=
  Eval vm_compute in
    exec [ModifyAppliances [dp1]]
         (loaded cfg None [] ["cpu"; "memory"] false).

(** An appliance is added, monitoring starts, the first answer comes. *)
Definition monitoring : State :=
  Eval vm_compute in
    exec [ModifyAppliances [dp1]; Answer 0 (answer 0)] at_load.

(** Then the toggle is clicked: the page is idle, the chart stays. *)
Definition paused : State := Eval vm_compute in exec [Click] monitoring.

(** Then the toggle is clicked and the pending timer fires. *)
Definition stopped : State :=
  Eval vm_compute in exec [Click; Timeout 0] monitoring.

(** While the page is idle "memory" is checked as well, and the toggle
    is clicked again: "memory" is selected and has no chart. *)
Definition resumed : State :=
  Eval vm_compute in exec [Change ["cpu"; "memory"]; Click] paused.

(** The page [resumed] once "cpu" has its sample of time 2000. *)
Definition resumed_cpu : State :=
  Eval vm_compute in run (add_provider_data (answer 2000) "cpu") resumed.

(** A page as [started] whose [datapoints] is not a number. *)
Definition started_no_cap : State :=
  Eval vm_compute in
    exec [ModifyAppliances [dp1]]
         (loaded (mkChartsConfig None (Some 1000) true) None [] ["cpu"] false).

(** What follows a stop at t=500: the timer fires at t=1000 and the
    request it makes is answered. *)
Definition after_stop : list Event := [Timeout 0; Answer 0 (answer 1000)].

(** The chart of "cpu" after the first answer. *)
Definition first_chart : Chart :=
  mkChart [0] [mkDataset "dp1" (Some (RandomColor 0)) [Num 40]] 1.

(** Four answers, with the times 1, 2, 3 and 4. *)
Definition four_answers : list Response :=
  [answer 1; answer 2; answer 3; answer 4].

(** The page [started2] once "cpu" has its sample of time 5. *)
Definition cpu_sampled : State :=
  set_charts
    (<["cpu" := Some (mkChart [5] [mkDataset "dp1" (Some (RandomColor 0))
                                              [Num 45]] 1)]>
       (charts started2))
    started2.

Definition dp2 : Appliance := mkAppliance "dp2" "admin:secret".

(** The roster grows from "dp1" to "dp1" and "dp2" while the first
    request, posted for "dp1" alone, is in flight: the chart of "cpu" is
    rebuilt with two datasets before that request is answered. *)
Definition roster_grown : State :=
  Eval vm_compute in
    exec [ModifyAppliances [dp1]; ModifyAppliances [dp1; dp2]] at_load.

(** The ssh pane: two appliances, "dp1" checked, a command issued. *)
Definition ssh_issued : SshPage :=
  Eval vm_compute in
    ssh_exec [SshModify [dp1; mkAppliance "dp2" "admin:secret"];
              SshCheck ["dp1"]; SshType "show version"; SshIssue]
             (mkSshPage [] [] [] "" "session-7" []).


(** The pane after an answer with output for "dp1". *)
Definition ssh_answered : SshPage :=
  Eval vm_compute in
    ssh_exec [SshAnswer 0 {[ "dp1" := "Version 9" ]}] ssh_issued.
End Scenario.


(** * Proofs *)

(** ** Frame reasoning for handlers *)

Section Keeps.
Context {B : Type} (f : State -> B).

Lemma keeps_ret {A} (a : A) : keeps f (ret a).
Proof. intros s; reflexivity. Qed.

Lemma keeps_throw {A} : keeps f (@throw A).
Proof. intros s; reflexivity. Qed.

Lemma keeps_gets {A} (g : State -> A) : keeps f (gets g).
Proof. intros s; reflexivity. Qed.

Lemma keeps_modify (g : State -> State) :
  (forall s, f (g s) = f s) -> keeps f (modify g).
Proof. intros H s; apply H. Qed.

Lemma keeps_bind {A C} (m : Js A) (k : A -> Js C) :
  keeps f m -> (forall a, keeps f (k a)) -> keeps f (bind m k).
Proof.
  intros Hm Hk s. unfold bind.
  specialize (Hm s). destruct (m s) as [s' [a|]]; simpl in *.
  - rewrite Hk. exact Hm.
  - exact Hm.
Qed.

Lemma keeps_each_from {A} (l : list A) (g : nat -> A -> Js unit) :
  (forall i x, keeps f (g i x)) -> forall i, keeps f (each_from i l g).
Proof.
  intros Hg. induction l as [|x l IH]; intros i; simpl.
  - apply keeps_ret.
  - apply keeps_bind; [apply Hg | intros _; apply IH].
Qed.

Lemma keeps_each {A} (l : list A) (g : nat -> A -> Js unit) :
  (forall i x, keeps f (g i x)) -> keeps f (each l g).
Proof. intros Hg. apply keeps_each_from, Hg. Qed.
End Keeps.

Ltac keeps_step :=
  match goal with
  | |- keeps _ (bind _ _) => apply keeps_bind; [| intros ?]
  | |- keeps _ (ret _) => apply keeps_ret
  | |- keeps _ throw => apply keeps_throw
  | |- keeps _ (gets _) => apply keeps_gets
  | |- keeps _ get_selected_providers => apply keeps_gets
  | |- keeps _ (each _ _) => apply keeps_each; intros ? ?
  | |- keeps _ (each_property _ _) => apply keeps_each; intros ? ?
  | |- keeps _ (modify _) => apply keeps_modify; intros ?
  | |- keeps _ (match ?x with _ => _ end) => destruct x
  | |- keeps _ (if ?x then _ else _) => destruct x
  end.

Lemma remove_container_frame {B} (f : State -> B) provider :
  (forall d l s, f (set_dom d l s) = f s) ->
  forall s, f (remove_container provider s) = f s.
Proof.
  intros H s. unfold remove_container.
  destruct (id_of_selector _); [|done]. by destruct (existsb _ _).
Qed.

Lemma keeps_get_context {B} (f : State -> B) p : keeps f (get_context p).
Proof.
  intros s. unfold get_context. destruct (id_of_selector _); [|done].
  by destruct (first_with_id _ _) as [[]|].
Qed.

Lemma keeps_chart_of {B} (f : State -> B) p : keeps f (chart_of p).
Proof. intros s. unfold chart_of. by destruct (charts s !! p) as [[c|]|]. Qed.

Lemma keeps_color_of {B} (f : State -> B) h : keeps f (color_of h).
Proof. intros s. unfold color_of. by destruct (config_colors s). Qed.

Lemma keeps_new_datasets {B} (f : State -> B) l : keeps f (new_datasets l).
Proof.
  induction l as [|a l IH]; simpl; [apply keeps_ret|].
  apply keeps_bind; [apply keeps_color_of | intros c].
  apply keeps_bind; [apply IH | intros ds; apply keeps_ret].
Qed.

Lemma keeps_randomColor {B} (f : State -> B) :
  (forall c n s, f (set_colors c n s) = f s) -> keeps f randomColor.
Proof. intros H s. apply H. Qed.

Lemma keeps_setTimeout {B} (f : State -> B) d :
  (forall p w n s, f (set_timers p w n s) = f s) -> keeps f (setTimeout d).
Proof. intros H s. apply H. Qed.

Lemma keeps_get_data {B} (f : State -> B) :
  (forall r s, f (set_in_flight r s) = f s) -> keeps f get_data.
Proof. intros H. unfold get_data. repeat keeps_step. apply H. Qed.

Lemma keeps_initialize_chart {B} (f : State -> B) p :
  frame_of_widgets f -> keeps f (initialize_chart p).
Proof.
  intros [Hc Hm Hd]. unfold initialize_chart.
  apply keeps_bind; [apply keeps_gets | intros apps].
  destruct apps; [apply keeps_ret|].
  repeat keeps_step; try apply keeps_new_datasets;
    try apply keeps_get_context.
  - by apply remove_container_frame.
  - apply Hd.
Qed.

Lemma keeps_initialize_all {B} (f : State -> B) :
  frame_of_widgets f -> (forall r s, f (set_in_flight r s) = f s) ->
  keeps f initialize_all.
Proof.
  intros Hw Hr. pose proof Hw as [Hc Hm Hd]. unfold initialize_all, assign_color.
  repeat keeps_step;
    try apply keeps_randomColor; try apply keeps_initialize_chart;
    try apply keeps_get_data; try apply remove_container_frame; auto.
Qed.

Lemma keeps_add_provider_data {B} (f : State -> B) data p :
  (forall c s, f (set_charts c s) = f s) ->
  keeps f (add_provider_data data p).
Proof.
  intros Hm. unfold add_provider_data, evict, push_value, put_chart.
  repeat keeps_step; try apply keeps_chart_of; auto.
Qed.

Lemma keeps_add_data {B} (f : State -> B) data :
  (forall c s, f (set_charts c s) = f s) -> keeps f (add_data data).
Proof.
  intros Hm. unfold add_data.
  repeat keeps_step. by apply keeps_add_provider_data.
Qed.

(** ** The toggle and the timer *)

Lemma initialize_all_idle (s : State) :
  toggle s = Start -> initialize_all s = (s, Normal tt).
Proof. intros H. unfold initialize_all, bind, gets. simpl. by rewrite H. Qed.

Lemma initialize_all_no_appliance (s : State) :
  appliances s = [] -> initialize_all s = (s, Normal tt).
Proof.
  intros H. unfold initialize_all, bind, gets. simpl.
  destruct (toggle s); [done|]. by rewrite H.
Qed.

Lemma success_idle (s : State) (data : Response) :
  toggle s = Start -> success data s = (s, Normal tt).
Proof. intros H. unfold success, bind, gets. simpl. by rewrite H. Qed.

Lemma success_monitoring (s : State) (data : Response) :
  toggle s = Stop ->
  success data s =
    match add_data data s with
    | (s1, Normal _) => (rescheduled s1, Normal tt)
    | (s1, TypeError) => (s1, TypeError)
    end.
Proof.
  intros H. unfold success. unfold bind at 1. unfold gets at 1. rewrite H.
  unfold bind at 1. destruct (add_data data s) as [s1 [[]|]]; [|done].
  unfold bind, gets, rescheduled. simpl.
  by destruct (window_timeout s1).
Qed.

Lemma timers_add_data (s : State) (data : Response) :
  timers (add_data data s).1 = timers s.
Proof. by apply (keeps_add_data timers). Qed.

Lemma timers_initialize_all (s : State) :
  timers (initialize_all s).1 = timers s.
Proof. by apply (keeps_initialize_all timers). Qed.

Lemma timers_get_data (s : State) : timers (get_data s).1 = timers s.
Proof. by apply (keeps_get_data timers). Qed.

Lemma toggle_initialize_all (s : State) :
  toggle (initialize_all s).1 = toggle s.
Proof. by apply (keeps_initialize_all toggle). Qed.

Lemma timers_eq (s s' : State) :
  timers s' = timers s ->
  pending_timers s' = pending_timers s /\
  window_timeout s' = window_timeout s /\
  next_timer s' = next_timer s.
Proof. unfold timers. intros H. by simplify_eq. Qed.

Lemma timer_inv_timers (s s' : State) :
  timers s' = timers s -> timer_inv s -> timer_inv s'.
Proof.
  intros H. apply timers_eq in H as (Hp & Hw & _).
  unfold timer_inv. by rewrite Hp, Hw.
Qed.

Lemma timer_inv_length (s : State) :
  timer_inv s -> (length (pending_timers s) <= 1)%nat.
Proof.
  unfold timer_inv.
  destruct (pending_timers s) as [|[t d] [|q l]]; simpl; [lia | lia | done].
Qed.

Lemma timer_inv_rescheduled (s : State) :
  timer_inv s ->
  pending_timers (rescheduled s) = [(next_timer s, interval (config_charts s))]
  /\ window_timeout (rescheduled s) = Some (next_timer s).
Proof.
  unfold timer_inv, rescheduled. simpl.
  destruct (pending_timers s) as [|[t d] [|q l]]; try done.
  - intros _. by destruct (window_timeout s).
  - intros ->. rewrite filter_cons, filter_nil. simpl.
    by case_decide.
Qed.

Lemma timer_inv_filter (s : State) (t : nat) :
  timer_inv s ->
  timer_inv (set_timers (filter (fun p => p.1 ≠ t) (pending_timers s))
                        (window_timeout s) (next_timer s) s).
Proof.
  unfold timer_inv. simpl.
  destruct (pending_timers s) as [|[t' d] [|q l]]; try done.
  intros Hw. rewrite filter_cons, filter_nil. by case_decide.
Qed.

Lemma timer_inv_step (e : Event) (s : State) :
  timer_inv s -> timer_inv (step e s).
Proof.
  intros Hs. destruct e as [|ps|apps|i data|i|t]; simpl.
  - unfold run, on_click, publish_startCharting, bind, gets. simpl.
    destruct (toggle s) eqn:Ht; [|done].
    pose proof (timers_initialize_all s) as Hk.
    destruct (initialize_all s) as [s1 [[]|]]; simpl in *;
      by apply (timer_inv_timers s).
  - unfold run, on_change, publish_startCharting.
    eapply timer_inv_timers; [apply timers_initialize_all | done].
  - unfold run.
    eapply timer_inv_timers; [apply timers_initialize_all | done].
  - destruct (in_flight s !! i); [|done].
    set (s' := set_in_flight _ s).
    assert (timer_inv s') as Hs' by done.
    unfold run. destruct (toggle s') eqn:Ht.
    + by rewrite success_idle.
    + rewrite success_monitoring by done.
      pose proof (timers_add_data s' data) as Hk.
      destruct (add_data data s') as [s1 [[]|]]; simpl in *.
      * apply (timer_inv_timers s') in Hk; [|done].
        destruct (timer_inv_rescheduled s1 Hk) as [Hp Hw].
        unfold timer_inv. by rewrite Hp, Hw.
      * by apply (timer_inv_timers s').
  - done.
  - case_decide; [|done]. unfold run.
    eapply timer_inv_timers; [apply timers_get_data |].
    by apply timer_inv_filter.
Qed.

Lemma timer_inv_exec (es : list Event) (s : State) :
  timer_inv s -> timer_inv (exec es s).
Proof.
  revert s. induction es as [|e es IH]; intros s Hs; simpl; [done|].
  apply IH. by apply timer_inv_step.
Qed.

Lemma delete_none {A} (l : list A) (i : nat) :
  l !! i = None -> delete i l = l.
Proof.
  revert i. induction l as [|x l IH]; intros [|i] H; simpl in *; try done.
  f_equal. by apply IH.
Qed.

Lemma idle_step (e : Event) (s : State) :
  toggle s = Start -> e ≠ Click ->
  toggle (step e s) = Start /\
  charts (step e s) = charts s /\
  window_timeout (step e s) = window_timeout s /\
  next_timer (step e s) = next_timer s /\
  sublist (pending_timers (step e s)) (pending_timers s).
Proof.
  intros Ht He. destruct e as [|ps|apps|i data|i|t]; simpl; try done.
  - unfold run, on_change, publish_startCharting.
    by rewrite initialize_all_idle.
  - unfold run. by rewrite initialize_all_idle.
  - destruct (in_flight s !! i); [|done].
    unfold run. by rewrite success_idle.
  - case_decide; [|done]. unfold run, get_data, bind, gets, modify. simpl.
    repeat split; try done. apply sublist_filter.
Qed.

Lemma idle_exec (es : list Event) (s : State) :
  toggle s = Start -> Forall (fun e => e ≠ Click) es ->
  toggle (exec es s) = Start /\
  charts (exec es s) = charts s /\
  window_timeout (exec es s) = window_timeout s /\
  next_timer (exec es s) = next_timer s /\
  sublist (pending_timers (exec es s)) (pending_timers s).
Proof.
  intros Ht Hes. revert s Ht.
  induction Hes as [|e es He Hes IH]; intros s Ht; simpl; [done|].
  destruct (idle_step e s Ht He) as (Ht1 & Hc1 & Hw1 & Hn1 & Hp1).
  destruct (IH _ Ht1) as (Ht2 & Hc2 & Hw2 & Hn2 & Hp2).
  repeat split; try congruence. by etrans.
Qed.

(** C1. A click on the toggle while it displays "Start" should start the
    polling. The handler publishes [startCharting] while the toggle still
    displays "Start", so [initialize_all] returns at its first test: for
    every state, the click only flips the toggle; no chart is built and
    no request is issued. *)
Theorem click_on_start_only_flips_toggle (s : State) :
  step Click (set_toggle Start s) = set_toggle Stop s.
Proof.
  unfold step, run, on_click, publish_startCharting, bind, gets, modify.
  cbn -[initialize_all]. by rewrite initialize_all_idle.
Qed.

(** C6. After any sequence of clicks, check-box changes, roster changes,
    answers, failures and timer firings, at most one reschedule timer is
    pending; and an answer handled to its end while monitoring leaves
    exactly the timer it has just scheduled. *)
Theorem at_most_one_pending_timer (s : State) (data : Response) :
  reachable s ->
  (length (pending_timers s) <= 1)%nat /\
  (toggle s = Stop -> completes (success data) s ->
   pending_timers (run (success data) s)
   = [(next_timer s, interval (config_charts s))]).
Proof.
  intros (cfg & colors & apps & boxes & no_check & es & ->).
  set (s := exec es _).
  assert (timer_inv s) as Hs by (by apply timer_inv_exec).
  split; [by apply timer_inv_length|].
  intros Ht [[] Hd]. unfold run. rewrite success_monitoring in * by done.
  pose proof (timers_add_data s data) as Hk.
  pose proof (keeps_add_data config_charts data (fun _ _ => eq_refl) s) as Hc.
  destruct (add_data data s) as [s1 [[]|]]; cbn [fst snd] in *; [|done].
  pose proof (timer_inv_timers s s1 Hk Hs) as H1.
  destruct (timer_inv_rescheduled s1 H1) as [Hp _]. rewrite Hp.
  apply timers_eq in Hk as (_ & _ & ->). by rewrite Hc.
Qed.

(** C7. A tick with an empty roster should issue no request.
    [get_data] has no such test: with no appliance it posts a request
    for zero devices; and the page gets there when the last appliance is
    removed while a reschedule timer is pending. *)
Theorem tick_without_appliance_posts_request :
  (forall s : State,
     in_flight (run get_data (set_appliances [] s))
     = in_flight s ++
       [mkRequest [] [] (checked s) (negb (global_no_check_hostname s))]) /\
  in_flight (exec [ModifyAppliances []; Timeout 0] Scenario.monitoring)
  = [mkRequest [] [] ["cpu"] true].
Proof. split; [reflexivity | vm_compute; reflexivity]. Qed.

(** C8. Stopping cancels nothing, and nothing is scheduled afterwards:
    the click that flips the toggle from "Stop" to "Start" leaves the
    pending timer and the requests in flight as they are; from then on,
    whatever timers fire and whatever answers arrive, until the next
    click, no timer is scheduled. *)
Theorem stop_schedules_no_timer (s : State) (es : list Event) :
  toggle s = Stop ->
  Forall (fun e => e ≠ Click) es ->
  let s1 := step Click s in
  let s2 := exec es s1 in
  toggle s1 = Start /\
  pending_timers s1 = pending_timers s /\
  in_flight s1 = in_flight s /\
  next_timer s2 = next_timer s /\
  window_timeout s2 = window_timeout s /\
  sublist (pending_timers s2) (pending_timers s).
Proof.
  intros Ht Hes s1 s2.
  assert (s1 = set_toggle Start s) as Hs1.
  { unfold s1, step, run, on_click, bind, gets, modify. simpl. by rewrite Ht. }
  destruct (idle_exec es s1) as (_ & _ & Hw & Hn & Hp); [by rewrite Hs1 | done |].
  fold s2 in Hw, Hn, Hp. rewrite Hs1 in *. done.
Qed.

Lemma stop_schedules_no_timer_witness :
  toggle Scenario.monitoring = Stop /\
  pending_timers Scenario.monitoring = [(0%nat, Some 1000)] /\
  pending_timers (exec Scenario.after_stop (step Click Scenario.monitoring))
  = [] /\
  next_timer (exec Scenario.after_stop (step Click Scenario.monitoring))
  = next_timer Scenario.monitoring.
Proof.
  assert (toggle Scenario.monitoring = Stop) as Ht by reflexivity.
  assert (Forall (fun e => e ≠ Click) Scenario.after_stop) as Hes
    by (repeat constructor; discriminate).
  pose proof (stop_schedules_no_timer Scenario.monitoring Scenario.after_stop
                Ht Hes) as (_ & _ & _ & Hn & _ & _).
  split; [exact Ht|].
  split; [reflexivity|].
  split; [vm_compute; reflexivity | exact Hn].
Defined.

(** C9. An answer that arrives while the toggle displays "Start" is
    dropped: the success callback changes nothing at all, and the whole
    event only takes the request out of the requests in flight. *)
Theorem answer_while_idle_is_dropped (s : State) (i : nat) (data : Response) :
  toggle s = Start ->
  success data s = (s, Normal tt) /\
  step (Answer i data) s = set_in_flight (delete i (in_flight s)) s.
Proof.
  intros Ht. split; [by apply success_idle|].
  simpl. destruct (in_flight s !! i) as [rq|] eqn:Hi.
  - unfold run. by rewrite success_idle.
  - rewrite delete_none by done. by destruct s.
Qed.

Lemma answer_while_idle_is_dropped_witness :
  toggle Scenario.stopped = Start /\
  success (Scenario.answer 1000) Scenario.stopped
  = (Scenario.stopped, Normal tt) /\
  step (Answer 0 (Scenario.answer 1000)) Scenario.stopped
  = set_in_flight (delete 0%nat (in_flight Scenario.stopped)) Scenario.stopped.
Proof.
  split; [reflexivity|].
  apply answer_while_idle_is_dropped. reflexivity.
Defined.

Lemma at_most_one_pending_timer_witness :
  reachable Scenario.monitoring /\
  toggle Scenario.monitoring = Stop /\
  completes (success (Scenario.answer 1000)) Scenario.monitoring /\
  (length (pending_timers Scenario.monitoring) <= 1)%nat /\
  pending_timers (run (success (Scenario.answer 1000)) Scenario.monitoring)
  = [(next_timer Scenario.monitoring,
      interval (config_charts Scenario.monitoring))].
Proof.
  assert (reachable Scenario.monitoring) as Hr.
  { exists Scenario.cfg, None, [], ["cpu"], false,
      [ModifyAppliances [Scenario.dp1]; Answer 0 (Scenario.answer 0)].
    vm_compute. reflexivity. }
  assert (toggle Scenario.monitoring = Stop) as Ht by reflexivity.
  assert (completes (success (Scenario.answer 1000)) Scenario.monitoring) as Hc
    by (exists tt; vm_compute; reflexivity).
  destruct (at_most_one_pending_timer Scenario.monitoring
              (Scenario.answer 1000) Hr) as [Hl H].
  split; [exact Hr|]. split; [exact Ht|]. split; [exact Hc|].
  split; [exact Hl | exact (H Ht Hc)].
Defined.

(** ** One sample into one chart *)

Lemma bind_normal {A B} (m : Js A) (k : A -> Js B) s s' a :
  m s = (s', Normal a) -> bind m k s = k a s'.
Proof. intros H. unfold bind. by rewrite H. Qed.

Lemma bind_throw {A B} (m : Js A) (k : A -> Js B) s s' :
  m s = (s', TypeError) -> bind m k s = (s', TypeError).
Proof. intros H. unfold bind. by rewrite H. Qed.

Lemma chart_of_lookup p c s :
  charts s !! p = Some (Some c) -> chart_of p s = (s, Normal c).
Proof. intros H. unfold chart_of. by rewrite H. Qed.

Lemma lookup_with_chart p c s : charts (with_chart p c s) !! p = Some (Some c).
Proof. unfold with_chart. simpl. apply lookup_insert_eq. Qed.

Lemma lookup_with_chart_ne p q c s :
  p ≠ q -> charts (with_chart p c s) !! q = charts s !! q.
Proof. intros H. unfold with_chart. simpl. by apply lookup_insert_ne. Qed.

Lemma with_chart_twice p c c' s :
  with_chart p c' (with_chart p c s) = with_chart p c' s.
Proof. unfold with_chart, set_charts. simpl. by rewrite insert_insert_eq. Qed.

Lemma put_chart_with_chart p c c' s :
  put_chart p c' (with_chart p c s) = (with_chart p c' s, Normal tt).
Proof. unfold put_chart, modify. fold (with_chart p c' (with_chart p c s)).
  by rewrite with_chart_twice. Qed.

Lemma member_numbers data p vs :
  resp_values data !! p = Some vs -> member data p = Some (Numbers vs).
Proof. intros H. unfold member. by rewrite H. Qed.

Lemma value_at_numbers r p vs j :
  resp_values r !! p = Some vs -> value_at r p j = number_at vs j.
Proof. intros H. unfold value_at. by rewrite (member_numbers r p vs). Qed.

Lemma pushed_range_nil vs i ds : pushed_range vs i 0 ds = ds.
Proof.
  apply list_eq. intros j. unfold pushed_range. rewrite list_lookup_imap.
  destruct (ds !! j); simpl; [|done]. case_decide; [lia | done].
Qed.

Lemma pushed_range_step vs i n ds d :
  ds !! i = Some d ->
  pushed_range vs (S i) n (<[i := push_data (number_at vs i) d]> ds)
  = pushed_range vs i (S n) ds.
Proof.
  intros Hd. apply list_eq. intros j. unfold pushed_range.
  rewrite !list_lookup_imap. destruct (decide (i = j)) as [->|Hne].
  - rewrite list_lookup_insert_eq by (by eapply lookup_lt_Some).
    rewrite Hd. simpl. rewrite decide_False by lia. rewrite decide_True by lia.
    done.
  - rewrite list_lookup_insert_ne by done.
    destruct (ds !! j); simpl; [|done].
    repeat case_decide; try done; lia.
Qed.

Lemma pushed_range_all vs ds :
  pushed_range vs 0 (length ds) ds
  = imap (fun j d => push_data (number_at vs j) d) ds.
Proof.
  apply list_eq. intros j. unfold pushed_range. rewrite !list_lookup_imap.
  destruct (ds !! j) eqn:Hj; simpl; [|done].
  apply lookup_lt_Some in Hj. rewrite decide_True by lia. done.
Qed.

Lemma push_loop (data : Response) (p : string) (vs : list Z) {A} (l : list A) :
  resp_values data !! p = Some vs ->
  forall i c s,
    (i + length l <= length (datasets c))%nat ->
    each_from i l (fun i _ => push_value data p i) (with_chart p c s)
    = (with_chart p
         (mkChart (labels c) (pushed_range vs i (length l) (datasets c))
                  (updates c)) s,
       Normal tt).
Proof.
  intros Hvs. induction l as [|x l IH]; intros i c s Hlen; simpl in *.
  - rewrite pushed_range_nil. unfold ret. f_equal.
    destruct c. simpl. done.
  - destruct (lookup_lt_is_Some_2 (datasets c) i) as [d Hd]; [lia|].
    erewrite bind_normal; cycle 1.
    { unfold push_value. erewrite bind_normal
        by (apply chart_of_lookup, lookup_with_chart).
      rewrite Hd, (member_numbers _ _ _ Hvs). apply put_chart_with_chart. }
    rewrite IH by (simpl; rewrite length_insert; lia).
    simpl. by rewrite pushed_range_step.
Qed.

Lemma add_provider_data_sampled (data : Response) (p : string) (s : State)
    (c : Chart) (vs : list Z) :
  charts s !! p = Some (Some c) ->
  resp_values data !! p = Some vs ->
  length (resp_appliances data) = length (datasets c) ->
  datasets c ≠ [] ->
  add_provider_data data p s
  = (with_chart p
       (sampled (datapoints (config_charts s)) (time data) vs c) s,
     Normal tt).
Proof.
  intros Hc Hvs Hlen Hne. unfold add_provider_data.
  erewrite bind_normal by (by apply chart_of_lookup).
  erewrite bind_normal by reflexivity.
  fold (with_chart p (mkChart (labels c ++ [time data]) (datasets c) (updates c)) s).
  unfold each. erewrite bind_normal
    by (apply (push_loop data p vs); [done | simpl; lia]).
  simpl datasets. simpl labels. simpl updates.
  rewrite Hlen, pushed_range_all.
  fold (pushed (time data) vs c).
  set (c1 := pushed (time data) vs c).
  erewrite bind_normal; cycle 1.
  { unfold evict. erewrite bind_normal
      by (apply chart_of_lookup, lookup_with_chart).
    erewrite bind_normal by reflexivity.
    instantiate (1 := tt). instantiate (1 := with_chart p (evicted (datapoints (config_charts s)) c1) s).
    unfold evicted. simpl config_charts.
    destruct (datasets c1) as [|d0 ds1] eqn:Hds.
    { exfalso. apply Hne. apply (f_equal length) in Hds.
      unfold c1, pushed in Hds. simpl in Hds. rewrite length_imap in Hds.
      by destruct (datasets c). }
    destruct (exceeds _ _).
    - rewrite <- Hds. apply put_chart_with_chart.
    - done. }
  erewrite bind_normal by (apply chart_of_lookup, lookup_with_chart).
  apply put_chart_with_chart.
Qed.

(** ** Alignment of labels and series *)

Lemma length_tail {A} (l : list A) : length (tail l) = (length l - 1)%nat.
Proof. destruct l; simpl; lia. Qed.

Lemma pushed_aligned t vs c : aligned c -> aligned (pushed t vs c).
Proof.
  unfold aligned, pushed. simpl. rewrite !Forall_lookup.
  intros H j d. rewrite list_lookup_imap.
  destruct (datasets c !! j) as [d0|] eqn:Hj; simpl; [|done].
  intros [= <-]. simpl. rewrite !length_app. simpl. by rewrite (H j d0).
Qed.

Lemma evicted_aligned cap c : aligned c -> aligned (evicted cap c).
Proof.
  intros H.
  assert (aligned (mkChart (tail (labels c)) (shift_data <$> datasets c)
                           (updates c))) as Hs.
  { unfold aligned in *. cbn [labels datasets]. rewrite Forall_fmap.
    eapply Forall_impl; [exact H|].
    intros d Hd. simpl. by rewrite !length_tail, Hd. }
  unfold evicted. destruct (datasets c) as [|d0 ds]; [done|].
  by destruct (exceeds _ _).
Qed.

Lemma sampled_aligned cap t vs c : aligned c -> aligned (sampled cap t vs c).
Proof. intros H. unfold sampled. by apply evicted_aligned, pushed_aligned. Qed.

Lemma evicted_datasets_length cap c :
  length (datasets (evicted cap c)) = length (datasets c).
Proof.
  unfold evicted. destruct (datasets c) as [|d0 ds] eqn:Hds; [by rewrite Hds|].
  destruct (exceeds _ _); [|by rewrite Hds].
  cbn [datasets]. by rewrite length_fmap.
Qed.

Lemma sampled_datasets_length cap t vs c :
  length (datasets (sampled cap t vs c)) = length (datasets c).
Proof.
  unfold sampled, updated. cbn [datasets].
  rewrite evicted_datasets_length. unfold pushed. cbn [datasets].
  apply length_imap.
Qed.

Lemma charts_evolve_refl s : charts_evolve s s.
Proof. intros p c H. by exists c. Qed.

Lemma charts_evolve_trans s1 s2 s3 :
  charts_evolve s1 s2 -> charts_evolve s2 s3 -> charts_evolve s1 s3.
Proof.
  intros H12 H23 p c Hc.
  destruct (H12 p c Hc) as (c2 & Hc2 & Hl2 & Ha2).
  destruct (H23 p c2 Hc2) as (c3 & Hc3 & Hl3 & Ha3).
  exists c3. split; [done|]. split; [congruence | auto].
Qed.

Lemma answers_for_evolve data p s s' :
  charts_evolve s s' -> answers_for data p s -> answers_for data p s'.
Proof.
  intros He (c & vs & Hc & Hne & Hvs & Hl1 & Hl2).
  destruct (He p c Hc) as (c' & Hc' & Hl & _).
  exists c', vs. repeat split; try done; try congruence.
  intros E. apply Hne. destruct (datasets c); [done|]. by rewrite E in Hl.
Qed.

Lemma add_provider_data_evolve data p s :
  answers_for data p s ->
  (add_provider_data data p s).2 = Normal tt /\
  charts_evolve s (add_provider_data data p s).1.
Proof.
  intros (c & vs & Hc & Hne & Hvs & Hl1 & Hl2).
  rewrite (add_provider_data_sampled data p s c vs) by done.
  split; [done|]. cbn [fst]. intros q cq Hq.
  destruct (decide (p = q)) as [<-|Hpq].
  - rewrite lookup_with_chart. eexists. split; [done|].
    assert (cq = c) as -> by congruence.
    split; [apply sampled_datasets_length | apply sampled_aligned].
  - rewrite lookup_with_chart_ne by done. by exists cq.
Qed.

Lemma each_providers_evolve data (ps : list string) :
  forall i s,
    Forall (fun p => answers_for data p s) ps ->
    (each_from i ps (fun _ p => add_provider_data data p) s).2 = Normal tt /\
    charts_evolve s (each_from i ps (fun _ p => add_provider_data data p) s).1.
Proof.
  induction ps as [|p ps IH]; intros i s Hps; simpl.
  - split; [done | apply charts_evolve_refl].
  - apply Forall_cons in Hps as [Hp Hps].
    destruct (add_provider_data_evolve data p s Hp) as [Hn He].
    unfold bind. destruct (add_provider_data data p s) as [s1 [[]|]];
      simpl in *; [|done].
    destruct (IH (S i) s1) as [Hn' He'].
    { eapply Forall_impl; [exact Hps|]. intros q. by apply answers_for_evolve. }
    split; [done|]. by eapply charts_evolve_trans.
Qed.

(** The labels after one sample into an aligned chart. *)
Lemma sampled_labels cap t vs c :
  aligned c -> datasets c ≠ [] ->
  labels (sampled cap t vs c)
  = if exceeds (S (length (labels c))) cap
    then tail (labels c ++ [t]) else labels c ++ [t].
Proof.
  intros Ha Hne. unfold sampled, updated. cbn [labels]. unfold evicted.
  destruct (datasets (pushed t vs c)) as [|d0 ds] eqn:Hds.
  { exfalso. apply (f_equal length) in Hds. unfold pushed in Hds.
    cbn [datasets] in Hds. rewrite length_imap in Hds.
    by destruct (datasets c). }
  assert (length (data d0) = S (length (labels c))) as Hd0.
  { pose proof (pushed_aligned t vs c Ha) as Hp.
    unfold aligned in Hp. rewrite Hds in Hp.
    apply Forall_cons in Hp as [Hp _]. rewrite Hp. unfold pushed.
    cbn [labels]. rewrite length_app. simpl. lia. }
  rewrite Hd0. by destruct (exceeds _ _).
Qed.

Lemma grown_refl cap c : grown cap c c.
Proof. split; [done|]. intros Ha. split; [done|]. split; [lia|]. lia. Qed.

Lemma grown_trans cap c1 c2 c3 :
  grown cap c1 c2 -> grown cap c2 c3 -> grown cap c1 c3.
Proof.
  intros [Hd1 H1] [Hd2 H2]. split; [congruence|]. intros Ha.
  destruct (H1 Ha) as (Ha2 & Hl1 & Hb1). destruct (H2 Ha2) as (Ha3 & Hl2 & Hb2).
  split; [done|]. split; [lia|]. intros N HN.
  specialize (Hb1 N HN). specialize (Hb2 N HN). lia.
Qed.

(** One sample: the chart grows as [grown] says, and by one label while
    it has fewer than the cap. *)
Lemma sampled_grown cap t vs c :
  datasets c ≠ [] ->
  grown cap c (sampled cap t vs c) /\
  (aligned c -> forall N, cap = Some N ->
     Z.of_nat (length (labels c)) < N ->
     (length (labels c) < length (labels (sampled cap t vs c)))%nat).
Proof.
  intros Hne.
  assert (aligned c ->
          length (labels (sampled cap t vs c))
          = if exceeds (S (length (labels c))) cap
            then length (labels c) else S (length (labels c))) as Hlen.
  { intros Ha. rewrite sampled_labels by done. destruct (exceeds _ _).
    - rewrite length_tail, length_app. simpl. lia.
    - rewrite length_app. simpl. lia. }
  split; [split|].
  - apply sampled_datasets_length.
  - intros Ha. split; [by apply sampled_aligned|]. rewrite (Hlen Ha).
    split; [destruct (exceeds _ _); lia|].
    intros N ->. unfold exceeds. case_bool_decide; lia.
  - intros Ha N -> HN. rewrite (Hlen Ha). unfold exceeds.
    case_bool_decide; lia.
Qed.

Lemma each_providers_grown data (ps : list string) :
  forall i s,
    Forall (fun p => answers_for data p s) ps ->
    exists s',
      each_from i ps (fun _ p => add_provider_data data p) s = (s', Normal tt) /\
      forall p c, charts s !! p = Some (Some c) ->
        exists c', charts s' !! p = Some (Some c') /\
          grown (datapoints (config_charts s)) c c' /\
          (p ∉ ps -> c' = c) /\
          (p ∈ ps -> aligned c ->
           forall N, datapoints (config_charts s) = Some N ->
             Z.of_nat (length (labels c)) < N ->
             (length (labels c) < length (labels c'))%nat).
Proof.
  induction ps as [|q ps IH]; intros i s Hps.
  - exists s. split; [done|]. intros p c Hc. exists c.
    split; [done|]. split; [apply grown_refl|]. split; [done|].
    intros Hp. by apply elem_of_nil in Hp.
  - apply Forall_cons in Hps as [Hq Hps].
    destruct (add_provider_data_evolve data q s Hq) as [_ Hev].
    destruct Hq as (c0 & vs & Hc0 & Hne & Hvs & _ & Hl).
    rewrite (add_provider_data_sampled data q s c0 vs) in Hev by done.
    cbn [fst] in Hev.
    set (cap := datapoints (config_charts s)) in *.
    set (s1 := with_chart q (sampled cap (time data) vs c0) s) in *.
    destruct (IH (S i) s1) as (s' & Hrun & Hch).
    { eapply Forall_impl; [exact Hps|]. intros r. by apply answers_for_evolve. }
    exists s'. split.
    { cbn [each_from]. erewrite bind_normal
        by (by apply (add_provider_data_sampled data q s c0 vs)).
      exact Hrun. }
    destruct (sampled_grown cap (time data) vs c0 Hne) as [Hg Hst].
    intros p c Hc. destruct (decide (p = q)) as [->|Hpq].
    + assert (c = c0) as -> by congruence.
      destruct (Hch q (sampled cap (time data) vs c0)) as (c' & Hc' & Hg' & _ & _);
        [apply lookup_with_chart|].
      exists c'. split; [done|]. split; [by eapply grown_trans|].
      split; [intros Hn; exfalso; apply Hn; constructor|].
      intros _ Ha N HN HL. specialize (Hst Ha N HN HL).
      destruct Hg as [_ Hg]. destruct (Hg Ha) as (Ha1 & _ & _).
      destruct Hg' as [_ Hg']. destruct (Hg' Ha1) as (_ & Hl' & _). lia.
    + destruct (Hch p c) as (c' & Hc' & Hg' & Hout & Hin);
        [unfold s1; by rewrite lookup_with_chart_ne by (by intros ->)|].
      exists c'. split; [done|]. split; [done|]. split.
      * intros Hn. apply Hout. intros Hp. apply Hn. by constructor.
      * intros [->|Hp]%elem_of_cons; [done|]. by apply Hin.
Qed.

(** C10 as stated fails. The answer to a request that was posted before
    the roster grew lists one appliance and has one number for it; the
    chart it arrives at has been rebuilt with two datasets. [add_data]
    runs to its end and leaves the label beside an empty second series. *)
Lemma add_data_misaligns_when_roster_grew :
  ~ alignment_kept_as_claimed Scenario.roster_grown (Scenario.answer 7).
Proof.
  intros H. destruct (H) with (p := "cpu") as (c' & Hc' & Ha').
  - intros p c Hc.
    assert (charts Scenario.roster_grown
            = <["cpu" := Some (mkChart []
                  [mkDataset "dp1" (Some (RandomColor 0)) [];
                   mkDataset "dp2" (Some (RandomColor 1)) []] 0)]> ∅) as E
      by (vm_compute; reflexivity).
    rewrite E in Hc. clear E.
    destruct (decide (p = "cpu")) as [->|Hne].
    + rewrite lookup_insert_eq in Hc. injection Hc as <-. by repeat constructor.
    + rewrite lookup_insert_ne in Hc by done. by rewrite lookup_empty in Hc.
  - constructor; [|constructor]. exists [47]. split; reflexivity.
  - constructor.
  - vm_compute in Hc'. injection Hc' as <-.
    unfold aligned in Ha'. cbn [datasets labels] in Ha'.
    apply Forall_cons in Ha' as [_ Ha']. apply Forall_cons in Ha' as [Ha' _].
    discriminate.
Qed.

(** C10, as the code has it. [add_data] keeps a chart aligned when the
    answer carries, for every selected provider, one number per
    appliance and lists as many appliances as the provider's chart has
    datasets. Then [add_data] runs to its end, and a chart whose label
    list and series had one length before the call has them of one
    length after it, with as many datasets as before and no fewer
    labels; the chart of a provider that is not selected is the same;
    and with a cap [N] the chart has no more than [N] labels unless it
    had more before, and the chart of a selected provider that had fewer
    than [N] labels has more than before. *)
Theorem add_data_keeps_alignment (s : State) (data : Response)
    (p : string) (c : Chart) :
  Forall (fun q => answers_for data q s) (checked s) ->
  charts s !! p = Some (Some c) ->
  aligned c ->
  (add_data data s).2 = Normal tt /\
  exists c', charts (run (add_data data) s) !! p = Some (Some c') /\
    aligned c' /\
    length (datasets c') = length (datasets c) /\
    (length (labels c) <= length (labels c'))%nat /\
    (p ∉ checked s -> c' = c) /\
    forall N, datapoints (config_charts s) = Some N ->
      Z.of_nat (length (labels c')) <= Z.max (Z.of_nat (length (labels c))) N /\
      (p ∈ checked s -> Z.of_nat (length (labels c)) < N ->
       (length (labels c) < length (labels c'))%nat).
Proof.
  intros Hwf Hc Ha. unfold run, add_data, get_selected_providers.
  erewrite bind_normal by reflexivity. unfold each.
  destruct (each_providers_grown data (checked s) 0 s Hwf) as (s' & Hrun & Hch).
  rewrite Hrun. split; [done|]. cbn [fst].
  destruct (Hch p c Hc) as (c' & Hc' & [Hd Hg] & Hout & Hin).
  destruct (Hg Ha) as (Ha' & Hl & Hb).
  exists c'. split; [done|]. split; [done|]. split; [done|]. split; [done|].
  split; [done|]. intros N HN. split; [by apply Hb|].
  intros Hp HL. by apply (Hin Hp Ha N).
Qed.

Lemma add_data_keeps_alignment_witness :
  charts Scenario.monitoring !! "cpu" = Some (Some Scenario.first_chart) /\
  aligned Scenario.first_chart /\
  (add_data (Scenario.answer 1000) Scenario.monitoring).2 = Normal tt /\
  exists c', charts (run (add_data (Scenario.answer 1000)) Scenario.monitoring)
               !! "cpu" = Some (Some c') /\ aligned c' /\
             (length (labels Scenario.first_chart) < length (labels c'))%nat.
Proof.
  assert (charts Scenario.monitoring !! "cpu"
          = Some (Some Scenario.first_chart)) as Hc by reflexivity.
  assert (aligned Scenario.first_chart) as Ha by (repeat constructor).
  split; [exact Hc | split; [exact Ha|]].
  destruct (add_data_keeps_alignment Scenario.monitoring (Scenario.answer 1000)
              "cpu" Scenario.first_chart) as (Hn & c' & Hc' & Ha' & _ & _ & _ & Hb);
    [|exact Hc|exact Ha|].
  - constructor; [|constructor].
    exists Scenario.first_chart, [1040].
    split; [exact Hc|]. split; [discriminate|]. repeat split; reflexivity.
  - split; [exact Hn|]. exists c'. split; [exact Hc'|]. split; [exact Ha'|].
    destruct (Hb 3 eq_refl) as [_ Hs]. apply Hs; [constructor | reflexivity].
Defined.

(** ** The series as a sliding window *)

Lemma length_last_n {A} n (l : list A) :
  length (last_n n l) = (length l `min` n)%nat.
Proof. unfold last_n. rewrite length_drop. lia. Qed.

Lemma last_n_all {A} n (l : list A) :
  (length l <= n)%nat -> last_n n l = l.
Proof. intros H. unfold last_n. by replace (length l - n)%nat with 0%nat by lia. Qed.

Lemma last_n_app {A} n (l k : list A) :
  last_n n (last_n n l ++ k) = last_n n (l ++ k).
Proof.
  destruct (decide (length l <= n)%nat) as [Hl|Hl].
  - by rewrite (last_n_all n l).
  - unfold last_n. rewrite !length_app, length_drop, !drop_app, drop_drop.
    rewrite length_drop. f_equal; f_equal; lia.
Qed.

(** One push and the eviction that follows it, on one list. *)
Lemma push_then_shift {A} (n : nat) (l : list A) (x : A) :
  (length l <= n)%nat ->
  (if bool_decide (Z.of_nat n < Z.of_nat (length (l ++ [x])))
   then tail (l ++ [x]) else l ++ [x])
  = last_n n (l ++ [x]).
Proof.
  intros H. rewrite length_app. simpl. case_bool_decide.
  - unfold last_n. rewrite length_app. simpl.
    replace (length l + 1 - n)%nat with 1%nat by lia.
    by destruct (l ++ [x]).
  - rewrite last_n_all; [done|]. rewrite length_app. simpl. lia.
Qed.

(** The chart of [p] after [add_provider_data], as a window. *)
Lemma sampled_window (N : nat) t vs c :
  aligned c -> datasets c ≠ [] -> (length (labels c) <= N)%nat ->
  labels (sampled (Some (Z.of_nat N)) t vs c) = last_n N (labels c ++ [t]) /\
  forall j d', datasets (sampled (Some (Z.of_nat N)) t vs c) !! j = Some d' ->
    exists d, datasets c !! j = Some d /\
              data d' = last_n N (data d ++ [number_at vs j]).
Proof.
  intros Ha Hne Hlen. unfold sampled, updated. cbn [labels datasets].
  unfold evicted.
  destruct (datasets (pushed t vs c)) as [|d0 ds] eqn:Hds.
  { exfalso. apply (f_equal length) in Hds. unfold pushed in Hds.
    cbn [datasets] in Hds. rewrite length_imap in Hds.
    by destruct (datasets c). }
  assert (length (data d0) = length (labels c ++ [t])) as Hd0.
  { pose proof (pushed_aligned t vs c Ha) as Hp. unfold aligned in Hp.
    rewrite Hds in Hp. apply Forall_cons in Hp as [Hp _]. exact Hp. }
  rewrite <- Hds. unfold exceeds. rewrite Hd0.
  pose proof (push_then_shift N (labels c) t Hlen) as Hl.
  split.
  - rewrite <- Hl. by case_bool_decide.
  - intros j d' Hj.
    assert (exists d, datasets c !! j = Some d /\
              d' = (if bool_decide (Z.of_nat N < Z.of_nat (length (labels c ++ [t])))
                    then shift_data (push_data (number_at vs j) d)
                    else push_data (number_at vs j) d)) as (d & Hd & ->).
    { case_bool_decide; cbn [datasets pushed] in Hj.
      - rewrite list_lookup_fmap, list_lookup_imap in Hj.
        destruct (datasets c !! j) as [d|]; [|done].
        exists d. simplify_eq/=. auto.
      - rewrite list_lookup_imap in Hj.
        destruct (datasets c !! j) as [d|]; [|done].
        exists d. simplify_eq/=. auto. }
    exists d. split; [done|].
    assert (length (data d) = length (labels c)) as Hdl.
    { unfold aligned in Ha. rewrite Forall_lookup in Ha. by eapply Ha. }
    rewrite <- (push_then_shift N (data d) (number_at vs j)) by lia.
    rewrite !length_app, Hdl. simpl. clear. by destruct (bool_decide _).
Qed.

Lemma with_chart_id p c s :
  charts s !! p = Some (Some c) -> with_chart p c s = s.
Proof.
  intros H. unfold with_chart, set_charts. rewrite insert_id by done.
  by destruct s.
Qed.

Lemma sampled_labels_length (N : nat) t vs c :
  aligned c -> datasets c ≠ [] -> (length (labels c) <= N)%nat ->
  (length (labels (sampled (Some (Z.of_nat N)) t vs c)) <= N)%nat.
Proof.
  intros Ha Hne Hlen.
  destruct (sampled_window N t vs c Ha Hne Hlen) as [-> _].
  rewrite length_last_n. lia.
Qed.

Lemma append_all_window (N : nat) (p : string) (rs : list Response) :
  forall i s c,
    datapoints (config_charts s) = Some (Z.of_nat N) ->
    charts s !! p = Some (Some c) ->
    aligned c -> datasets c ≠ [] -> (length (labels c) <= N)%nat ->
    Forall (fun r => is_Some (resp_values r !! p) /\
                     length (resp_appliances r) = length (datasets c)) rs ->
    exists c',
      each_from i rs (fun _ r => add_provider_data r p) s
      = (with_chart p c' s, Normal tt) /\
      labels c' = last_n N (labels c ++ (time <$> rs)) /\
      forall j d', datasets c' !! j = Some d' ->
        exists d, datasets c !! j = Some d /\
          data d' = last_n N (data d ++ ((fun r => value_at r p j) <$> rs)).
Proof.
  induction rs as [|r rs IH]; intros i s c Hcap Hc Ha Hne Hlen Hrs.
  - exists c. simpl. rewrite with_chart_id by done. split; [done|].
    rewrite app_nil_r. split; [by rewrite last_n_all|].
    intros j d' Hj. exists d'. split; [done|].
    rewrite app_nil_r, last_n_all; [done|].
    unfold aligned in Ha. rewrite Forall_lookup in Ha.
    by rewrite (Ha j d' Hj).
  - apply Forall_cons in Hrs as [[[vs Hvs] Hr] Hrs].
    set (c1 := sampled (Some (Z.of_nat N)) (time r) vs c).
    destruct (sampled_window N (time r) vs c Ha Hne Hlen) as [Hl1 Hd1].
    fold c1 in Hl1, Hd1.
    assert (length (datasets c1) = length (datasets c)) as Hn1
      by apply sampled_datasets_length.
    destruct (IH (S i) (with_chart p c1 s) c1) as (c' & Hrun & Hl & Hd).
    + done.
    + apply lookup_with_chart.
    + by apply sampled_aligned.
    + intros E. apply Hne. destruct (datasets c); [done|]. by rewrite E in Hn1.
    + by apply sampled_labels_length.
    + by rewrite Hn1.
    + exists c'. split; [|split].
      * simpl. erewrite bind_normal; cycle 1.
        { rewrite (add_provider_data_sampled r p s c vs) by done.
          rewrite Hcap. reflexivity. }
        fold c1. by rewrite Hrun, with_chart_twice.
      * rewrite Hl, Hl1, last_n_app, <- app_assoc. done.
      * intros j d' Hj. destruct (Hd j d' Hj) as (d1 & Hj1 & ->).
        destruct (Hd1 j d1 Hj1) as (d & Hj0 & ->).
        exists d. split; [done|].
        rewrite last_n_app, <- app_assoc. simpl.
        by rewrite (value_at_numbers r p vs).
Qed.

(** C5. A series is a sliding window of the configured size. Starting
    from a chart as [initialize_chart] makes it, after the samples of any
    answers [rs] have been appended to the series of a provider, the
    labels are the last [min (length rs) N] times in the order of
    arrival (so never more than [N]), and the series of the j-th
    appliance holds the matching last values: each append that makes the
    series longer than [N] drops the oldest element. *)
Theorem series_keeps_most_recent (N : Z) (p : string) (rs : list Response)
    (s : State) (c : Chart) :
  0 < N ->
  datapoints (config_charts s) = Some N ->
  charts s !! p = Some (Some c) ->
  datasets c ≠ [] ->
  labels c = [] ->
  Forall (fun d => data d = []) (datasets c) ->
  Forall (fun r => is_Some (resp_values r !! p) /\
                   length (resp_appliances r) = length (datasets c)) rs ->
  exists c',
    append_all p rs s = (with_chart p c' s, Normal tt) /\
    labels c' = last_n (Z.to_nat N) (time <$> rs) /\
    length (labels c') = (length rs `min` Z.to_nat N)%nat /\
    (Z.of_nat (length (labels c')) <= N) /\
    forall j d', datasets c' !! j = Some d' ->
      data d' = last_n (Z.to_nat N) ((fun r => value_at r p j) <$> rs).
Proof.
  intros HN Hcap Hc Hne Hl0 Hd0 Hrs.
  destruct (append_all_window (Z.to_nat N) p rs 0 s c)
    as (c' & Hrun & Hl & Hd); try done.
  - rewrite Hcap. f_equal. lia.
  - unfold aligned. rewrite Hl0. eapply Forall_impl; [exact Hd0|].
    by intros d ->.
  - rewrite Hl0. simpl. lia.
  - exists c'. rewrite Hl0 in Hl. simpl in Hl.
    split; [exact Hrun|]. split; [exact Hl|].
    rewrite Hl, length_last_n, length_fmap.
    split; [done|]. split; [lia|].
    intros j d' Hj. destruct (Hd j d' Hj) as (d & Hj0 & ->).
    rewrite Forall_lookup in Hd0. by rewrite (Hd0 j d Hj0).
Qed.

Lemma series_keeps_most_recent_witness :
  exists c',
    append_all "cpu" Scenario.four_answers Scenario.started
    = (with_chart "cpu" c' Scenario.started, Normal tt) /\
    labels c' = [2; 3; 4] /\
    forall d', datasets c' !! 0%nat = Some d' ->
               data d' = [Num 42; Num 43; Num 44].
Proof.
  destruct (series_keeps_most_recent 3 "cpu" Scenario.four_answers
              Scenario.started Scenario.fresh_chart)
    as (c' & Hrun & Hl & _ & _ & Hd).
  - lia.
  - reflexivity.
  - reflexivity.
  - discriminate.
  - reflexivity.
  - repeat constructor.
  - repeat (constructor; [split; [eexists; reflexivity | reflexivity]|]).
    constructor.
  - exists c'. split; [exact Hrun|]. split; [exact Hl|].
    intros d' Hj. exact (Hd 0%nat d' Hj).
Defined.

(** ** A missing provider key *)

Lemma each_from_app {A} (l1 l2 : list A) (f : nat -> A -> Js unit) i s :
  each_from i (l1 ++ l2) f s
  = (each_from i l1 f ;;; each_from (i + length l1) l2 f) s.
Proof.
  revert i s. induction l1 as [|x l1 IH]; intros i s; simpl.
  - unfold bind, ret. by rewrite Nat.add_0_r.
  - unfold bind. destruct (f i x s) as [s1 [[]|]]; [|done].
    rewrite IH. unfold bind. by rewrite Nat.add_succ_r.
Qed.

Lemma each_from_index {A} (l : list A) (f : A -> Js unit) i j :
  each_from i l (fun _ x => f x) = each_from j l (fun _ x => f x).
Proof.
  revert i j. induction l as [|x l IH]; intros i j; simpl; [done|].
  by rewrite (IH (S i) (S j)).
Qed.

(** The provider for which the answer has no member gets the label and
    then the handler throws at the first appliance. *)
Lemma add_provider_data_missing_key (data : Response) (q : string)
    (s : State) (c : Chart) :
  charts s !! q = Some (Some c) ->
  member data q = None ->
  resp_appliances data ≠ [] ->
  add_provider_data data q s
  = (with_chart q (mkChart (labels c ++ [time data]) (datasets c) (updates c)) s,
     TypeError).
Proof.
  intros Hc Hq Hne. unfold add_provider_data.
  erewrite bind_normal by (by apply chart_of_lookup).
  erewrite bind_normal by reflexivity.
  fold (with_chart q (mkChart (labels c ++ [time data]) (datasets c) (updates c)) s).
  apply bind_throw.
  destruct (resp_appliances data) as [|a l]; [done|].
  unfold each. simpl. apply bind_throw. unfold push_value.
  erewrite bind_normal by (apply chart_of_lookup, lookup_with_chart).
  rewrite Hq. by destruct (datasets _ !! 0%nat).
Qed.

Lemma member_None_values (data : Response) (q : string) :
  member data q = None -> resp_values data !! q = None.
Proof. unfold member. by destruct (resp_values data !! q). Qed.

Lemma answers_for_same_chart data q s s' :
  charts s' !! q = charts s !! q -> answers_for data q s -> answers_for data q s'.
Proof.
  intros Hq (c & vs & Hc & H). exists c, vs. split; [congruence | done].
Qed.

Lemma each_providers_received (data : Response) (ps : list string) :
  forall i s,
    NoDup ps -> Forall (fun p => answers_for data p s) ps ->
    exists s',
      each_from i ps (fun _ p => add_provider_data data p) s = (s', Normal tt) /\
      s' = set_charts (charts s') s /\
      (forall p, p ∈ ps -> received data p s s') /\
      (forall p, p ∉ ps -> charts s' !! p = charts s !! p).
Proof.
  induction ps as [|p ps IH]; intros i s Hnd Hwf.
  - exists s. simpl. split; [done|]. split; [by destruct s|].
    split; [|done]. intros p Hp. by apply elem_of_nil in Hp.
  - apply NoDup_cons in Hnd as [Hp Hnd]. apply Forall_cons in Hwf as [Hwp Hwf].
    destruct Hwp as (c & vs & Hc & Hne & Hvs & _ & Hl).
    set (s1 := with_chart p (sampled (datapoints (config_charts s)) (time data)
                               vs c) s).
    destruct (IH (S i) s1 Hnd) as (s' & Hrun & Hs' & Hrec & Hoth).
    { rewrite Forall_forall in Hwf. apply Forall_forall. intros q Hq.
      apply (answers_for_same_chart data q s); [|by apply Hwf].
      apply lookup_with_chart_ne. by intros ->. }
    exists s'. split; [|split; [|split]].
    + simpl. erewrite bind_normal
        by (by apply (add_provider_data_sampled data p s c vs)).
      exact Hrun.
    + rewrite Hs' at 1. done.
    + intros q [->|Hq]%elem_of_cons.
      * exists c, vs. split; [done|]. split; [done|].
        rewrite (Hoth p Hp). apply lookup_with_chart.
      * destruct (Hrec q Hq) as (cq & vq & Hcq & Hvq & Hq').
        exists cq, vq. split; [|done].
        rewrite <- Hcq. symmetry. apply lookup_with_chart_ne. by intros ->.
    + intros q Hq. apply not_elem_of_cons in Hq as [Hqp Hq].
      rewrite (Hoth q Hq). by apply lookup_with_chart_ne.
Qed.

(** C3, as the code has it. The samples are committed provider by
    provider, in the order of the selection, and not all or nothing. Let
    [q] be the first selected provider at which the pass fails because
    [data[q]] is [undefined]: the providers selected before [q] (none of
    them twice) are answered in full, [q] has a chart, and the answer
    lists an appliance. Then the providers before [q] have got their
    whole sample, the chart of [q] has got the time label and no value,
    no other chart is changed, the callback ends in an error and nothing
    is scheduled. *)
Theorem missing_key_stops_midway (s : State) (data : Response)
    (ps1 ps2 : list string) (q : string) (c : Chart) :
  toggle s = Stop ->
  checked s = ps1 ++ q :: ps2 ->
  NoDup ps1 ->
  Forall (fun p => answers_for data p s) ps1 ->
  charts s !! q = Some (Some c) ->
  member data q = None ->
  resp_appliances data ≠ [] ->
  exists s1,
    success data s
    = (with_chart q (mkChart (labels c ++ [time data]) (datasets c) (updates c))
         s1, TypeError) /\
    s1 = set_charts (charts s1) s /\
    (forall p, p ∈ ps1 -> received data p s s1) /\
    (forall p, p ∉ ps1 -> charts s1 !! p = charts s !! p) /\
    timers (run (success data) s) = timers s.
Proof.
  intros Ht Hsel Hnd Hwf Hc Hq Hne.
  destruct (each_providers_received data ps1 0 s Hnd Hwf)
    as (s1 & Hps1 & Hs1 & Hrec & Hoth).
  assert (q ∉ ps1) as Hq1.
  { intros Hin. rewrite Forall_forall in Hwf.
    destruct (Hwf q Hin) as (c0 & vs & _ & _ & Hvs & _).
    apply member_None_values in Hq. congruence. }
  assert (add_data data s
          = (with_chart q (mkChart (labels c ++ [time data]) (datasets c)
                                   (updates c)) s1, TypeError)) as Hadd.
  { unfold add_data, get_selected_providers.
    erewrite bind_normal by reflexivity. rewrite Hsel.
    unfold each in *. rewrite each_from_app.
    erewrite bind_normal by exact Hps1. simpl.
    apply bind_throw. apply add_provider_data_missing_key; [|done|done].
    by rewrite (Hoth q Hq1). }
  exists s1. split; [|split; [done|split; [done|split; [done|]]]].
  - rewrite success_monitoring by done. by rewrite Hadd.
  - pose proof (timers_add_data s data) as Hk.
    unfold run. rewrite success_monitoring by done.
    rewrite Hadd in *. done.
Qed.

(** C3 as stated fails: with "cpu" and "memory" selected and an answer
    without the key "memory", the series of "cpu" has got its sample. *)
Lemma missing_key_not_atomic :
  ~ commits_atomically Scenario.started2 (Scenario.answer_without_memory 5).
Proof.
  intros [H|H].
  - destruct (H "memory") as (c & vs & _ & Hvs & _).
    + set_solver.
    + vm_compute in Hvs. discriminate.
  - apply (f_equal (fun m => m !! "cpu")) in H.
    vm_compute in H. discriminate.
Qed.

Lemma missing_key_stops_midway_witness :
  exists s1,
    success (Scenario.answer_without_memory 5) Scenario.started2
    = (with_chart "memory"
         (mkChart [5] [mkDataset "dp1" (Some (RandomColor 0)) []] 0) s1,
       TypeError) /\
    received (Scenario.answer_without_memory 5) "cpu" Scenario.started2 s1 /\
    timers (run (success (Scenario.answer_without_memory 5)) Scenario.started2)
    = timers Scenario.started2.
Proof.
  destruct (missing_key_stops_midway Scenario.started2
              (Scenario.answer_without_memory 5) ["cpu"] [] "memory"
              Scenario.fresh_chart) as (s1 & H1 & _ & H2 & _ & H3).
  - reflexivity.
  - reflexivity.
  - apply NoDup_singleton.
  - constructor; [|constructor].
    exists Scenario.fresh_chart, [45].
    split; [reflexivity|]. split; [discriminate|]. repeat split; reflexivity.
  - reflexivity.
  - vm_compute. reflexivity.
  - discriminate.
  - exists s1. split; [exact H1|]. split; [|exact H3].
    apply H2. constructor.
Defined.

(** ** Selectors and what they find *)

Lemma append_nil_l (b : string) : "" +:+ b = b.
Proof. reflexivity. Qed.

Lemma append_cons (c : Ascii.ascii) (a b : string) :
  String c a +:+ b = String c (a +:+ b).
Proof. reflexivity. Qed.

Lemma append_nil_r (a : string) : a +:+ "" = a.
Proof. induction a as [|c a IH]; [done|]. rewrite append_cons. congruence. Qed.

Lemma append_inj_l (a b c : string) : a +:+ b = a +:+ c -> b = c.
Proof.
  induction a as [|x a IH]; [done|]. rewrite !append_cons.
  intros [= H]. by apply IH.
Qed.

Lemma plain_not_special c : selector_plain c = true -> selector_special c = false.
Proof. destruct c as [[] [] [] [] [] [] [] []]; vm_compute; congruence. Qed.

Lemma plain_not_backslash c : selector_plain c = true -> Ascii.eqb c "\" = false.
Proof. destruct c as [[] [] [] [] [] [] [] []]; vm_compute; congruence. Qed.

Lemma identifier_plain_app (a b : string) :
  all_plain a = true ->
  identifier (a +:+ b) = String.append a <$> identifier b.
Proof.
  induction a as [|c a IH]; intros Ha.
  - rewrite append_nil_l. destruct (identifier b); reflexivity.
  - cbn [all_plain] in Ha. apply andb_true_iff in Ha as [Hc Ha].
    rewrite append_cons. cbn [identifier].
    rewrite (plain_not_backslash c Hc), Hc, (IH Ha).
    destruct (identifier b); reflexivity.
Qed.

(** The escape of [sanitize_provider] gives one identifier for a
    selectable name and for no other, when what follows the name does
    not begin with one of the four characters. *)
Lemma identifier_sanitize (p suffix : string) :
  match suffix with
  | String c _ => selector_special c = false
  | EmptyString => True
  end ->
  identifier (sanitize_provider p +:+ suffix)
  = if selectable p then String.append p <$> identifier suffix else None.
Proof.
  intros Hs. induction p as [|c p IH].
  - cbn [sanitize_provider selectable]. rewrite append_nil_l.
    destruct (identifier suffix); reflexivity.
  - cbn [sanitize_provider selectable].
    destruct (selector_special c) eqn:Hc.
    + rewrite orb_true_r. cbn [andb]. rewrite !append_cons. cbn [identifier].
      change (Ascii.eqb "\" "\") with true. cbn iota. rewrite Hc, IH.
      destruct (selectable p); [|done].
      destruct (identifier suffix); reflexivity.
    + rewrite orb_false_r. rewrite append_cons. cbn [identifier].
      destruct (Ascii.eqb c "\") eqn:Hb.
      * assert (selector_plain c = false) as ->.
        { destruct (selector_plain c) eqn:Hp; [|done].
          apply plain_not_backslash in Hp. congruence. }
        cbn [andb].
        destruct p as [|c' p'].
        { cbn [sanitize_provider]. rewrite append_nil_l.
          destruct suffix as [|c0 s0]; [done|]. by rewrite Hs. }
        cbn [sanitize_provider].
        destruct (selector_special c') eqn:Hc'.
        -- rewrite append_cons. by change (selector_special "\") with false.
        -- rewrite append_cons. by rewrite Hc'.
      * destruct (selector_plain c); [|done]. cbn [andb]. rewrite IH.
        destruct (selectable p); [|done].
        destruct (identifier suffix); reflexivity.
Qed.

Lemma id_of_container_selector (p : string) :
  id_of_selector (container_selector p)
  = if selectable p then Some (container_id p) else None.
Proof.
  unfold container_selector, container_id.
  change ("#status_" +:+ sanitize_provider p +:+ "_container")
    with (String "#" ("status_" +:+ sanitize_provider p +:+ "_container")).
  cbn [id_of_selector]. change (Ascii.eqb "#" "#") with true. cbn iota.
  rewrite (identifier_plain_app "status_") by reflexivity.
  rewrite identifier_sanitize by reflexivity.
  destruct (selectable p); reflexivity.
Qed.

Lemma id_of_canvas_selector (p : string) :
  id_of_selector (canvas_selector p)
  = if selectable p then Some (canvas_id p) else None.
Proof.
  unfold canvas_selector, canvas_id.
  change ("#status_" +:+ sanitize_provider p)
    with (String "#" ("status_" +:+ sanitize_provider p)).
  cbn [id_of_selector]. change (Ascii.eqb "#" "#") with true. cbn iota.
  rewrite (identifier_plain_app "status_") by reflexivity.
  rewrite <- (append_nil_r (sanitize_provider p)).
  rewrite identifier_sanitize by done.
  destruct (selectable p); [|done].
  change (identifier "") with (Some ""). cbn [fmap option_fmap option_map].
  by rewrite append_nil_r.
Qed.

(** *** Ids that cannot be one another *)

Lemma ends_with_app (suffix a : string) : ends_with suffix (a +:+ suffix) = true.
Proof.
  induction a as [|c a IH].
  - rewrite append_nil_l. destruct suffix; cbn [ends_with]; by rewrite String.eqb_refl.
  - rewrite append_cons. cbn [ends_with]. rewrite IH. apply orb_true_r.
Qed.

(** The last character of a text. *)
Lemma append_last (a b : string) (x y : Ascii.ascii) :
  a +:+ String x "" = b +:+ String y "" -> x = y.
Proof.
  revert b. induction a as [|c a IH]; intros [|d b]; rewrite ?append_nil_l, ?append_cons.
  - by intros [= ->].
  - intros [= _ H]. by destruct b.
  - intros [= _ H]. by destruct a.
  - intros [= _ H]. by apply (IH b).
Qed.

Lemma append_assoc (a b c : string) : (a +:+ b) +:+ c = a +:+ (b +:+ c).
Proof. induction a as [|x a IH]; [done|]. rewrite !append_cons. congruence. Qed.

Lemma legend_not_container (q p : string) : legend_id q ≠ container_id p.
Proof.
  unfold legend_id, container_id. intros H. apply append_inj_l in H.
  change "_legend" with ("_legen" +:+ "d") in H.
  change "_container" with ("_containe" +:+ "r") in H.
  rewrite <- !append_assoc in H. apply append_last in H. discriminate.
Qed.

Lemma canvas_is_container (q p : string) :
  canvas_id q = container_id p -> ends_with "_container" q = true.
Proof.
  unfold canvas_id, container_id. intros H. apply append_inj_l in H.
  subst q. apply ends_with_app.
Qed.

Lemma canvas_is_legend (q p : string) :
  canvas_id q = legend_id p -> ends_with "_legend" q = true.
Proof.
  unfold canvas_id, legend_id. intros H. apply append_inj_l in H.
  subst q. apply ends_with_app.
Qed.

Lemma length_append (a b : string) :
  String.length (a +:+ b) = (String.length a + String.length b)%nat.
Proof.
  induction a as [|y a IH]; [done|]. rewrite append_cons. simpl. by rewrite IH.
Qed.

Lemma append_inj_r (a b c : string) : a +:+ c = b +:+ c -> a = b.
Proof.
  revert b. induction a as [|x a IH]; intros [|y b] H.
  - done.
  - apply (f_equal String.length) in H. rewrite !length_append in H.
    simpl in H. lia.
  - apply (f_equal String.length) in H. rewrite !length_append in H.
    simpl in H. lia.
  - rewrite !append_cons in H. injection H as -> H. f_equal. by apply IH.
Qed.

Lemma container_id_inj (p q : string) : container_id p = container_id q -> p = q.
Proof.
  unfold container_id. intros H. apply append_inj_l in H.
  by apply append_inj_r in H.
Qed.

Lemma canvas_id_inj (p q : string) : canvas_id p = canvas_id q -> p = q.
Proof. unfold canvas_id. apply append_inj_l. Qed.

(** What [chartable] gives. *)
Lemma chartable_spec (p : string) :
  chartable p = true ->
  selectable p = true /\ ends_with "_container" p = false /\
  ends_with "_legend" p = false /\ p ≠ "main" /\ p ≠ "top".
Proof.
  unfold chartable. rewrite !andb_true_iff, !negb_true_iff.
  intros [[[[[H1 H2] H3] H4] H5] _]. repeat split; try done.
  - intros ->. discriminate.
  - intros ->. discriminate.
Qed.

(** *** The container of a provider on a tidy page *)

Lemma eqb_false_of_ne (a b : string) : a ≠ b -> String.eqb a b = false.
Proof. intros H. by apply String.eqb_neq. Qed.

Lemma without_id_whole (p q : string) :
  ends_with "_container" q = false ->
  without_id (container_id p) (whole q)
  = if decide (q = p) then None else Some (whole q).
Proof.
  intros Hq. unfold without_id, whole. cbn [cont_provider has_canvas has_legend].
  destruct (decide (q = p)) as [->|Hne].
  - by rewrite String.eqb_refl.
  - rewrite eqb_false_of_ne by (intros H; by apply container_id_inj in H).
    rewrite eqb_false_of_ne
      by (intros H; apply canvas_is_container in H; congruence).
    rewrite eqb_false_of_ne by apply legend_not_container. done.
Qed.

Lemma has_id_whole (p q : string) :
  ends_with "_container" q = false ->
  has_id (container_id p) (whole q) = bool_decide (q = p).
Proof.
  intros Hq. unfold has_id, whole, elements.
  cbn [cont_provider has_canvas has_legend existsb app fst].
  case_bool_decide as Hqp.
  - subst q. by rewrite String.eqb_refl.
  - rewrite eqb_false_of_ne by (intros H; by apply container_id_inj in H).
    rewrite eqb_false_of_ne
      by (intros H; apply canvas_is_container in H; congruence).
    rewrite eqb_false_of_ne by apply legend_not_container. done.
Qed.

Lemma remove_every_whole (p : string) (d : list string) :
  Forall (fun q => chartable q = true) d ->
  remove_every (container_id p) (whole <$> d)
  = whole <$> filter (fun c => c ≠ p) d.
Proof.
  unfold remove_every. induction 1 as [|q d Hq Hd IH]; [done|].
  apply chartable_spec in Hq as (_ & Hq & _).
  rewrite fmap_cons. cbn [omap list_omap]. rewrite without_id_whole by done.
  fold (omap (without_id (container_id p)) (whole <$> d)). rewrite IH.
  rewrite filter_cons. destruct (decide (q = p)) as [->|Hne].
  - by rewrite decide_False by (intros H; by apply H).
  - by rewrite decide_True by done.
Qed.

Lemma filter_absent (p : string) (d : list string) :
  p ∉ d -> filter (fun c => c ≠ p) d = d.
Proof.
  intros H. induction d as [|x d IH]; [done|].
  rewrite filter_cons. apply not_elem_of_cons in H as [Hx Hd].
  rewrite decide_True by done. by rewrite IH.
Qed.

Lemma remove_first_whole (p : string) (d : list string) :
  Forall (fun q => chartable q = true) d -> NoDup d ->
  remove_first (container_id p) (whole <$> d)
  = whole <$> filter (fun c => c ≠ p) d.
Proof.
  induction 1 as [|q d Hq Hd IH]; intros Hnd; [done|].
  apply NoDup_cons in Hnd as [Hqd Hnd].
  apply chartable_spec in Hq as (_ & Hq & _).
  rewrite fmap_cons. cbn [remove_first]. rewrite has_id_whole by done.
  rewrite filter_cons. case_bool_decide as Hqp.
  - subst q. rewrite without_id_whole by done. rewrite decide_True by done.
    rewrite decide_False by (intros H; by apply H).
    cbn [option_list app]. by rewrite filter_absent.
  - rewrite decide_True by done. by rewrite IH.
Qed.

Lemma existsb_has_id_whole (p : string) (d : list string) :
  Forall (fun q => chartable q = true) d ->
  existsb (has_id (container_id p)) (whole <$> d) = bool_decide (p ∈ d).
Proof.
  induction 1 as [|q d Hq Hd IH]; [done|].
  apply chartable_spec in Hq as (_ & Hq & _).
  rewrite fmap_cons. cbn [existsb]. rewrite has_id_whole, IH by done.
  repeat case_bool_decide; try done; set_solver.
Qed.

Lemma selectable_of_tidy (s : State) (p : string) :
  tidy_page s -> p ∈ container_names s -> selectable p = true.
Proof.
  intros (_ & _ & Hc) Hp. rewrite Forall_forall in Hc.
  by destruct (chartable_spec p (Hc p Hp)) as [H _].
Qed.

(** On a tidy page the selector of a container finds the container of
    that provider and nothing else, whatever the provider is. *)
Lemma remove_container_tidy (p : string) (s : State) :
  tidy_page s ->
  remove_container p s
  = if decide (p ∈ container_names s)
    then set_dom (whole <$> filter (fun c => c ≠ p) (container_names s))
                 (dom_log s ++ [Removed p]) s
    else s.
Proof.
  intros Ht. pose proof Ht as (Hw & Hnd & Hc).
  unfold remove_container. rewrite id_of_container_selector.
  destruct (selectable p) eqn:Hs.
  - remember (container_names s) as d eqn:Hd. rewrite Hw.
    rewrite existsb_has_id_whole by done.
    case_bool_decide as Hp.
    + rewrite decide_True by done. f_equal.
      destruct (by_getElementById _).
      * by apply remove_first_whole.
      * by apply remove_every_whole.
    + by rewrite decide_False by done.
  - rewrite decide_False; [done|]. intros Hp.
    apply (selectable_of_tidy s p Ht) in Hp. congruence.
Qed.

(** *** The canvas of a chartable provider *)

Lemma first_with_id_canvas (x : string) (doc : list (string * Tag)) :
  (forall e, e ∈ doc -> e.1 = x -> e.2 = CanvasTag) ->
  (exists e, e ∈ doc /\ e.1 = x) ->
  first_with_id x doc = Some CanvasTag.
Proof.
  intros Hall [e [He Hx]]. unfold first_with_id.
  destruct (List.find _ doc) as [e'|] eqn:Hf.
  - apply List.find_some in Hf as [Hin He'].
    apply String.eqb_eq in He'. cbn [fmap option_fmap option_map]. f_equal.
    apply Hall; [|done]. by apply list_elem_of_In.
  - exfalso. pose proof (List.find_none _ _ Hf e) as Hn. cbn beta in Hn.
    rewrite Hx, String.eqb_refl in Hn.
    assert (true = false) by (apply Hn; by apply list_elem_of_In). done.
Qed.

Lemma elem_of_elements (e : string * Tag) (c : Container) :
  e ∈ elements c ->
  e = (container_id (cont_provider c), DivTag) \/
  e = (canvas_id (cont_provider c), CanvasTag) \/
  e = (legend_id (cont_provider c), DivTag).
Proof.
  unfold elements. rewrite elem_of_cons, elem_of_app.
  intros [->|[H|H]]; [by left| |].
  - destruct (has_canvas c); [|by apply elem_of_nil in H].
    apply list_elem_of_singleton in H. auto.
  - destruct (has_legend c); [|by apply elem_of_nil in H].
    apply list_elem_of_singleton in H. auto.
Qed.

(** Once its container is appended, the canvas of a chartable provider
    is what the selector of line 48 finds first, whatever else is on the
    page. *)
Lemma get_context_appended (p : string) (s : State) :
  chartable p = true ->
  get_context p (append_container p s) = (append_container p s, Normal tt).
Proof.
  intros Hp. destruct (chartable_spec p Hp) as (Hs & Hc & Hl & Hm & Ht).
  unfold get_context. rewrite id_of_canvas_selector, Hs.
  rewrite first_with_id_canvas; [done| |].
  - intros e He Hx. unfold document in He. apply elem_of_app in He as [He|He].
    + unfold page_ids in He. exfalso.
      apply elem_of_cons in He as [->|He].
      { apply Ht. unfold canvas_id in Hx. cbn [fst] in Hx.
        by apply (append_inj_l "status_" "top" p) in Hx. }
      apply list_elem_of_singleton in He. subst e.
      apply Hm. unfold canvas_id in Hx. cbn [fst] in Hx.
      by apply (append_inj_l "status_" "main" p) in Hx.
    + apply list_elem_of_In in He. apply in_flat_map in He as (c & _ & He).
      apply list_elem_of_In in He.
      apply elem_of_elements in He as [-> | [-> | ->]]; cbn [fst snd] in *.
      * symmetry in Hx. apply canvas_is_container in Hx. congruence.
      * done.
      * symmetry in Hx. apply canvas_is_legend in Hx. congruence.
  - exists (canvas_id p, CanvasTag). split; [|done].
    unfold document. apply elem_of_app. right.
    apply list_elem_of_In, in_flat_map. exists (mkContainer p true true). split.
    + apply list_elem_of_In. cbn [append_container status_main set_dom].
      apply elem_of_app. right. constructor.
    + apply list_elem_of_In. unfold elements. cbn [has_canvas cont_provider].
      apply list_elem_of_further, list_elem_of_here.
Qed.

(** ** [initialize_all] while monitoring, step by step *)

Lemma each_foldl {A} (I : State -> Prop) (l : list A)
    (f : nat -> A -> Js unit) (g : State -> A -> State) :
  (forall i x s, I s -> f i x s = (g s x, Normal tt) /\ I (g s x)) ->
  forall i s, I s ->
    each_from i l f s = (foldl g s l, Normal tt) /\ I (foldl g s l).
Proof.
  intros H. induction l as [|x l IH]; intros i s Hs; simpl; [done|].
  destruct (H i x s Hs) as [Hf Hg].
  erewrite bind_normal by exact Hf. by apply IH.
Qed.

(** What every turn of a loop keeps holds when the loop ends, whether it
    runs to its end or stops with an error. *)
Lemma each_from_invariant {A} (I : State -> Prop) (l : list A)
    (f : nat -> A -> Js unit) :
  (forall i x s, I s -> I (f i x s).1) ->
  forall i s, I s -> I (each_from i l f s).1.
Proof.
  intros H. induction l as [|x l IH]; intros i s Hs; simpl; [done|].
  unfold bind. specialize (H i x s Hs).
  destruct (f i x s) as [s1 [[]|]]; simpl in *; [by apply IH | done].
Qed.

Lemma foldl_frame {A B} (f : State -> B) (g : State -> A -> State) l :
  (forall s x, f (g s x) = f s) -> forall s, f (foldl g s l) = f s.
Proof.
  intros H. induction l as [|x l IH]; intros s; simpl; [done|].
  by rewrite IH.
Qed.

Lemma has_property_read (cs : gmap string Color) (h : string) :
  has_property cs h = true <-> is_Some (read_color cs h).
Proof.
  unfold has_property, read_color. destruct (cs !! h) as [c|] eqn:Hc.
  - rewrite bool_decide_true by (by eexists). split; [by eexists | done].
  - rewrite bool_decide_false by (by intros [x Hx]). simpl.
    case_decide as Hp.
    + rewrite bool_decide_true by done. split; [by eexists | done].
    + rewrite bool_decide_false by done. split; [done | by intros [x Hx]].
Qed.

(** For a name that [Object.prototype] has not, [in] and the read see
    the own properties only. *)
Lemma has_property_own {V} (o : gmap string V) (h : string) :
  h ∉ object_prototype -> has_property o h = true <-> is_Some (o !! h).
Proof.
  intros Hp. unfold has_property. rewrite (bool_decide_false (h ∈ _)) by done.
  rewrite orb_false_r. apply bool_decide_eq_true.
Qed.

Lemma read_color_own (cs : gmap string Color) (h : string) :
  h ∉ object_prototype -> read_color cs h = cs !! h.
Proof.
  intros Hp. unfold read_color. destruct (cs !! h); [done|].
  by rewrite decide_False.
Qed.

Lemma assign_color_colored (a : Appliance) (s : State) :
  is_Some (config_colors s) ->
  assign_color a s = (colored s a, Normal tt) /\
  is_Some (config_colors (colored s a)).
Proof.
  intros [cs Hcs]. unfold assign_color, colored, bind, gets. simpl.
  rewrite Hcs. destruct (has_property cs (hostname a)); simpl.
  - by rewrite Hcs.
  - done.
Qed.

Lemma new_datasets_colors (s : State) (cs : gmap string Color) l :
  config_colors s = Some cs ->
  new_datasets l s
  = (s, Normal ((fun a => mkDataset (hostname a) (read_color cs (hostname a)) [])
                  <$> l)).
Proof.
  intros Hcs. induction l as [|a l IH]; simpl; [done|].
  unfold bind, color_of. rewrite Hcs, IH. done.
Qed.

Lemma settings_remove_container p s :
  settings (remove_container p s) = settings s.
Proof. by apply remove_container_frame. Qed.

Lemma settings_installed s p : settings (installed s p) = settings s.
Proof.
  unfold installed. cbn -[remove_container]. apply settings_remove_container.
Qed.

Lemma new_chart_settings s s' : settings s' = settings s -> new_chart s' = new_chart s.
Proof. unfold settings, new_chart. intros [= Ha Hc _]. by rewrite Ha, Hc. Qed.

Lemma settings_ready s s' :
  settings s' = settings s ->
  is_Some (config_colors s) /\ appliances s ≠ [] ->
  is_Some (config_colors s') /\ appliances s' ≠ [].
Proof. unfold settings. intros [= Ha Hc _]. by rewrite Ha, Hc. Qed.

(** One turn of the loop over the selection: the container is removed
    and appended, and then either the canvas is found and the chart is
    registered, or line 48 throws and nothing is registered. *)
Lemma install_cases (p : string) (s : State) :
  is_Some (config_colors s) -> appliances s ≠ [] ->
  let s1 := append_container p (remove_container p s) in
  (get_context p s1 = (s1, Normal tt) /\ install p s = (installed s p, Normal tt))
  \/ (get_context p s1 = (s1, TypeError) /\ install p s = (s1, TypeError)).
Proof.
  intros [cs Hcs] Hne s1.
  destruct (appliances s) as [|a l] eqn:Happs; [done|].
  assert (get_context p s1 = (s1, Normal tt) \/ get_context p s1 = (s1, TypeError))
    as Hg.
  { unfold get_context. destruct (id_of_selector _); [|by right].
    destruct (first_with_id _ _) as [[]|]; auto. }
  unfold install, initialize_chart, bind, gets, modify. rewrite Happs.
  fold s1.
  assert (settings s1 = settings s) as Hs1
    by (unfold s1; cbn -[remove_container]; apply settings_remove_container).
  assert (config_colors s1 = Some cs /\ appliances s1 = a :: l) as [Hcs1 Ha1].
  { unfold settings in Hs1. split; [rewrite <- Hcs | rewrite <- Happs]; congruence. }
  pose proof (new_datasets_colors s1 cs (a :: l) Hcs1) as Hnd.
  destruct Hg as [Hg|Hg].
  - left. split; [done|]. rewrite Hnd, Hg. unfold installed. fold s1.
    unfold ret. do 3 f_equal.
    unfold new_chart. rewrite Hcs, Happs. done.
  - right. split; [done|]. by rewrite Hnd, Hg.
Qed.

Lemma install_installed (p : string) (s : State) :
  chartable p = true -> is_Some (config_colors s) -> appliances s ≠ [] ->
  install p s = (installed s p, Normal tt).
Proof.
  intros Hp Hc Ha. destruct (install_cases p s Hc Ha) as [[_ H]|[Hg _]]; [done|].
  by rewrite get_context_appended in Hg.
Qed.

Lemma colored_frame {B} (f : State -> B) s a :
  (forall c n s, f (set_colors c n s) = f s) -> f (colored s a) = f s.
Proof.
  intros H. unfold colored. destruct (config_colors s) as [cs|]; [|done].
  by destruct (has_property cs (hostname a)).
Qed.

Lemma with_colors_frame {B} (f : State -> B) s :
  (forall c n s, f (set_colors c n s) = f s) -> f (with_colors s) = f s.
Proof. intros H. unfold with_colors. by destruct (config_colors s). Qed.

Lemma dropped_frame {B} (f : State -> B) ps s kv :
  (forall d l s, f (set_dom d l s) = f s) -> f (dropped ps s kv) = f s.
Proof.
  intros H. unfold dropped. case_decide; [done|].
  by apply remove_container_frame.
Qed.

Lemma cleaned_frame {B} (f : State -> B) s :
  (forall c n s, f (set_colors c n s) = f s) ->
  (forall d l s, f (set_dom d l s) = f s) ->
  f (cleaned s) = f s.
Proof.
  intros Hc Hd. unfold cleaned. cbv zeta.
  rewrite (foldl_frame f) by (intros; by apply dropped_frame).
  rewrite (foldl_frame f) by (intros; by apply colored_frame).
  by apply with_colors_frame.
Qed.

Lemma is_Some_colors_colored s a :
  is_Some (config_colors s) -> is_Some (config_colors (colored s a)).
Proof.
  intros [cs Hcs]. unfold colored. rewrite Hcs.
  destruct (has_property cs (hostname a)); simpl; [by rewrite Hcs | done].
Qed.

Lemma config_colors_cleaned s :
  config_colors (cleaned s)
  = config_colors (foldl colored (with_colors s) (appliances s)).
Proof.
  unfold cleaned. cbv zeta.
  by rewrite (foldl_frame config_colors) by (intros; by apply dropped_frame).
Qed.

Lemma is_Some_colors_cleaned s : is_Some (config_colors (cleaned s)).
Proof.
  rewrite config_colors_cleaned.
  assert (is_Some (config_colors (with_colors s))) as Hw.
  { unfold with_colors. destruct (config_colors s) eqn:E; [by rewrite E | done]. }
  revert Hw. generalize (with_colors s).
  induction (appliances s) as [|a l IH]; intros s0 Hs0; simpl; [done|].
  by apply IH, is_Some_colors_colored.
Qed.

(** [initialize_all] while the toggle displays "Stop" and there is an
    appliance: the colours and the removals, which never throw, then the
    loop over the selection and the request. *)
Lemma initialize_all_cleaned (s : State) :
  toggle s = Stop -> appliances s ≠ [] ->
  initialize_all s
  = (each (checked s) (fun _ p => install p) ;;; get_data)
      (set_charts ∅ (cleaned s)).
Proof.
  intros Ht Hne. unfold initialize_all.
  unfold bind at 1. unfold gets at 1. rewrite Ht.
  unfold bind at 1. unfold gets at 1.
  destruct (appliances s) as [|a0 l0] eqn:Happs; [done|]. clear Hne.
  assert ((match config_colors s with
           | None => modify (fun s => set_colors (Some ∅) (random_calls s) s)
           | Some _ => ret tt
           end) s = (with_colors s, Normal tt)) as Hw.
  { unfold with_colors. by destruct (config_colors s). }
  assert (is_Some (config_colors (with_colors s))) as Hc.
  { unfold with_colors. destruct (config_colors s) eqn:E; [by rewrite E | done]. }
  unfold bind at 1. unfold gets at 1. rewrite (bind_normal _ _ _ _ _ Hw).
  destruct (each_foldl (fun s => is_Some (config_colors s)) (a0 :: l0)
              (fun _ a => assign_color a) colored) with (i := 0%nat)
              (s := with_colors s) as [Hcol Hc1]; [|done|].
  { intros i x s' Hs'. by apply assign_color_colored. }
  unfold each at 1. rewrite (bind_normal _ _ _ _ _ Hcol).
  set (s1 := foldl colored (with_colors s) (a0 :: l0)) in *.
  assert (roster s1 = roster s) as Hr1.
  { unfold s1. rewrite (foldl_frame roster).
    - unfold with_colors. by destruct (config_colors s).
    - intros s' a. by apply colored_frame. }
  assert (checked s1 = checked s /\ appliances s1 = a0 :: l0) as [Hch1 Ha1].
  { unfold roster in Hr1. split; [|rewrite <- Happs]; congruence. }
  unfold get_selected_providers at 1.
  unfold bind at 1. unfold gets at 1. unfold bind at 1. unfold gets at 1.
  rewrite Hch1.
  destruct (each_foldl (fun _ => True) (map_to_list (charts s1))
              (fun (_ : nat) kv =>
                 if decide (kv.1 ∈ checked s) then ret tt
                 else modify (remove_container kv.1))
              (dropped (checked s))) with (i := 0%nat) (s := s1)
    as [Hdrop _]; [|done|].
  { intros i kv s' _. unfold dropped. by case_decide. }
  unfold each_property, each at 1. rewrite (bind_normal _ _ _ _ _ Hdrop).
  erewrite bind_normal by reflexivity.
  unfold cleaned. cbv zeta. rewrite Happs. fold s1. reflexivity.
Qed.

Lemma initialize_all_synced (s : State) :
  toggle s = Stop -> appliances s ≠ [] ->
  Forall (fun p => chartable p = true) (checked s) ->
  initialize_all s = (synced s, Normal tt).
Proof.
  intros Ht Hne Hps. rewrite initialize_all_cleaned by done.
  set (s2 := cleaned s).
  assert (is_Some (config_colors (set_charts ∅ s2)) /\
          appliances (set_charts ∅ s2) ≠ []) as Hready.
  { split; [apply is_Some_colors_cleaned|].
    cbn [appliances set_charts]. unfold s2. by rewrite cleaned_frame. }
  assert (forall ps, Forall (fun p => chartable p = true) ps ->
            forall i s0, is_Some (config_colors s0) /\ appliances s0 ≠ [] ->
              each_from i ps (fun _ p => install p) s0
              = (foldl installed s0 ps, Normal tt)) as Hloop.
  { clear. induction 1 as [|p ps Hp Hps IH]; intros i s0 [Hc Ha]; [done|].
    cbn [each_from foldl]. erewrite bind_normal by (by apply install_installed).
    apply IH. eapply settings_ready; [apply settings_installed | done]. }
  unfold bind, each. rewrite (Hloop _ Hps 0%nat _ Hready).
  unfold synced, run. fold (cleaned s). fold s2. reflexivity.
Qed.

(** *** The containers on a tidy page *)

Lemma container_names_whole (d : list string) : cont_provider <$> (whole <$> d) = d.
Proof. rewrite <- list_fmap_compose. by rewrite list_fmap_id. Qed.

Lemma tidy_intro (s : State) (d : list string) :
  status_main s = whole <$> d -> NoDup d ->
  Forall (fun p => chartable p = true) d -> tidy_page s.
Proof.
  intros Hs Hnd Hc. unfold tidy_page, container_names.
  rewrite Hs, container_names_whole. done.
Qed.

Lemma tidy_status_main (s s' : State) :
  status_main s' = status_main s -> tidy_page s -> tidy_page s'.
Proof. unfold tidy_page, container_names. by intros ->. Qed.

Lemma remove_container_names (p : string) (s : State) :
  tidy_page s ->
  tidy_page (remove_container p s) /\
  container_names (remove_container p s)
  = filter (fun c => c ≠ p) (container_names s) /\
  dom_log (remove_container p s)
  = dom_log s ++ (if decide (p ∈ container_names s) then [Removed p] else []).
Proof.
  intros Ht. rewrite remove_container_tidy by done.
  pose proof Ht as (Hw & Hnd & Hc).
  destruct (decide (p ∈ container_names s)) as [Hp|Hp].
  - split; [|split; [|done]].
    + apply (tidy_intro _ (filter (fun c => c ≠ p) (container_names s))).
      * done.
      * by apply NoDup_filter.
      * rewrite Forall_forall in Hc. apply Forall_forall.
        intros x [_ Hx]%list_elem_of_filter. by apply Hc.
    + unfold container_names at 1. cbn [status_main set_dom].
      apply container_names_whole.
  - rewrite filter_absent by done. by rewrite app_nil_r.
Qed.

Lemma names_page_installed (s : State) (p : string) :
  tidy_page s -> chartable p = true ->
  tidy_page (installed s p) /\
  names_page (installed s p) = page_installed (names_page s) p.
Proof.
  intros Ht Hp. destruct (remove_container_names p s Ht) as (Ht1 & Hn1 & Hl1).
  set (s1 := remove_container p s) in *.
  assert (container_names (installed s p) = container_names s1 ++ [p]) as Hn.
  { unfold installed, container_names. cbn [status_main set_charts append_container set_dom].
    fold s1. by rewrite fmap_app. }
  split.
  - destruct Ht1 as (Hw1 & Hnd1 & Hc1).
    apply (tidy_intro _ (container_names s1 ++ [p])).
    + unfold installed. cbn [status_main set_charts append_container set_dom].
      fold s1. rewrite fmap_app. by rewrite <- Hw1.
    + apply NoDup_app. split; [done|]. split; [|apply NoDup_singleton].
      intros x Hx Hx'. apply list_elem_of_singleton in Hx'. subst x.
      rewrite Hn1 in Hx. apply list_elem_of_filter in Hx as [Hx _]. by apply Hx.
    + apply Forall_app. split; [done|]. by constructor.
  - unfold names_page, page_installed. cbn [fst snd]. rewrite Hn, Hn1. f_equal.
    unfold installed. cbn [dom_log set_charts append_container set_dom].
    fold s1. rewrite Hl1. by rewrite <- app_assoc.
Qed.

Lemma names_page_foldl_installed (ps : list string) :
  Forall (fun p => chartable p = true) ps ->
  forall s, tidy_page s ->
    tidy_page (foldl installed s ps) /\
    names_page (foldl installed s ps) = foldl page_installed (names_page s) ps.
Proof.
  induction 1 as [|p ps Hp Hps IH]; intros s Ht; [done|].
  destruct (names_page_installed s p Ht Hp) as [Ht1 Hn1].
  cbn [foldl]. destruct (IH _ Ht1) as [Ht2 Hn2]. by rewrite Hn2, Hn1.
Qed.

Lemma charts_foldl_installed ps :
  forall s, charts (foldl installed s ps)
            = foldl (fun m p => <[p := Some (new_chart s)]> m) (charts s) ps.
Proof.
  induction ps as [|p ps IH]; intros s; simpl; [done|].
  rewrite IH. rewrite (new_chart_settings s (installed s p))
    by apply settings_installed.
  f_equal. unfold installed. cbn -[remove_container].
  f_equal. by apply (remove_container_frame charts).
Qed.

Lemma lookup_foldl_insert {V} (v : V) (ps : list string) (q : string) :
  forall m : gmap string V,
    foldl (fun m p => <[p := v]> m) m ps !! q
    = if decide (q ∈ ps) then Some v else m !! q.
Proof.
  induction ps as [|p ps IH]; intros m; simpl.
  - done.
  - rewrite IH. destruct (decide (q ∈ ps)) as [Hq|Hq].
    + rewrite decide_True by set_solver. done.
    + destruct (decide (p = q)) as [->|Hpq].
      * rewrite decide_True by set_solver. by rewrite lookup_insert_eq.
      * rewrite decide_False by set_solver. by rewrite lookup_insert_ne.
Qed.

Lemma fst_foldl_page_installed ps :
  forall dl, (foldl page_installed dl ps).1 = rebuilt ps dl.1.
Proof. induction ps as [|p ps IH]; intros dl; simpl; [done|]. by rewrite IH. Qed.

Lemma elem_of_rebuilt ps : forall d c, c ∈ rebuilt ps d <-> c ∈ ps \/ c ∈ d.
Proof.
  induction ps as [|p ps IH]; intros d c; simpl.
  - set_solver.
  - unfold rebuilt in *. simpl. rewrite IH, elem_of_app, list_elem_of_filter.
    destruct (decide (c = p)) as [->|Hc]; set_solver.
Qed.

Lemma filter_filter_ne (p : string) (ps : list string) (d : list string) :
  filter (fun c => c ∉ ps) (filter (fun c => c ≠ p) d)
  = filter (fun c => c ∉ p :: ps) d.
Proof.
  induction d as [|x d IH]; [done|].
  rewrite !filter_cons. destruct (decide (x = p)) as [->|Hx].
  - rewrite decide_False by (intros H; by apply H).
    rewrite (decide_False (P := p ∉ p :: ps)) by set_solver. done.
  - rewrite decide_True by done. rewrite filter_cons.
    destruct (decide (x ∈ ps)) as [Hin|Hin].
    + rewrite decide_False by set_solver.
      rewrite (decide_False (P := x ∉ p :: ps)) by set_solver. done.
    + rewrite decide_True by done.
      rewrite (decide_True (P := x ∉ p :: ps)) by set_solver.
      by rewrite IH.
Qed.

Lemma rebuilt_split ps :
  forall d, rebuilt ps d = filter (fun c => c ∉ ps) d ++ rebuilt ps [].
Proof.
  induction ps as [|p ps IH]; intros d.
  - simpl. rewrite app_nil_r. induction d as [|x d IHd]; [done|].
    rewrite filter_cons, decide_True by set_solver. by rewrite <- IHd.
  - unfold rebuilt in *. simpl.
    rewrite IH, (IH [p]), filter_app, filter_filter_ne.
    rewrite <- app_assoc. by do 2 f_equal.
Qed.

Lemma filter_all_selected (ps d : list string) :
  (forall c, c ∈ d -> c ∈ ps) -> filter (fun c => c ∉ ps) d = [].
Proof.
  intros H. induction d as [|x d IH]; [done|].
  rewrite filter_cons, decide_False by (intros Hx; apply Hx, H; set_solver).
  apply IH. intros c Hc. apply H. set_solver.
Qed.

Lemma rebuilt_twice ps d : rebuilt ps (rebuilt ps d) = rebuilt ps d.
Proof.
  rewrite (rebuilt_split ps (rebuilt ps d)), (rebuilt_split ps d).
  rewrite filter_app. rewrite (filter_all_selected ps (rebuilt ps [])).
  - rewrite app_nil_r. f_equal.
    induction d as [|x d IH]; [done|].
    rewrite !filter_cons. case_decide; [|done].
    rewrite filter_cons, decide_True by done. by rewrite IH.
  - intros c Hc. apply elem_of_rebuilt in Hc. set_solver.
Qed.

(** When every selected container is on the page, each turn removes one
    and appends one. *)
Lemma snd_foldl_page_installed (qs : list string) :
  forall dl : list string * list DomOp,
    (forall p, p ∈ qs -> p ∈ dl.1) ->
    (foldl page_installed dl qs).2
    = dl.2 ++ flat_map (fun p => [Removed p; Appended p]) qs.
Proof.
  induction qs as [|q qs IH]; intros dl Hqs; simpl.
  - by rewrite app_nil_r.
  - rewrite IH.
    + simpl. rewrite decide_True by (apply Hqs; set_solver).
      by rewrite <- !app_assoc.
    + intros p Hp. simpl. apply elem_of_app.
      destruct (decide (p = q)) as [->|Hpq]; [set_solver|].
      left. apply list_elem_of_filter. split; [done|]. apply Hqs. set_solver.
Qed.

(** *** The colours *)

Lemma colored_id s a : has_color s (hostname a) -> colored s a = s.
Proof.
  intros (cs & Hcs & Hp). unfold colored. by rewrite Hcs, Hp.
Qed.

Lemma has_property_insert {V} (o : gmap string V) (k h : string) (v : V) :
  has_property o h = true -> has_property (<[k := v]> o) h = true.
Proof.
  unfold has_property. rewrite !orb_true_iff, !bool_decide_eq_true.
  intros [[x Hx]|H]; [|by right]. left.
  destruct (decide (k = h)) as [->|Hne].
  - rewrite lookup_insert_eq. by eexists.
  - rewrite lookup_insert_ne by done. by eexists.
Qed.

Lemma has_property_insert_eq {V} (o : gmap string V) (k : string) (v : V) :
  has_property (<[k := v]> o) k = true.
Proof.
  unfold has_property. rewrite lookup_insert_eq.
  by rewrite bool_decide_true by (by eexists).
Qed.

Lemma has_color_colored s a :
  is_Some (config_colors s) -> has_color (colored s a) (hostname a).
Proof.
  intros [cs Hcs]. unfold has_color, colored. rewrite Hcs.
  destruct (has_property cs (hostname a)) eqn:Hc; simpl.
  - exists cs. by rewrite Hcs.
  - eexists. split; [done|]. apply has_property_insert_eq.
Qed.

Lemma has_color_mono s a h : has_color s h -> has_color (colored s a) h.
Proof.
  intros (cs & Hcs & Hh). unfold has_color, colored. rewrite Hcs.
  destruct (has_property cs (hostname a)) eqn:Hc; simpl.
  - exists cs. by rewrite Hcs.
  - eexists. split; [done|]. by apply has_property_insert.
Qed.

Lemma foldl_colored_mono apps :
  forall s h, has_color s h -> has_color (foldl colored s apps) h.
Proof.
  induction apps as [|a apps IH]; intros s h Hh; simpl; [done|].
  by apply IH, has_color_mono.
Qed.

Lemma foldl_colored_complete apps :
  forall s, is_Some (config_colors s) ->
    forall a, a ∈ apps -> has_color (foldl colored s apps) (hostname a).
Proof.
  induction apps as [|a0 apps IH]; intros s Hs a Ha; simpl; [set_solver|].
  apply elem_of_cons in Ha as [->|Ha].
  - by apply foldl_colored_mono, has_color_colored.
  - apply IH; [by apply is_Some_colors_colored | done].
Qed.

Lemma foldl_colored_id apps :
  forall s, (forall a, a ∈ apps -> has_color s (hostname a)) ->
    foldl colored s apps = s.
Proof.
  induction apps as [|a0 apps IH]; intros s Hs; simpl; [done|].
  rewrite colored_id by (apply Hs; set_solver).
  apply IH. intros a Ha. apply Hs. set_solver.
Qed.

Lemma with_colors_id s : is_Some (config_colors s) -> with_colors s = s.
Proof. intros [cs Hcs]. unfold with_colors. by rewrite Hcs. Qed.

Lemma has_color_colors s s' h :
  config_colors s' = config_colors s -> has_color s h -> has_color s' h.
Proof. unfold has_color. by intros ->. Qed.

Lemma cleaned_colors s :
  is_Some (config_colors (cleaned s)) /\
  forall a, a ∈ appliances s -> has_color (cleaned s) (hostname a).
Proof.
  split; [apply is_Some_colors_cleaned|].
  intros a Ha. eapply has_color_colors; [apply config_colors_cleaned|].
  apply foldl_colored_complete; [|done].
  unfold with_colors. destruct (config_colors s) eqn:E; [by rewrite E | done].
Qed.

(** *** The two halves *)

Lemma foldl_dropped_id ps (l : list (string * option Chart)) :
  forall s, (forall kv, kv ∈ l -> kv.1 ∈ ps) -> foldl (dropped ps) s l = s.
Proof.
  induction l as [|kv l IH]; intros s Hl; simpl; [done|].
  unfold dropped at 2. rewrite decide_True by (apply Hl; set_solver).
  apply IH. intros kv' Hkv'. apply Hl. set_solver.
Qed.

Lemma foldl_dropped_names ps (l : list (string * option Chart)) :
  forall s, tidy_page s ->
    tidy_page (foldl (dropped ps) s l) /\
    forall c, c ∈ container_names (foldl (dropped ps) s l) ->
              c ∈ container_names s /\ (c ∈ l.*1 -> c ∈ ps).
Proof.
  induction l as [|kv l IH]; intros s Ht; cbn [foldl].
  - split; [done|]. intros c Hc. split; [done|]. intros H.
    by apply elem_of_nil in H.
  - assert (tidy_page (dropped ps s kv) /\
            forall c, c ∈ container_names (dropped ps s kv) ->
                      c ∈ container_names s /\ (c = kv.1 -> kv.1 ∈ ps))
      as [Ht1 Hn1].
    { unfold dropped. destruct (decide (kv.1 ∈ ps)) as [Hkv|Hkv]; [done|].
      destruct (remove_container_names kv.1 s Ht) as (Ht1 & Hn1 & _).
      split; [done|]. intros c. rewrite Hn1, list_elem_of_filter.
      intros [Hne Hc]. split; [done|]. by intros ->. }
    destruct (IH _ Ht1) as [Ht2 Hn2]. split; [done|].
    intros c Hc. apply Hn2 in Hc as [Hc Hl]. apply Hn1 in Hc as [Hc Hk].
    split; [done|]. rewrite fmap_cons.
    intros [->|H]%elem_of_cons; [by apply Hk | by apply Hl].
Qed.

Lemma cleaned_tidy s :
  tidy_page s ->
  tidy_page (cleaned s) /\
  forall c, c ∈ container_names (cleaned s) ->
    c ∈ container_names s /\ (is_Some (charts s !! c) -> c ∈ checked s).
Proof.
  intros Ht. unfold cleaned. cbv zeta.
  set (s1 := foldl colored (with_colors s) (appliances s)) in *.
  assert (status_main s1 = status_main s) as Hsm.
  { unfold s1. rewrite (foldl_frame status_main)
      by (intros; by apply colored_frame).
    by apply with_colors_frame. }
  assert (charts s1 = charts s) as Hch.
  { unfold s1. rewrite (foldl_frame charts)
      by (intros; by apply colored_frame).
    by apply with_colors_frame. }
  assert (tidy_page s1) as Ht1 by (by apply (tidy_status_main s)).
  destruct (foldl_dropped_names (checked s) (map_to_list (charts s1)) s1 Ht1)
    as [Ht2 Hn2].
  split; [done|]. intros c Hc. apply Hn2 in Hc as [Hc Hk].
  unfold container_names in Hc. rewrite Hsm in Hc. split; [done|].
  intros [v Hv]. apply Hk. rewrite Hch. apply list_elem_of_fmap.
  exists (c, v). split; [done|]. by apply elem_of_map_to_list.
Qed.

Lemma synced_resync s : synced s = resync (cleaned s).
Proof.
  unfold synced, resync, cleaned. cbv zeta. do 2 f_equal.
  symmetry. rewrite (foldl_frame checked) by (intros; by apply dropped_frame).
  rewrite (foldl_frame checked) by (intros; by apply colored_frame).
  by apply with_colors_frame.
Qed.

Lemma inputs_installed s p : inputs (installed s p) = inputs s.
Proof.
  unfold installed. cbn -[remove_container].
  by apply (remove_container_frame inputs).
Qed.

Lemma inputs_settings s s' : inputs s' = inputs s -> settings s' = settings s.
Proof. unfold inputs, settings. intros [= _ Ha _ _ Hc Hn]. by rewrite Ha, Hc, Hn. Qed.

Lemma run_get_data s :
  run get_data s = set_in_flight (in_flight s ++ [request_of s]) s.
Proof. reflexivity. Qed.

Lemma installed_frame {B} (f : State -> B) s p :
  (forall c s, f (set_charts c s) = f s) ->
  (forall d l s, f (set_dom d l s) = f s) ->
  f (installed s p) = f s.
Proof.
  intros Hc Hd. unfold installed, append_container. rewrite Hc, Hd.
  by apply remove_container_frame.
Qed.

Lemma resync_spec (s : State) :
  let s' := resync s in
  inputs s' = inputs s /\
  timers s' = timers s /\
  charts s' = foldl (fun m p => <[p := Some (new_chart s)]> m) ∅ (checked s) /\
  page s' = page (foldl installed (set_charts ∅ s) (checked s)) /\
  in_flight s' = in_flight s ++ [request_of s].
Proof.
  intros s'. unfold s', resync. rewrite run_get_data.
  set (s3 := foldl installed (set_charts ∅ s) (checked s)).
  assert (inputs s3 = inputs s) as Hi.
  { unfold s3. rewrite (foldl_frame inputs); [done | apply inputs_installed]. }
  assert (timers s3 = timers s) as Ht.
  { unfold s3. rewrite (foldl_frame timers); [done|].
    intros s0 p. by apply installed_frame. }
  assert (in_flight s3 = in_flight s) as Hf.
  { unfold s3. rewrite (foldl_frame in_flight); [done|].
    intros s0 p. by apply installed_frame. }
  assert (charts s3
          = foldl (fun m p => <[p := Some (new_chart s)]> m) ∅ (checked s)) as Hc
    by (unfold s3; by rewrite charts_foldl_installed).
  assert (request_of s3 = request_of s) as Hr.
  { unfold request_of. unfold inputs in Hi. injection Hi as _ Ha Hch Hg _ _.
    by rewrite Ha, Hch, Hg. }
  rewrite Hr, Hf. done.
Qed.

(** On a tidy page and for chartable providers the second half leaves a
    tidy page: the containers of the selected providers are removed and
    appended, in the order of the selection. *)
Lemma resync_page (s : State) :
  tidy_page s -> Forall (fun p => chartable p = true) (checked s) ->
  tidy_page (resync s) /\
  names_page (resync s) = foldl page_installed (names_page s) (checked s).
Proof.
  intros Ht Hps. destruct (resync_spec s) as (_ & _ & _ & Hp & _).
  destruct (names_page_foldl_installed (checked s) Hps (set_charts ∅ s))
    as [Ht3 Hn3]; [done|].
  pose proof (f_equal fst Hp) as Hsm. pose proof (f_equal snd Hp) as Hlog.
  cbn [page fst snd] in Hsm, Hlog. split.
  - by apply (tidy_status_main _ _ Hsm).
  - unfold names_page, container_names in *. by rewrite Hsm, Hlog.
Qed.

(** ** The check boxes and the registry *)

Lemma new_chart_fresh s :
  labels (new_chart s) = [] /\ Forall (fun d => data d = []) (datasets (new_chart s)).
Proof.
  split; [done|]. unfold new_chart. cbn [datasets]. rewrite Forall_fmap.
  by apply Forall_true.
Qed.

(** A state that [initialize_all] has just left: nothing to clean. *)
Lemma cleaned_resync s :
  (forall a, a ∈ appliances s -> has_color s (hostname a)) ->
  is_Some (config_colors s) ->
  cleaned (resync s) = resync s.
Proof.
  intros Hcol Hsome.
  destruct (resync_spec s) as (Hi & _ & Hc & _ & _).
  set (s1 := resync s) in *. clearbody s1.
  assert (appliances s1 = appliances s /\ config_colors s1 = config_colors s
          /\ checked s1 = checked s) as (Ha & Hcs & Hch).
  { unfold inputs in Hi. injection Hi as _ Ha Hch _ Hcs _. done. }
  unfold cleaned. cbv zeta.
  rewrite with_colors_id by (by rewrite Hcs).
  rewrite foldl_colored_id.
  - apply foldl_dropped_id. intros [k v] Hkv. simpl.
    apply elem_of_map_to_list in Hkv. rewrite Hc, lookup_foldl_insert in Hkv.
    rewrite Hch. by case_decide.
  - intros a Ha'. eapply has_color_colors; [exact Hcs|]. apply Hcol.
    by rewrite <- Ha.
Qed.

(** C2 as stated fails: while the toggle displays "Start", unchecking
    "cpu" leaves the container of its chart on the page. *)
Lemma idle_change_keeps_widget :
  ~ deselected_widgets_removed Scenario.paused [].
Proof.
  intros H. apply (H "cpu").
  - by eexists.
  - apply not_elem_of_nil.
  - vm_compute. constructor.
Qed.

(** C2, as the code has it. The change handler publishes
    [startCharting], and [initialize_all] tests the toggle and the
    roster first. While the toggle displays "Start", or without an
    appliance, a change of the selection changes nothing else. While it
    displays "Stop" and there is an appliance, on a tidy page and with
    chartable providers checked, the registry is rebuilt for the current
    roster: exactly the checked providers are registered, each with a
    new empty chart, and one request is posted; every checked provider
    has its container, the container of a registered provider that is
    no longer checked is removed, and the page is tidy again. *)
Theorem change_syncs_only_while_monitoring (s : State) (ps : list string) :
  let s' := step (Change ps) s in
  (toggle s = Start \/ appliances s = [] -> s' = set_checked ps s) /\
  (toggle s = Stop -> appliances s ≠ [] ->
   Forall (fun p => chartable p = true) ps -> tidy s ->
   (forall p, charts s' !! p
              = if decide (p ∈ ps) then Some (Some (new_chart s')) else None) /\
   in_flight s' = in_flight s ++ [request_of (set_checked ps s)] /\
   tidy s' /\
   (forall p, p ∈ ps -> p ∈ container_names s') /\
   (forall p, is_Some (charts s !! p) -> p ∉ ps -> p ∉ container_names s')).
Proof.
  intros s'. unfold s', step, run, on_change, publish_startCharting.
  set (s0 := set_checked ps s). split.
  - intros [Ht|Ha].
    + by rewrite initialize_all_idle.
    + by rewrite initialize_all_no_appliance.
  - intros Ht Ha Hps [Hty _]. rewrite (initialize_all_synced s0) by done.
    cbn [fst]. rewrite synced_resync.
    destruct (resync_spec (cleaned s0)) as (Hi & _ & Hc & _ & Hf).
    assert (checked (cleaned s0) = ps) as Hch by (by rewrite cleaned_frame).
    rewrite Hch in *.
    split; [|split].
    + intros p. rewrite Hc, lookup_foldl_insert, lookup_empty.
      by rewrite (new_chart_settings (cleaned s0) (resync (cleaned s0)))
        by (by apply inputs_settings).
    + rewrite Hf. rewrite (cleaned_frame in_flight) by done.
      f_equal. f_equal. unfold request_of.
      rewrite (cleaned_frame appliances), (cleaned_frame checked),
        (cleaned_frame global_no_check_hostname) by done.
      done.
    + assert (tidy_page s0) as Hty0 by done.
      destruct (cleaned_tidy s0 Hty0) as [Hty1 Hn1].
      destruct (resync_page (cleaned s0) Hty1) as [Hty2 Hn2];
        [by rewrite Hch|].
      rewrite Hch in Hn2.
      assert (container_names (resync (cleaned s0))
              = rebuilt ps (container_names (cleaned s0))) as Hsm.
      { change (container_names (resync (cleaned s0)))
          with (names_page (resync (cleaned s0))).1.
        by rewrite Hn2, fst_foldl_page_installed. }
      split; [split; [done|]|split].
      * intros p [v Hv].
        rewrite Hc, lookup_foldl_insert, lookup_empty in Hv.
        case_decide as Hin; [|done].
        by apply (proj1 (Forall_forall _ _) Hps).
      * intros p Hp'. rewrite Hsm. apply elem_of_rebuilt. auto.
      * intros p Hreg Hsel. rewrite Hsm.
        intros [Hin|Hin]%elem_of_rebuilt; [done|].
        apply Hn1 in Hin as [_ Hin]. apply Hsel. by apply Hin.
Qed.

Lemma tidy_monitoring : tidy Scenario.monitoring.
Proof.
  split.
  - apply (tidy_intro _ ["cpu"]); [reflexivity | apply NoDup_singleton|].
    by repeat constructor.
  - intros p [v Hv].
    assert (charts Scenario.monitoring
            = <["cpu" := default None (charts Scenario.monitoring !! "cpu")]> ∅)
      as E by (vm_compute; reflexivity).
    rewrite E in Hv. destruct (decide (p = "cpu")) as [->|Hne]; [reflexivity|].
    by rewrite lookup_insert_ne, lookup_empty in Hv.
Qed.

Lemma change_syncs_only_while_monitoring_witness :
  (toggle Scenario.paused = Start /\
   step (Change []) Scenario.paused = set_checked [] Scenario.paused) /\
  (toggle Scenario.monitoring = Stop /\
   appliances Scenario.monitoring ≠ [] /\
   Forall (fun p => chartable p = true) ["memory"] /\
   tidy Scenario.monitoring /\
   ("cpu" ∉ container_names (step (Change ["memory"]) Scenario.monitoring)) /\
   ("memory" ∈ container_names (step (Change ["memory"]) Scenario.monitoring))).
Proof.
  split.
  - split; [reflexivity|].
    apply (change_syncs_only_while_monitoring Scenario.paused []).
    left. reflexivity.
  - assert (toggle Scenario.monitoring = Stop) as Ht by reflexivity.
    assert (appliances Scenario.monitoring ≠ []) as Ha by discriminate.
    assert (Forall (fun p => chartable p = true) ["memory"]) as Hps
      by (by repeat constructor).
    destruct (change_syncs_only_while_monitoring Scenario.monitoring
                ["memory"]) as [_ H].
    destruct (H Ht Ha Hps tidy_monitoring) as (_ & _ & _ & Hsel & Hdes).
    split; [exact Ht|]. split; [exact Ha|]. split; [exact Hps|].
    split; [exact tidy_monitoring|]. split.
    + apply Hdes; [by eexists|].
      intros Hin. apply list_elem_of_singleton in Hin. discriminate.
    + apply Hsel. constructor.
Defined.

(** C4 as stated fails: the second of two calls in a row removes the
    container of "cpu" and appends a new one. *)
Lemma second_sync_rebuilds_widgets :
  ~ second_sync_does_nothing Scenario.started.
Proof. unfold second_sync_does_nothing. vm_compute. discriminate. Qed.

(** C4, as the code has it. While the toggle displays "Stop" and there
    is an appliance, on a tidy page and with chartable providers
    checked, two calls in a row leave the same registry and the same
    page as one call: the same providers, each bound to an empty chart,
    and the same containers in the same order. But the second call does
    its work again: for every selected provider it removes the container
    and appends a new one, and the chart it registers is a new one with
    no label and no value. *)
Theorem sync_twice_same_registry_rebuilt (s : State) :
  toggle s = Stop -> appliances s ≠ [] ->
  Forall (fun p => chartable p = true) (checked s) -> tidy s ->
  let s1 := run initialize_all s in
  let s2 := run initialize_all s1 in
  charts s2 = charts s1 /\
  status_main s2 = status_main s1 /\
  dom_log s2
  = dom_log s1 ++ flat_map (fun p => [Removed p; Appended p]) (checked s) /\
  forall p, p ∈ checked s ->
    exists c, charts s2 !! p = Some (Some c) /\ labels c = [] /\
              Forall (fun d => data d = []) (datasets c).
Proof.
  intros Ht Ha Hps [Hty _] s1 s2.
  assert (s1 = resync (cleaned s)) as Hs1.
  { unfold s1, run. rewrite initialize_all_synced by done.
    cbn [fst]. apply synced_resync. }
  set (s0 := cleaned s) in *.
  destruct (cleaned_colors s) as [Hsome Hcol]. fold s0 in Hsome, Hcol.
  assert (appliances s0 = appliances s /\ checked s0 = checked s /\
          toggle s0 = toggle s) as (Ha0 & Hch0 & Ht0).
  { unfold s0. by rewrite !cleaned_frame. }
  destruct (resync_spec s0) as (Hi1 & _ & Hc1 & _ & _).
  rewrite <- Hs1 in Hi1, Hc1.
  assert (toggle s1 = Stop /\ appliances s1 = appliances s /\
          checked s1 = checked s) as (Ht1 & Ha1 & Hch1).
  { unfold inputs in Hi1. injection Hi1 as Ht1 Ha1 Hch1 _ _ _.
    rewrite Ht1, Ha1, Hch1. by rewrite Ht0, Ha0, Hch0. }
  assert (s2 = resync s1) as Hs2.
  { unfold s2, run. rewrite initialize_all_synced by (by rewrite ?Ha1, ?Hch1).
    cbn [fst]. rewrite synced_resync, Hs1. f_equal.
    apply cleaned_resync; [by rewrite Ha0 | done]. }
  destruct (resync_spec s1) as (_ & _ & Hc2 & _ & _).
  rewrite <- Hs2 in Hc2.
  assert (new_chart s1 = new_chart s0) as Hnew
    by (by apply new_chart_settings, inputs_settings).
  destruct (cleaned_tidy s Hty) as [Hty0 _]. fold s0 in Hty0.
  destruct (resync_page s0 Hty0) as [Hty1 Hn1]; [by rewrite Hch0|].
  rewrite <- Hs1 in Hty1, Hn1.
  destruct (resync_page s1 Hty1) as [Hty2 Hn2]; [by rewrite Hch1|].
  rewrite <- Hs2 in Hty2, Hn2. clearbody s1 s2 s0.
  rewrite Hch1 in *. rewrite Hch0 in *.
  assert (container_names s1 = rebuilt (checked s) (container_names s0))
    as Hsm1.
  { change (container_names s1) with (names_page s1).1.
    by rewrite Hn1, fst_foldl_page_installed. }
  split; [by rewrite Hc2, Hc1, Hnew|]. split; [|split].
  - destruct Hty1 as (-> & _ & _). destruct Hty2 as (-> & _ & _). f_equal.
    change (container_names s2) with (names_page s2).1.
    rewrite Hn2, fst_foldl_page_installed. cbn [names_page fst].
    by rewrite Hsm1, rebuilt_twice.
  - change (dom_log s2) with (names_page s2).2.
    rewrite Hn2, snd_foldl_page_installed; [done|].
    intros p Hp. cbn [names_page fst]. rewrite Hsm1.
    apply elem_of_rebuilt. auto.
  - intros p Hp. exists (new_chart s1).
    rewrite Hc2, lookup_foldl_insert, decide_True by done.
    split; [done|]. apply new_chart_fresh.
Qed.

Lemma sync_twice_same_registry_rebuilt_witness :
  toggle Scenario.monitoring = Stop /\
  appliances Scenario.monitoring ≠ [] /\
  Forall (fun p => chartable p = true) (checked Scenario.monitoring) /\
  tidy Scenario.monitoring /\
  charts (run initialize_all (run initialize_all Scenario.monitoring))
  = charts (run initialize_all Scenario.monitoring) /\
  status_main (run initialize_all (run initialize_all Scenario.monitoring))
  = status_main (run initialize_all Scenario.monitoring) /\
  dom_log (run initialize_all (run initialize_all Scenario.monitoring))
  = dom_log (run initialize_all Scenario.monitoring)
    ++ [Removed "cpu"; Appended "cpu"].
Proof.
  assert (toggle Scenario.monitoring = Stop) as Ht by reflexivity.
  assert (appliances Scenario.monitoring ≠ []) as Ha by discriminate.
  assert (Forall (fun p => chartable p = true) (checked Scenario.monitoring))
    as Hps by (by repeat constructor).
  destruct (sync_twice_same_registry_rebuilt Scenario.monitoring Ht Ha Hps
              tidy_monitoring) as (Hc & Hs & Hl & _).
  split; [exact Ht|]. split; [exact Ha|]. split; [exact Hps|].
  split; [exact tidy_monitoring|].
  split; [exact Hc | split; [exact Hs | exact Hl]].
Defined.


(** * Further properties of the plugin *)

(** ** Clicks *)

Lemma state_eta (s : State) :
  mkState (toggle s) (appliances s) (checked s) (global_no_check_hostname s)
    (config_charts s) (config_colors s) (random_calls s) (charts s)
    (status_main s) (dom_log s) (in_flight s) (pending_timers s)
    (window_timeout s) (next_timer s) = s.
Proof. by destruct s. Qed.

Lemma step_click_start (s : State) :
  toggle s = Start -> step Click s = set_toggle Stop s.
Proof.
  intros Ht. unfold step, run, on_click, publish_startCharting, bind, gets, modify.
  cbn -[initialize_all]. rewrite Ht. by rewrite initialize_all_idle.
Qed.

Lemma step_click_stop (s : State) :
  toggle s = Stop -> step Click s = set_toggle Start s.
Proof.
  intros Ht. unfold step, run, on_click, bind, gets, modify. simpl.
  by rewrite Ht.
Qed.

(** X1. Two clicks on the toggle in a row change nothing, whatever the
    toggle displayed: the charts and their series, the containers, the
    requests in flight and the pending timer are as before. Stopping and
    starting again neither clears the history nor starts a new poll. *)
Theorem two_clicks_change_nothing (s : State) : exec [Click; Click] s = s.
Proof.
  change (step Click (step Click s) = s). destruct (toggle s) eqn:Ht.
  - rewrite (step_click_start s Ht), step_click_stop by done.
    unfold set_toggle. simpl. rewrite <- Ht. apply state_eta.
  - rewrite (step_click_stop s Ht), step_click_start by done.
    unfold set_toggle. simpl. rewrite <- Ht. apply state_eta.
Qed.

(** ** Poll chains *)

Lemma length_delete_le {A} (l : list A) (i : nat) :
  (length (delete i l) <= length l)%nat.
Proof.
  revert i. induction l as [|x l IH]; intros [|i]; simpl; try lia.
  specialize (IH i). lia.
Qed.

Lemma length_delete_lookup {A} (l : list A) (i : nat) (x : A) :
  l !! i = Some x -> S (length (delete i l)) = length l.
Proof.
  revert i. induction l as [|y l IH]; intros [|i] H; simpl in *; try done.
  by rewrite (IH i).
Qed.

Lemma length_filter_timer (l : list (nat * option Z)) (t : nat) :
  t ∈ l.*1 ->
  (S (length (filter (fun p => p.1 ≠ t) l)) <= length l)%nat.
Proof.
  induction l as [|[t' d] l IH]; simpl; intros Ht.
  - by apply elem_of_nil in Ht.
  - rewrite filter_cons. simpl. destruct (decide (t' ≠ t)) as [Hne|He].
    + apply elem_of_cons in Ht as [->|Ht]; [done|]. simpl.
      specialize (IH Ht). lia.
    + pose proof (length_filter (fun p : nat * option Z => p.1 ≠ t) l). lia.
Qed.

Lemma poll_chains_rescheduled (s : State) :
  (poll_chains (rescheduled s) <= S (poll_chains s))%nat.
Proof.
  unfold poll_chains, rescheduled. simpl. rewrite length_app. simpl.
  destruct (window_timeout s).
  - pose proof (length_filter (fun p : nat * option Z => p.1 ≠ n)
                  (pending_timers s)). lia.
  - lia.
Qed.

Lemma in_flight_add_data (s : State) (data : Response) :
  in_flight (add_data data s).1 = in_flight s.
Proof. by apply (keeps_add_data in_flight). Qed.

Lemma poll_chains_success (s : State) (data : Response) :
  (poll_chains (run (success data) s) <= S (poll_chains s))%nat.
Proof.
  unfold run. destruct (toggle s) eqn:Ht.
  - rewrite success_idle by done. simpl. lia.
  - rewrite success_monitoring by done.
    pose proof (timers_add_data s data) as Hk.
    pose proof (in_flight_add_data s data) as Hf.
    destruct (add_data data s) as [s1 [[]|]]; cbn [fst] in *.
    + pose proof (poll_chains_rescheduled s1) as Hr.
      apply timers_eq in Hk as (Hp & _ & _).
      unfold poll_chains in *. rewrite Hp, Hf in Hr. exact Hr.
    + apply timers_eq in Hk as (Hp & _ & _).
      unfold poll_chains. rewrite Hp, Hf. lia.
Qed.

Lemma keeps_install {B} (f : State -> B) (p : string) :
  (forall c s, f (set_charts c s) = f s) ->
  (forall d l s, f (set_dom d l s) = f s) ->
  keeps f (install p).
Proof.
  intros Hc Hd. unfold install, initialize_chart.
  apply keeps_bind; [|intros c; by apply keeps_modify].
  apply keeps_bind; [apply keeps_gets | intros apps].
  destruct apps; [apply keeps_ret|].
  repeat keeps_step; try apply keeps_new_datasets;
    try apply keeps_get_context.
  - by apply remove_container_frame.
  - apply Hd.
Qed.

(** The state after the loop over the selection, whether it ran to its
    end or stopped at line 48. *)
Lemma keeps_install_all {B} (f : State -> B) (ps : list string) :
  (forall c s, f (set_charts c s) = f s) ->
  (forall d l s, f (set_dom d l s) = f s) ->
  keeps f (each ps (fun _ p => install p)).
Proof. intros Hc Hd. apply keeps_each. intros i p. by apply keeps_install. Qed.

Lemma in_flight_initialize_all (s : State) :
  in_flight (run initialize_all s) = in_flight s \/
  in_flight (run initialize_all s) = in_flight s ++ [request_of s].
Proof.
  unfold run. destruct (toggle s) eqn:Ht.
  { left. by rewrite initialize_all_idle. }
  destruct (appliances s) as [|a l] eqn:Ha.
  { left. by rewrite initialize_all_no_appliance. }
  rewrite initialize_all_cleaned by (by rewrite ?Ha).
  set (s0 := set_charts ∅ (cleaned s)).
  pose proof (keeps_install_all inputs (checked s)
                (fun _ _ => eq_refl) (fun _ _ _ => eq_refl) s0) as Hi.
  pose proof (keeps_install_all in_flight (checked s)
                (fun _ _ => eq_refl) (fun _ _ _ => eq_refl) s0) as Hf.
  unfold bind.
  destruct (each (checked s) (fun _ p => install p) s0) as [s3 [[]|]];
    cbn [fst] in *.
  - right. change (get_data s3).1 with (run get_data s3).
    rewrite run_get_data. cbn [in_flight set_in_flight]. rewrite Hf.
    unfold s0. cbn [in_flight set_charts].
    rewrite (cleaned_frame in_flight) by done. f_equal. f_equal.
    unfold request_of. unfold inputs in Hi.
    injection Hi as _ Hap Hch Hg _ _. rewrite Hap, Hch, Hg.
    unfold s0. cbn [appliances checked global_no_check_hostname set_charts].
    by rewrite (cleaned_frame appliances), (cleaned_frame checked),
      (cleaned_frame global_no_check_hostname).
  - left. rewrite Hf. unfold s0. cbn [in_flight set_charts].
    by rewrite (cleaned_frame in_flight).
Qed.

(** X2. The polls under way (requests in flight plus pending timers)
    never become more by a click, an answer, a failure or a timer that
    fires. A change of the selection or of the roster adds one at most
    and leaves the pending timer where it is; it adds exactly one while
    the toggle displays "Stop" and there is an appliance, on a tidy page
    and with chartable providers checked: the poll it starts runs beside
    the one that is under way. *)
Theorem poll_chains_grow_only_by_sync (e : Event) (s : State) :
  (starts_chain e = false -> (poll_chains (step e s) <= poll_chains s)%nat) /\
  (starts_chain e = true ->
   (poll_chains (step e s) <= S (poll_chains s))%nat /\
   pending_timers (step e s) = pending_timers s) /\
  (starts_chain e = true -> toggle s = Stop -> appliances (step e s) ≠ [] ->
   Forall (fun p => chartable p = true) (checked (step e s)) -> tidy s ->
   poll_chains (step e s) = S (poll_chains s)).
Proof.
  assert (starts_chain e = true ->
          exists s0, step e s = run initialize_all s0 /\ toggle s0 = toggle s /\
            in_flight s0 = in_flight s /\
            pending_timers s0 = pending_timers s) as Hsync.
  { intros He. destruct e as [|ps|apps|i data|i|t]; try done.
    - by exists (set_checked ps s).
    - by exists (set_appliances apps s). }
  split; [|split].
  - intros He. destruct e as [|ps|apps|i data|i|t]; try done.
    + destruct (toggle s) eqn:Ht.
      * rewrite (step_click_start s Ht). done.
      * rewrite (step_click_stop s Ht). done.
    + cbn [step]. destruct (in_flight s !! i) as [rq|] eqn:Hi; [|done].
      pose proof (poll_chains_success
                    (set_in_flight (delete i (in_flight s)) s) data) as H.
      apply length_delete_lookup in Hi.
      unfold poll_chains in *. simpl in H. lia.
    + unfold poll_chains. simpl. pose proof (length_delete_le (in_flight s) i).
      lia.
    + cbn [step]. case_decide as Ht; [|done].
      unfold run, get_data, bind, gets, modify.
      unfold poll_chains. simpl. rewrite length_app. simpl.
      apply length_filter_timer in Ht. lia.
  - intros He. destruct (Hsync He) as (s0 & Hs & _ & Hf & Hp).
    rewrite Hs. clear Hs.
    pose proof (timers_initialize_all s0) as Hti.
    apply timers_eq in Hti as (Hpe & _ & _).
    unfold poll_chains. unfold run at 2 3. rewrite Hpe, Hp.
    split; [|done].
    destruct (in_flight_initialize_all s0) as [-> | ->];
      rewrite ?length_app, Hf; simpl; lia.
  - intros He Ht Ha Hch _. destruct (Hsync He) as (s0 & Hs & Ht0 & Hf & Hp).
    rewrite Hs in *. clear Hs He.
    assert (appliances s0 ≠ []) as Ha0.
    { intros E. apply Ha. unfold run. by rewrite initialize_all_no_appliance. }
    assert (checked (run initialize_all s0) = checked s0) as Hck
      by (by apply (keeps_initialize_all checked)).
    rewrite Hck in Hch.
    unfold run. rewrite initialize_all_synced by (by rewrite ?Ht0). cbn [fst].
    rewrite synced_resync.
    destruct (resync_spec (cleaned s0)) as (_ & Hti & _ & _ & Hfl).
    apply timers_eq in Hti as (Hpe & _ & _).
    unfold poll_chains. rewrite Hfl, Hpe, length_app. simpl.
    rewrite (cleaned_frame in_flight), (cleaned_frame pending_timers) by done.
    rewrite Hf, Hp. lia.
Qed.

Lemma poll_chains_grow_only_by_sync_witness :
  Forall (fun p => chartable p = true)
         (checked (step (Change ["memory"]) Scenario.monitoring)) /\
  poll_chains (step (Change ["memory"]) Scenario.monitoring)
  = S (poll_chains Scenario.monitoring) /\
  pending_timers (step (Change ["memory"]) Scenario.monitoring)
  = pending_timers Scenario.monitoring /\
  (poll_chains (step (Timeout 0) Scenario.monitoring)
   <= poll_chains Scenario.monitoring)%nat.
Proof.
  assert (Forall (fun p => chartable p = true)
            (checked (step (Change ["memory"]) Scenario.monitoring))) as Hch
    by (vm_compute; by repeat constructor).
  destruct (poll_chains_grow_only_by_sync (Change ["memory"])
              Scenario.monitoring) as (_ & H0 & H).
  destruct (H0 eq_refl) as [_ H2].
  pose proof (H eq_refl eq_refl) as H1.
  destruct (poll_chains_grow_only_by_sync (Timeout 0) Scenario.monitoring)
    as [H3 _].
  split; [exact Hch|].
  split; [apply H1; [vm_compute; discriminate | exact Hch | exact tidy_monitoring]|].
  split; [exact H2 | exact (H3 eq_refl)].
Defined.

(** ** Colours *)

Lemma color_at_colored s a h c :
  color_at s h = Some c -> color_at (colored s a) h = Some c.
Proof.
  unfold color_at, colored. destruct (config_colors s) as [cs|] eqn:Hcs; [|done].
  simpl. intros Hh. destruct (has_property cs (hostname a)) eqn:Hc; simpl.
  - by rewrite Hcs.
  - destruct (decide (hostname a = h)) as [He|Hne].
    + exfalso. unfold has_property in Hc. rewrite He, Hh in Hc.
      by rewrite bool_decide_true in Hc by (by eexists).
    + by rewrite lookup_insert_ne.
Qed.

Lemma color_at_foldl_colored apps :
  forall s h c, color_at s h = Some c ->
                color_at (foldl colored s apps) h = Some c.
Proof.
  induction apps as [|a apps IH]; intros s h c Hh; simpl; [done|].
  by apply IH, color_at_colored.
Qed.

Lemma color_at_with_colors s h c :
  color_at s h = Some c -> color_at (with_colors s) h = Some c.
Proof.
  unfold color_at, with_colors.
  destruct (config_colors s) as [cs|] eqn:Hcs; [by rewrite Hcs | done].
Qed.

(** After its first half [initialize_all] leaves the colours alone. *)
Lemma settings_initialize_all (s : State) :
  toggle s = Stop -> appliances s ≠ [] ->
  settings (run initialize_all s) = settings (cleaned s).
Proof.
  intros Ht Ha. unfold run. rewrite initialize_all_cleaned by done.
  set (s0 := set_charts ∅ (cleaned s)).
  change (settings (cleaned s)) with (settings s0).
  apply (keeps_bind settings).
  - by apply keeps_install_all.
  - intros _. by apply keeps_get_data.
Qed.

Lemma config_colors_initialize_all (s : State) :
  toggle s = Stop -> appliances s ≠ [] ->
  config_colors (run initialize_all s) = config_colors (cleaned s).
Proof.
  intros Ht Ha. pose proof (settings_initialize_all s Ht Ha) as H.
  unfold settings in H. by injection H as _ H _.
Qed.

Lemma color_at_initialize_all s h c :
  color_at s h = Some c -> color_at (run initialize_all s) h = Some c.
Proof.
  intros Hh. destruct (toggle s) eqn:Ht.
  { unfold run. by rewrite initialize_all_idle. }
  destruct (appliances s) as [|a l] eqn:Ha.
  { unfold run. by rewrite initialize_all_no_appliance. }
  unfold color_at.
  rewrite config_colors_initialize_all, config_colors_cleaned by (by rewrite ?Ha).
  by apply color_at_foldl_colored, color_at_with_colors.
Qed.

(** The colour loop never gives a colour to a host named like a member
    of [Object.prototype]. *)
Lemma color_at_inherited_kept (apps : list Appliance) (h : string) :
  h ∈ object_prototype ->
  forall s, color_at (foldl colored s apps) h = color_at s h.
Proof.
  intros Hp. induction apps as [|a apps IH]; intros s; [done|].
  cbn [foldl]. rewrite IH. unfold color_at, colored.
  destruct (config_colors s) as [cs|] eqn:Hcs; [|by rewrite Hcs].
  destruct (has_property cs (hostname a)) eqn:Hc; [by rewrite Hcs|].
  cbn [config_colors set_colors mbind option_bind].
  apply lookup_insert_ne. intros He. unfold has_property in Hc.
  rewrite He in Hc. rewrite (bool_decide_true (h ∈ _)) in Hc by done.
  by rewrite orb_true_r in Hc.
Qed.

Lemma config_colors_success s data :
  config_colors (run (success data) s) = config_colors s.
Proof.
  unfold run. destruct (toggle s) eqn:Ht.
  - by rewrite success_idle.
  - rewrite success_monitoring by done.
    pose proof (keeps_add_data config_colors data (fun _ _ => eq_refl) s) as Hk.
    by destruct (add_data data s) as [s1 [[]|]].
Qed.

Lemma color_at_step e s h c :
  color_at s h = Some c -> color_at (step e s) h = Some c.
Proof.
  intros Hh. destruct e as [|ps|apps|i data|i|t].
  - destruct (toggle s) eqn:Ht.
    + by rewrite step_click_start.
    + by rewrite step_click_stop.
  - by apply (color_at_initialize_all (set_checked ps s)).
  - by apply (color_at_initialize_all (set_appliances apps s)).
  - cbn [step]. destruct (in_flight s !! i); [|done].
    unfold color_at. by rewrite config_colors_success.
  - done.
  - cbn [step]. by case_decide.
Qed.

(** X3. An appliance keeps its colour: once [config.colors] has a colour
    for a host name, no click, change of selection or roster, answer,
    failure or timer changes it. [initialize_all] draws a colour only
    for a host that has none. *)
Theorem colors_are_kept (es : list Event) (s : State) (h : string) (c : Color) :
  color_at s h = Some c -> color_at (exec es s) h = Some c.
Proof.
  revert s. induction es as [|e es IH]; intros s Hh; simpl; [done|].
  by apply IH, color_at_step.
Qed.

Lemma colors_are_kept_witness :
  color_at Scenario.started "dp1" = Some (RandomColor 0) /\
  color_at (exec [ModifyAppliances [mkAppliance "dp0" "x"; Scenario.dp1];
                  Click; Change ["memory"]] Scenario.started) "dp1"
  = Some (RandomColor 0).
Proof.
  split; [reflexivity|].
  apply colors_are_kept. reflexivity.
Defined.

Lemma all_new_install (s0 : State) (p : string) (s : State) :
  is_Some (config_colors s0) -> appliances s0 ≠ [] ->
  all_new s0 s -> all_new s0 (install p s).1.
Proof.
  intros Hc Ha [Hs Hn].
  destruct (install_cases p s) as [[_ ->]|[_ ->]];
    [by apply (settings_ready s0) | by apply (settings_ready s0) | |];
    cbn [fst].
  - split; [by rewrite settings_installed|].
    intros q v. unfold installed. cbn [charts set_charts append_container set_dom].
    rewrite (remove_container_frame charts) by done.
    destruct (decide (p = q)) as [->|Hne].
    + rewrite lookup_insert_eq. intros [= <-]. f_equal.
      by apply new_chart_settings.
    + rewrite lookup_insert_ne by done. apply Hn.
  - split.
    + change (settings (remove_container p s) = settings s0).
      by rewrite settings_remove_container.
    + intros q v. cbn [charts append_container set_dom].
      rewrite (remove_container_frame charts) by done. apply Hn.
Qed.

Lemma all_new_initialize_all (s : State) :
  toggle s = Stop -> appliances s ≠ [] ->
  all_new (cleaned s) (run initialize_all s).
Proof.
  intros Ht Ha. unfold run. rewrite initialize_all_cleaned by done.
  set (s0 := set_charts ∅ (cleaned s)).
  assert (all_new (cleaned s) (each (checked s) (fun _ p => install p) s0).1)
    as Hloop.
  { apply (each_from_invariant (all_new (cleaned s))).
    - intros i p s' Hs'. apply all_new_install; [| |done].
      + apply is_Some_colors_cleaned.
      + by rewrite cleaned_frame.
    - split; [done|]. intros q v. unfold s0. cbn [charts set_charts].
      by rewrite lookup_empty. }
  unfold bind.
  destruct (each (checked s) (fun _ p => install p) s0) as [s3 [[]|]];
    cbn [fst] in *; [|done].
  destruct Hloop as [Hs Hn]. split; [|done].
  rewrite <- Hs. by apply (keeps_get_data settings).
Qed.

(** X4. After [initialize_all] has run with the toggle displaying "Stop"
    and at least one appliance, every registered chart has one empty
    dataset per appliance, in the order of the roster, labelled with the
    host name and carrying what [config.colors] reads for it, which is
    never [undefined]. An appliance whose host name is not the name of a
    member of [Object.prototype] has a colour of its own in
    [config.colors] and its datasets carry that colour. An appliance
    named like such a member, and without a configured colour, gets
    none: its datasets carry the inherited member instead. *)
Theorem sync_colors_every_dataset (s : State) (p : string) (c : Chart) :
  toggle s = Stop -> appliances s ≠ [] ->
  charts (run initialize_all s) !! p = Some (Some c) ->
  (forall a, a ∈ appliances s -> hostname a ∉ object_prototype ->
             is_Some (color_at (run initialize_all s) (hostname a))) /\
  layout c = hostname <$> appliances s /\
  Forall (fun d =>
            is_Some (borderColor d) /\ data d = [] /\
            (label d ∉ object_prototype ->
             borderColor d = color_at (run initialize_all s) (label d)) /\
            (label d ∈ object_prototype -> color_at s (label d) = None ->
             color_at (run initialize_all s) (label d) = None /\
             borderColor d = Some (Inherited (label d))))
         (datasets c).
Proof.
  intros Ht Ha Hp.
  destruct (all_new_initialize_all s Ht Ha) as [Hset Hnew].
  apply Hnew in Hp. injection Hp as ->.
  pose proof (config_colors_initialize_all s Ht Ha) as Hcs.
  destruct (cleaned_colors s) as [[cs Hsome] Hcol].
  assert (appliances (cleaned s) = appliances s) as Hap
    by (by rewrite cleaned_frame).
  unfold color_at at 1 2 3. rewrite Hcs, Hsome. cbn [mbind option_bind].
  assert (forall a, a ∈ appliances s -> has_property cs (hostname a) = true)
    as Hin.
  { intros a Hin. destruct (Hcol a Hin) as (cs' & Hcs' & H). congruence. }
  split; [|split].
  - intros a Hina Hnp. by apply has_property_own, Hin.
  - unfold layout, new_chart. cbn [datasets]. rewrite <- list_fmap_compose.
    by rewrite Hap.
  - unfold new_chart. cbn [datasets]. rewrite Forall_fmap, Hap, Hsome.
    apply Forall_forall. intros a Hina. cbn [mbind option_bind label borderColor data].
    split; [by apply has_property_read, Hin|]. split; [done|]. split.
    + intros Hnp. by apply read_color_own.
    + intros Hpr Hno.
      assert (cs !! hostname a = None) as Hown.
      { assert (color_at (cleaned s) (hostname a) = cs !! hostname a) as <-
          by (unfold color_at; by rewrite Hsome).
        unfold color_at at 1. rewrite config_colors_cleaned.
        fold (color_at (foldl colored (with_colors s) (appliances s))
                       (hostname a)).
        rewrite color_at_inherited_kept by done.
        unfold color_at, with_colors in *.
        destruct (config_colors s) as [cs0|] eqn:E; [by rewrite E | done]. }
      cbn [label borderColor] in *. split.
      * unfold color_at. by rewrite Hcs, Hsome.
      * unfold read_color. rewrite Hown. by rewrite decide_True.
Qed.

Lemma sync_colors_every_dataset_witness :
  charts (run initialize_all Scenario.monitoring) !! "cpu"
  = Some (Some Scenario.fresh_chart) /\
  layout Scenario.fresh_chart = ["dp1"] /\
  Forall (fun d => is_Some (borderColor d) /\ data d = [] /\
                   (label d ∉ object_prototype ->
                    borderColor d
                    = color_at (run initialize_all Scenario.monitoring) (label d)))
         (datasets Scenario.fresh_chart).
Proof.
  assert (charts (run initialize_all Scenario.monitoring) !! "cpu"
          = Some (Some Scenario.fresh_chart)) as Hc by (vm_compute; reflexivity).
  destruct (sync_colors_every_dataset Scenario.monitoring "cpu"
              Scenario.fresh_chart) as (_ & Hl & Hd);
    [reflexivity | discriminate | exact Hc |].
  split; [exact Hc | split; [exact Hl|]].
  eapply Forall_impl; [exact Hd|]. intros d (H1 & H2 & H3 & _). auto.
Defined.

(** ** The registry *)

Lemma layouts_with_chart p c c' s :
  charts s !! p = Some (Some c) -> layout c' = layout c ->
  layouts (with_chart p c' s) = layouts s.
Proof.
  intros Hc Hl. unfold layouts, with_chart. cbn [charts set_charts].
  rewrite fmap_insert. apply insert_id. rewrite lookup_fmap, Hc. simpl.
  by rewrite Hl.
Qed.

Lemma keeps_layouts_push_value data p i : keeps layouts (push_value data p i).
Proof.
  intros s. unfold push_value, bind, chart_of.
  destruct (charts s !! p) as [[c|]|] eqn:Hc; try done.
  destruct (datasets c !! i) as [d|] eqn:Hd; [|done].
  destruct (member data p) as [m|]; [|done].
  apply (layouts_with_chart p c); [done|].
  unfold layout. cbn [datasets]. rewrite list_fmap_insert.
  apply list_insert_id. by rewrite list_lookup_fmap, Hd.
Qed.

Lemma keeps_layouts_evict p : keeps layouts (evict p).
Proof.
  intros s. unfold evict, bind, chart_of, gets.
  destruct (charts s !! p) as [[c|]|] eqn:Hc; try done.
  destruct (datasets c) as [|d0 ds] eqn:Hds; [done|].
  destruct (exceeds _ _); [|done].
  apply (layouts_with_chart p c); [done|].
  unfold layout. cbn [datasets]. rewrite Hds, <- list_fmap_compose.
  by apply list_fmap_ext.
Qed.

Lemma keeps_layouts_add_provider_data data p :
  keeps layouts (add_provider_data data p).
Proof.
  intros s. unfold add_provider_data. unfold bind at 1. unfold chart_of at 1.
  destruct (charts s !! p) as [[c|]|] eqn:Hc; try done.
  unfold bind at 1. unfold put_chart at 1, modify at 1.
  fold (with_chart p (mkChart (labels c ++ [time data]) (datasets c)
                              (updates c)) s).
  set (s1 := with_chart p _ s).
  assert (layouts s1 = layouts s) as <- by (by apply (layouts_with_chart p c)).
  generalize s1. clear. apply keeps_bind.
  { apply keeps_each. intros i x. apply keeps_layouts_push_value. }
  intros _. apply keeps_bind; [apply keeps_layouts_evict|]. intros _ s.
  unfold bind, chart_of.
  destruct (charts s !! p) as [[c|]|] eqn:Hc; try done.
  by apply (layouts_with_chart p c).
Qed.

Lemma layouts_add_data data s : layouts (add_data data s).1 = layouts s.
Proof.
  apply (keeps_bind layouts); [apply keeps_gets|]. intros ps.
  apply keeps_each. intros i p. apply keeps_layouts_add_provider_data.
Qed.

Lemma registry_ok_layouts s s' :
  layouts s' = layouts s -> registry_ok s -> registry_ok s'.
Proof.
  intros Hl (hs & Hne & H). exists hs. split; [done|]. intros p v Hv.
  assert (layouts s !! p = Some (layout <$> v)) as Hp.
  { rewrite <- Hl. unfold layouts. by rewrite lookup_fmap, Hv. }
  unfold layouts in Hp. rewrite lookup_fmap in Hp.
  destruct (charts s !! p) as [v0|] eqn:Hv0; [|done].
  destruct (H p v0 Hv0) as (c0 & -> & Hc0). simpl in Hp.
  destruct v as [c|]; [|done]. exists c. split; [done|].
  simpl in Hp. congruence.
Qed.

Lemma registry_ok_initialize_all s :
  registry_ok s -> registry_ok (run initialize_all s).
Proof.
  intros Hs. destruct (toggle s) eqn:Ht.
  { unfold run. by rewrite initialize_all_idle. }
  destruct (appliances s) as [|a l] eqn:Ha.
  { unfold run. by rewrite initialize_all_no_appliance. }
  destruct (all_new_initialize_all s) as [_ Hnew]; [done | by rewrite Ha|].
  exists (layout (new_chart (cleaned s))). split.
  - unfold layout, new_chart. cbn [datasets].
    rewrite (cleaned_frame appliances), Ha by done. done.
  - intros p v Hv. apply Hnew in Hv as ->. by eexists.
Qed.

Lemma registry_ok_step e s : registry_ok s -> registry_ok (step e s).
Proof.
  intros Hs. destruct e as [|ps|apps|i data|i|t].
  - destruct (toggle s) eqn:Ht.
    + by rewrite step_click_start.
    + by rewrite step_click_stop.
  - by apply (registry_ok_initialize_all (set_checked ps s)).
  - by apply (registry_ok_initialize_all (set_appliances apps s)).
  - cbn [step]. destruct (in_flight s !! i); [|done].
    set (s0 := set_in_flight _ s). assert (registry_ok s0) as H0 by done.
    clearbody s0. unfold run. destruct (toggle s0) eqn:Ht.
    + by rewrite success_idle.
    + rewrite success_monitoring by done.
      pose proof (layouts_add_data data s0) as Hl.
      destruct (add_data data s0) as [s1 [[]|]]; cbn [fst] in *.
      * by apply (registry_ok_layouts s0).
      * by apply (registry_ok_layouts s0).
  - done.
  - cbn [step]. by case_decide.
Qed.

(** X5. In every state the page can reach, every property of
    [window.charts] holds a chart (never [undefined]: the early return of
    [initialize_chart] is not taken from [initialize_all]), every chart
    has at least one dataset, and all the charts have the same datasets,
    host by host: they are always rebuilt together. *)
Theorem registry_always_well_formed (s : State) : reachable s -> registry_ok s.
Proof.
  intros (cfg & colors & apps & boxes & no_check & es & ->).
  assert (registry_ok (loaded cfg colors apps boxes no_check)) as H0.
  { exists ["-"]. split; [done|]. intros p v. simpl. by rewrite lookup_empty. }
  revert H0. generalize (loaded cfg colors apps boxes no_check).
  induction es as [|e es IH]; intros s Hs; simpl; [done|].
  by apply IH, registry_ok_step.
Qed.

Lemma registry_always_well_formed_witness :
  reachable Scenario.monitoring /\ registry_ok Scenario.monitoring.
Proof.
  assert (reachable Scenario.monitoring) as Hr.
  { exists Scenario.cfg, None, [], ["cpu"], false,
      [ModifyAppliances [Scenario.dp1]; Answer 0 (Scenario.answer 0)].
    vm_compute. reflexivity. }
  split; [exact Hr | exact (registry_always_well_formed _ Hr)].
Defined.

(** ** Answers *)

Lemma add_provider_data_no_chart (data : Response) (q : string) (s : State) :
  (forall c, charts s !! q ≠ Some (Some c)) ->
  add_provider_data data q s = (s, TypeError).
Proof.
  intros H. unfold add_provider_data. apply bind_throw. unfold chart_of.
  destruct (charts s !! q) as [[c|]|] eqn:Hc; try done. by destruct (H c).
Qed.

(** X6. A selected provider without a chart stops the polling. When a
    checked provider [q] has no chart in [window.charts] (it was checked
    while the toggle displayed "Start"), the success callback commits the
    providers selected before [q], throws at line 163 without touching
    any other chart, and schedules nothing. *)
Theorem selected_without_chart_stops (s s1 : State) (data : Response)
    (ps1 ps2 : list string) (q : string) :
  toggle s = Stop ->
  checked s = ps1 ++ q :: ps2 ->
  each ps1 (fun _ p => add_provider_data data p) s = (s1, Normal tt) ->
  (forall c, charts s1 !! q ≠ Some (Some c)) ->
  success data s = (s1, TypeError) /\
  timers (run (success data) s) = timers s.
Proof.
  intros Ht Hsel Hps1 Hq.
  assert (add_data data s = (s1, TypeError)) as Hadd.
  { unfold add_data, get_selected_providers.
    erewrite bind_normal by reflexivity. rewrite Hsel.
    unfold each in *. rewrite each_from_app.
    erewrite bind_normal by exact Hps1. simpl.
    apply bind_throw. by apply add_provider_data_no_chart. }
  pose proof (timers_add_data s data) as Hk.
  unfold run. rewrite success_monitoring by done.
  rewrite Hadd in *. done.
Qed.

Lemma selected_without_chart_stops_witness :
  success (Scenario.answer 2000) Scenario.resumed
  = (Scenario.resumed_cpu, TypeError) /\
  timers (run (success (Scenario.answer 2000)) Scenario.resumed)
  = timers Scenario.resumed.
Proof.
  apply (selected_without_chart_stops Scenario.resumed Scenario.resumed_cpu
           (Scenario.answer 2000) ["cpu"] [] "memory").
  - reflexivity.
  - reflexivity.
  - vm_compute. reflexivity.
  - intros c Hc. vm_compute in Hc. discriminate.
Defined.

(** X7. A complete answer is committed whole and the next poll is
    scheduled. While the toggle displays "Stop", when no provider is
    checked twice and the answer has, for every checked provider, one
    number per appliance and as many appliances as the chart has
    datasets, the success callback runs to its end: every checked
    provider's chart gets the time label and one value per dataset (and
    loses its oldest sample when that makes it too long), [update()] is
    called on it once, no other chart and nothing else on the page
    changes, and then the timer for the next poll is set with the
    configured delay. *)
Theorem complete_answer_is_committed (s : State) (data : Response) :
  toggle s = Stop ->
  NoDup (checked s) ->
  Forall (fun p => answers_for data p s) (checked s) ->
  exists s1,
    success data s = (rescheduled s1, Normal tt) /\
    s1 = set_charts (charts s1) s /\
    (forall p, p ∈ checked s -> received data p s s1) /\
    (forall p, p ∉ checked s -> charts s1 !! p = charts s !! p) /\
    (next_timer s, interval (config_charts s))
      ∈ pending_timers (run (success data) s).
Proof.
  intros Ht Hnd Hwf.
  destruct (each_providers_received data (checked s) 0 s Hnd Hwf)
    as (s1 & Hrun & Hs1 & Hrec & Hoth).
  assert (success data s = (rescheduled s1, Normal tt)) as Hsucc.
  { rewrite success_monitoring by done. unfold add_data, get_selected_providers.
    erewrite bind_normal by reflexivity. unfold each. by rewrite Hrun. }
  exists s1. split; [done|]. split; [done|]. split; [done|]. split; [done|].
  unfold run. rewrite Hsucc. cbn [fst]. unfold rescheduled. cbn [pending_timers set_timers].
  rewrite Hs1. cbn [next_timer config_charts set_charts].
  apply elem_of_app. right. constructor.
Qed.

Lemma complete_answer_is_committed_witness :
  exists s1,
    success (Scenario.answer 1000) Scenario.monitoring
    = (rescheduled s1, Normal tt) /\
    received (Scenario.answer 1000) "cpu" Scenario.monitoring s1 /\
    (1%nat, Some 1000)
      ∈ pending_timers (run (success (Scenario.answer 1000))
                            Scenario.monitoring).
Proof.
  destruct (complete_answer_is_committed Scenario.monitoring
              (Scenario.answer 1000)) as (s1 & H1 & _ & H2 & _ & H3).
  - reflexivity.
  - apply NoDup_singleton.
  - constructor; [|constructor].
    exists Scenario.first_chart, [1040].
    split; [reflexivity|]. split; [discriminate|]. repeat split; reflexivity.
  - exists s1. split; [exact H1|]. split; [|exact H3].
    apply H2. constructor.
Defined.

(** ** The cap *)

Lemma sampled_no_cap t vs c : sampled None t vs c = updated (pushed t vs c).
Proof.
  unfold sampled, evicted. by destruct (datasets (pushed t vs c)).
Qed.

Lemma append_all_no_cap (p : string) (rs : list Response) :
  forall i s c,
    datapoints (config_charts s) = None ->
    charts s !! p = Some (Some c) ->
    datasets c ≠ [] ->
    Forall (fun r => is_Some (resp_values r !! p) /\
                     length (resp_appliances r) = length (datasets c)) rs ->
    exists c',
      each_from i rs (fun _ r => add_provider_data r p) s
      = (with_chart p c' s, Normal tt) /\
      labels c' = labels c ++ (time <$> rs) /\
      length (datasets c') = length (datasets c) /\
      forall j d', datasets c' !! j = Some d' ->
        exists d, datasets c !! j = Some d /\
          data d' = data d ++ ((fun r => value_at r p j) <$> rs).
Proof.
  induction rs as [|r rs IH]; intros i s c Hcap Hc Hne Hrs.
  - exists c. simpl. rewrite with_chart_id by done. rewrite !app_nil_r.
    split; [done|]. split; [done|]. split; [done|].
    intros j d' Hj. exists d'. by rewrite app_nil_r.
  - apply Forall_cons in Hrs as [[[vs Hvs] Hr] Hrs].
    set (c1 := sampled None (time r) vs c).
    assert (length (datasets c1) = length (datasets c)) as Hn1
      by apply sampled_datasets_length.
    destruct (IH (S i) (with_chart p c1 s) c1) as (c' & Hrun & Hl & Hn & Hd).
    + done.
    + apply lookup_with_chart.
    + intros E. apply Hne. destruct (datasets c); [done|]. by rewrite E in Hn1.
    + by rewrite Hn1.
    + exists c'. split; [|split; [|split]].
      * simpl. erewrite bind_normal; cycle 1.
        { rewrite (add_provider_data_sampled r p s c vs) by done.
          rewrite Hcap. reflexivity. }
        fold c1. by rewrite Hrun, with_chart_twice.
      * rewrite Hl. unfold c1. rewrite sampled_no_cap. simpl.
        by rewrite <- app_assoc.
      * congruence.
      * intros j d' Hj. destruct (Hd j d' Hj) as (d1 & Hj1 & ->).
        unfold c1 in Hj1. rewrite sampled_no_cap in Hj1.
        cbn [datasets updated pushed] in Hj1.
        rewrite list_lookup_imap in Hj1.
        destruct (datasets c !! j) as [d|]; [|done].
        exists d. split; [done|]. simplify_eq/=.
        rewrite <- app_assoc. simpl. by rewrite (value_at_numbers r p vs).
Qed.

(** X8. Without a usable cap nothing is ever evicted. When
    [config.charts.datapoints] does not parse as a number, the test of
    line 178 compares with [NaN] and is never true: after the samples of
    any answers have been appended, the labels and every series hold all
    of them, after what the chart held before. *)
Theorem no_cap_keeps_every_sample (p : string) (rs : list Response)
    (s : State) (c : Chart) :
  datapoints (config_charts s) = None ->
  charts s !! p = Some (Some c) ->
  datasets c ≠ [] ->
  Forall (fun r => is_Some (resp_values r !! p) /\
                   length (resp_appliances r) = length (datasets c)) rs ->
  exists c',
    append_all p rs s = (with_chart p c' s, Normal tt) /\
    labels c' = labels c ++ (time <$> rs) /\
    forall j d', datasets c' !! j = Some d' ->
      exists d, datasets c !! j = Some d /\
        data d' = data d ++ ((fun r => value_at r p j) <$> rs).
Proof.
  intros Hcap Hc Hne Hrs.
  destruct (append_all_no_cap p rs 0 s c Hcap Hc Hne Hrs)
    as (c' & Hrun & Hl & _ & Hd).
  exists c'. auto.
Qed.

(** X9. A tick evicts one sample at most. For an aligned chart with a
    cap [N], [add_provider_data] appends the label and the values, and
    drops the oldest label and the oldest value of every series exactly
    when the series then is longer than [N]: a series shorter than [N]
    grows by one, a full one keeps its length, and a series that already
    is longer than [N] stays as long as it is and is never cut back to
    [N]. *)
Theorem tick_evicts_one_at_most (N : Z) (r : Response) (p : string)
    (s : State) (c : Chart) (vs : list Z) :
  datapoints (config_charts s) = Some N ->
  charts s !! p = Some (Some c) ->
  aligned c -> datasets c ≠ [] ->
  resp_values r !! p = Some vs ->
  length (resp_appliances r) = length (datasets c) ->
  exists c',
    add_provider_data r p s = (with_chart p c' s, Normal tt) /\
    aligned c' /\
    labels c' = (if decide (N <= Z.of_nat (length (labels c)))
                 then tail (labels c ++ [time r])
                 else labels c ++ [time r]) /\
    length (labels c') = (if decide (N <= Z.of_nat (length (labels c)))
                          then length (labels c)
                          else S (length (labels c))).
Proof.
  intros Hcap Hc Ha Hne Hvs Hlen.
  exists (sampled (Some N) (time r) vs c).
  split; [by rewrite (add_provider_data_sampled r p s c vs), Hcap|].
  split; [by apply sampled_aligned|].
  assert (labels (sampled (Some N) (time r) vs c)
          = if decide (N <= Z.of_nat (length (labels c)))
            then tail (labels c ++ [time r])
            else labels c ++ [time r]) as Hl.
  { unfold sampled, updated. cbn [labels]. unfold evicted.
    destruct (datasets (pushed (time r) vs c)) as [|d0 ds] eqn:Hds.
    { exfalso. apply (f_equal length) in Hds. unfold pushed in Hds.
      cbn [datasets] in Hds. rewrite length_imap in Hds.
      by destruct (datasets c). }
    assert (length (data d0) = S (length (labels c))) as Hd0.
    { pose proof (pushed_aligned (time r) vs c Ha) as Hp.
      unfold aligned in Hp. rewrite Hds in Hp.
      apply Forall_cons in Hp as [Hp _]. rewrite Hp. unfold pushed.
      cbn [labels]. rewrite length_app. simpl. lia. }
    unfold exceeds. rewrite Hd0.
    case_bool_decide; case_decide; try lia; done. }
  split; [exact Hl|]. rewrite Hl. case_decide.
  - rewrite length_tail, length_app. simpl. lia.
  - rewrite length_app. simpl. lia.
Qed.

Lemma no_cap_keeps_every_sample_witness :
  exists c',
    append_all "cpu" Scenario.four_answers Scenario.started_no_cap
    = (with_chart "cpu" c' Scenario.started_no_cap, Normal tt) /\
    labels c' = [1; 2; 3; 4].
Proof.
  destruct (no_cap_keeps_every_sample "cpu" Scenario.four_answers
              Scenario.started_no_cap Scenario.fresh_chart)
    as (c' & Hrun & Hl & _).
  - reflexivity.
  - reflexivity.
  - discriminate.
  - repeat (constructor; [split; [eexists; reflexivity | reflexivity]|]).
    constructor.
  - exists c'. split; [exact Hrun | exact Hl].
Defined.

Lemma tick_evicts_one_at_most_witness :
  exists c',
    add_provider_data (Scenario.answer 7) "cpu"
      (with_chart "cpu"
         (mkChart [1; 2; 3; 4; 5]
            [mkDataset "dp1" None [Num 1; Num 2; Num 3; Num 4; Num 5]] 0)
         Scenario.started)
    = (with_chart "cpu" c'
         (with_chart "cpu"
            (mkChart [1; 2; 3; 4; 5]
               [mkDataset "dp1" None [Num 1; Num 2; Num 3; Num 4; Num 5]] 0)
            Scenario.started), Normal tt) /\
    labels c' = [2; 3; 4; 5; 7].
Proof.
  destruct (tick_evicts_one_at_most 3 (Scenario.answer 7) "cpu"
              (with_chart "cpu"
                 (mkChart [1; 2; 3; 4; 5]
                    [mkDataset "dp1" None
                       [Num 1; Num 2; Num 3; Num 4; Num 5]] 0)
                 Scenario.started)
              (mkChart [1; 2; 3; 4; 5]
                 [mkDataset "dp1" None
                    [Num 1; Num 2; Num 3; Num 4; Num 5]] 0)
              [47]) as (c' & H1 & _ & H2 & _).
  - reflexivity.
  - apply lookup_with_chart.
  - repeat constructor.
  - discriminate.
  - reflexivity.
  - reflexivity.
  - exists c'. split; [exact H1 | exact H2].
Defined.

(** * The selectors, the colour text and the ssh plugin *)

Local Open Scope nat_scope.

(** ** [sanitize_provider] *)

Lemma unescape_sanitize p : unescape_selector (sanitize_provider p) = p.
Proof.
  induction p as [|c p IH]; [done|]. simpl.
  destruct (selector_special c) eqn:Hc.
  - simpl. rewrite Hc. by rewrite IH.
  - assert (unescape_selector (String c (sanitize_provider p))
            = String c (unescape_selector (sanitize_provider p))) as ->.
    { simpl. destruct (Ascii.eqb c "\") eqn:Hb; [|done].
      destruct p as [|c' p']; [done|]. simpl.
      destruct (selector_special c') eqn:Hc'; simpl.
      - apply Ascii.eqb_eq in Hb. subst c. done.
      - by rewrite Hc'. }
    by rewrite IH.
Qed.

(** X10. [sanitize_provider] never maps two providers to one selector:
    the escaped text can be read back ([unescape_selector] undoes it), so
    different providers get different container ids. *)
Theorem sanitize_provider_distinct (p q : string) :
  p ≠ q -> sanitize_provider p ≠ sanitize_provider q.
Proof.
  intros Hne Heq. apply Hne.
  by rewrite <- (unescape_sanitize p), <- (unescape_sanitize q), Heq.
Qed.

Lemma sanitize_provider_distinct_witness :
  "a.b" ≠ "a:b" /\ sanitize_provider "a.b" ≠ sanitize_provider "a:b".
Proof.
  assert ("a.b" ≠ "a:b") as H by discriminate.
  split; [exact H | exact (sanitize_provider_distinct _ _ H)].
Defined.

(** X11. [sanitize_provider] adds one character for each [:], [.], [[]
    or []] of the provider and nothing else: it leaves a provider as it
    is exactly when none of the four occurs in it (a space, a [#] or a
    backslash is passed on unescaped), and the escaped text has as many
    of the four characters as the provider, so that escaping twice adds
    the backslashes twice. *)
Theorem sanitize_provider_length (p : string) :
  String.length (sanitize_provider p) = String.length p + special_count p /\
  (sanitize_provider p = p <-> special_count p = 0) /\
  special_count (sanitize_provider p) = special_count p.
Proof.
  assert (String.length (sanitize_provider p)
          = String.length p + special_count p) as Hlen.
  { induction p as [|c p IH]; [done|]. simpl.
    destruct (selector_special c); simpl; rewrite IH; lia. }
  split; [exact Hlen|]. split.
  - split.
    + intros Heq. rewrite Heq in Hlen. lia.
    + clear Hlen. induction p as [|c p IH]; [done|]. simpl.
      destruct (selector_special c); simpl.
      * discriminate.
      * intros H. by rewrite IH.
  - clear Hlen. induction p as [|c p IH]; [done|]. simpl.
    destruct (selector_special c) eqn:Hc.
    + cbn [special_count]. rewrite IH, Hc. reflexivity.
    + cbn [special_count]. rewrite IH, Hc. reflexivity.
Qed.

(** X12. In the text [sanitize_provider] returns, every [:], [.], [[]
    and []] comes right after a backslash. *)
Theorem sanitize_provider_escapes (p : string) (i : nat) (c : Ascii.ascii) :
  String.get i (sanitize_provider p) = Some c ->
  selector_special c = true ->
  exists j, i = S j /\ String.get j (sanitize_provider p) = Some "\"%char.
Proof.
  revert i. induction p as [|c0 p IH]; intros i Hi Hc; [by destruct i|].
  simpl in Hi |- *. destruct (selector_special c0) eqn:Hc0.
  - destruct i as [|[|i]]; simpl in Hi.
    + injection Hi as <-. done.
    + exists 0. done.
    + destruct (IH i Hi Hc) as (j & -> & Hj). exists (S (S j)). done.
  - destruct i as [|i]; simpl in Hi.
    + injection Hi as <-. congruence.
    + destruct (IH i Hi Hc) as (j & -> & Hj). exists (S j). done.
Qed.

Lemma sanitize_provider_escapes_witness :
  String.get 2 (sanitize_provider "a.b") = Some "."%char /\
  String.get 1 (sanitize_provider "a.b") = Some "\"%char.
Proof.
  destruct (sanitize_provider_escapes "a.b" 2 "."%char eq_refl eq_refl)
    as (j & Hj & Hg).
  injection Hj as <-. split; [reflexivity | exact Hg].
Defined.

(** ** The host name of a transcript *)

Lemma matches_ssh_inv (s : string) :
  matches_ssh s = true -> exists r, s = "ssh_" +:+ r.
Proof.
  destruct s as [|c1 [|c2 [|c3 [|c4 r]]]]; simpl; try done.
  rewrite !andb_true_iff, !Ascii.eqb_eq. intros [[[-> ->] ->] ->].
  by exists r.
Qed.

Lemma length_ssh_app (r : string) :
  String.length ("ssh_" +:+ r) = 4 + String.length r.
Proof. reflexivity. Qed.

Lemma remove_ssh_match (r : string) :
  remove_ssh 0 ("ssh_" +:+ r) = remove_ssh 0 r.
Proof. by destruct r. Qed.

Lemma remove_ssh_other (c : Ascii.ascii) (rest : string) :
  matches_ssh (String c rest) = false ->
  remove_ssh 0 (String c rest) = String c (remove_ssh 0 rest).
Proof. intros H. cbn [remove_ssh]. by rewrite H. Qed.

Lemma remove_ssh_length (n : nat) :
  forall s, String.length s <= n ->
            String.length (remove_ssh 0 s) <= String.length s.
Proof.
  induction n as [|n IH]; intros s Hs.
  - destruct s; simpl in *; [done | lia].
  - destruct s as [|c rest]; [done|].
    destruct (matches_ssh (String c rest)) eqn:Hp.
    + destruct (matches_ssh_inv _ Hp) as [r Hr]. rewrite Hr, remove_ssh_match.
      rewrite Hr in Hs. rewrite length_ssh_app in *.
      assert (String.length r <= n) as Hn by lia.
      specialize (IH r Hn). lia.
    + rewrite remove_ssh_other by done. simpl in Hs |- *.
      assert (String.length rest <= n) as Hn by lia.
      specialize (IH rest Hn). lia.
Qed.

Lemma remove_ssh_shrinks (pre post : string) :
  String.length (remove_ssh 0 (pre +:+ "ssh_" +:+ post))
  < String.length (pre +:+ "ssh_" +:+ post).
Proof.
  induction pre as [|c pre IH].
  - change ("" +:+ "ssh_" +:+ post) with ("ssh_" +:+ post).
    rewrite remove_ssh_match, length_ssh_app.
    pose proof (remove_ssh_length _ post (le_n _)). lia.
  - change (String c pre +:+ "ssh_" +:+ post)
      with (String c (pre +:+ "ssh_" +:+ post)).
    destruct (matches_ssh (String c (pre +:+ "ssh_" +:+ post))) eqn:Hp.
    + destruct (matches_ssh_inv _ Hp) as [r Hr].
      rewrite Hr, remove_ssh_match, length_ssh_app.
      pose proof (remove_ssh_length _ r (le_n _)). lia.
    + rewrite remove_ssh_other by done. cbn [String.length]. lia.
Qed.

Lemma remove_ssh_id (s : string) :
  ~ contains_ssh s -> remove_ssh 0 s = s.
Proof.
  induction s as [|c rest IH]; intros Hs; [done|].
  destruct (matches_ssh (String c rest)) eqn:Hp.
  - destruct (matches_ssh_inv _ Hp) as [r Hr]. destruct Hs.
    exists "", r. exact Hr.
  - rewrite remove_ssh_other by done. rewrite IH; [done|].
    intros (pre & post & ->). apply Hs. by exists (String c pre), post.
Qed.

(** X16. The download handler of the ssh plugin finds the host name by
    deleting every "ssh_" from the id of the terminal, not only the one
    the template put in front. It sends the right host name exactly for
    the hosts whose name has no "ssh_" in it; for any other host the
    name it sends is shorter than the host name. *)
Theorem download_hostname_round_trip (h : string) :
  (download_hostname (terminal_id h) = h <-> ~ contains_ssh h) /\
  (contains_ssh h ->
   String.length (download_hostname (terminal_id h)) < String.length h).
Proof.
  unfold download_hostname, terminal_id. rewrite remove_ssh_match.
  assert (contains_ssh h ->
          String.length (remove_ssh 0 h) < String.length h) as Hlt.
  { intros (pre & post & ->). apply remove_ssh_shrinks. }
  split; [split|exact Hlt].
  - intros Heq Hc. specialize (Hlt Hc). rewrite Heq in Hlt. lia.
  - apply remove_ssh_id.
Qed.

Lemma download_hostname_round_trip_witness :
  contains_ssh "ssh_gw" /\
  download_hostname (terminal_id "ssh_gw") = "gw" /\
  String.length (download_hostname (terminal_id "ssh_gw"))
  < String.length "ssh_gw".
Proof.
  assert (contains_ssh "ssh_gw") as Hc by (by exists "", "gw").
  destruct (download_hostname_round_trip "ssh_gw") as [_ H].
  split; [exact Hc | split; [reflexivity | exact (H Hc)]].
Defined.

(** ** The colour text *)

Lemma hex_digits_step (k : nat) : (S (S (S (S k))) + 3) / 4 = S ((k + 3) / 4).
Proof.
  replace (S (S (S (S k))) + 3) with ((k + 3) + 1 * 4) by lia.
  rewrite Nat.div_add by lia. lia.
Qed.

Lemma length_of_pos (n : nat) :
  forall p rest, Pos.size_nat p <= n ->
    String.length (HexString.Raw.of_pos p rest)
    = hex_digits p + String.length rest.
Proof.
  unfold hex_digits.
  induction n as [n IH] using (well_founded_induction lt_wf).
  intros p rest Hn.
  do 4 try destruct p as [p|p|]; try reflexivity;
    cbn [HexString.Raw.of_pos Pos.size_nat] in *;
    rewrite (IH (Pos.size_nat p)) by lia;
    rewrite hex_digits_step; cbn [String.length]; lia.
Qed.

Lemma size_nat_le_pow (p : positive) :
  forall k : nat, Pos.size_nat p <= k <-> (Z.pos p < 2 ^ Z.of_nat k)%Z.
Proof.
  induction p as [p IH|p IH|]; intros [|k]; cbn [Pos.size_nat].
  - split; [lia|]. simpl. lia.
  - rewrite Nat2Z.inj_succ, Z.pow_succ_r by lia.
    specialize (IH k). split; intros H; [|apply le_n_S]; lia.
  - split; [lia|]. simpl. lia.
  - rewrite Nat2Z.inj_succ, Z.pow_succ_r by lia.
    specialize (IH k). split; intros H; [|apply le_n_S]; lia.
  - split; [lia|]. simpl. lia.
  - rewrite Nat2Z.inj_succ, Z.pow_succ_r by lia.
    pose proof (Z.pow_pos_nonneg 2 (Z.of_nat k)). lia.
Qed.

(** X17. The colour text of [randomColor] is not padded. For a number
    below 16777215 it is "#" and one to six hexadecimal digits that read
    back as the number; it has the six digits of a colour exactly when
    the number is at least 0x100000: one draw in sixteen gives a text
    that is too short, and "#ffffff" is never drawn. *)
Theorem color_text_is_not_padded (n : N) :
  (n < 16777215)%N ->
  2 <= String.length (color_text n) <= 7 /\
  (String.length (color_text n) = 7 <-> (1048576 <= n)%N) /\
  HexString.Raw.to_N (hex_of n) 0 = n /\
  color_text n ≠ "#ffffff".
Proof.
  intros Hn. destruct n as [|p].
  { split; [simpl; lia|]. split; [|done]. split; [discriminate | lia]. }
  assert (String.length (color_text (N.pos p)) = S (hex_digits p)) as Hlen.
  { unfold color_text, hex_of. cbn [String.length].
    rewrite (length_of_pos _ p "" (le_n _)). simpl. lia. }
  assert (HexString.Raw.to_N (hex_of (N.pos p)) 0 = N.pos p) as Hrt.
  { unfold hex_of. by rewrite HexString.Raw.to_N_of_pos. }
  pose proof (size_nat_le_pow p 24) as H24.
  pose proof (size_nat_le_pow p 20) as H20.
  assert (1 <= Pos.size_nat p) as H1 by (destruct p; simpl; lia).
  assert (Pos.size_nat p <= 24) as Hs by (apply H24; simpl; lia).
  rewrite Hlen. unfold hex_digits.
  pose proof (Nat.div_mod_eq (Pos.size_nat p + 3) 4) as Hd.
  pose proof (Nat.mod_upper_bound (Pos.size_nat p + 3) 4) as Hm.
  split; [lia|]. split; [|split; [done|]].
  - split.
    + intros H6. assert (~ Pos.size_nat p <= 20) as Hn20 by lia.
      rewrite H20 in Hn20. simpl in Hn20. lia.
    + intros Hge. assert (~ Pos.size_nat p <= 20) as Hn20.
      { rewrite H20. simpl. lia. }
      lia.
  - intros Heq. unfold color_text in Heq.
    assert (hex_of (N.pos p) = "ffffff") as Hh by congruence.
    rewrite Hh in Hrt. vm_compute in Hrt. injection Hrt as <-. lia.
Qed.

Lemma color_text_is_not_padded_witness :
  (4095 < 16777215)%N /\ color_text 4095 = "#fff" /\
  String.length (color_text 4095) ≠ 7.
Proof.
  assert (4095 < 16777215)%N as H by lia.
  destruct (color_text_is_not_padded 4095 H) as (_ & H7 & _).
  split; [exact H|]. split; [reflexivity|].
  intros E. apply H7 in E. lia.
Defined.

(** ** The ssh plugin *)

Lemma terminal_of_cons (t : Terminal) (ts : list Terminal) (h : string) :
  terminal_of (t :: ts) h
  = if decide (term_host t = h) then Some t else terminal_of ts h.
Proof.
  unfold terminal_of. rewrite filter_cons. by case_decide.
Qed.

Lemma terminal_of_host (ts : list Terminal) (h : string) (t : Terminal) :
  terminal_of ts h = Some t -> term_host t = h.
Proof.
  induction ts as [|t0 ts IH]; [done|]. rewrite terminal_of_cons.
  case_decide; [by intros [= <-] | done].
Qed.

Lemma terminal_of_None (ts : list Terminal) (h : string) :
  terminal_of ts h = None <-> h ∉ term_host <$> ts.
Proof.
  induction ts as [|t0 ts IH]; [split; [intros _; apply not_elem_of_nil | done]|].
  rewrite terminal_of_cons, fmap_cons, not_elem_of_cons.
  case_decide as Ht.
  - split; [done|]. intros [Hne _]. by destruct Hne.
  - rewrite IH. split; [|by intros [_ ?]]. intros Hn. split; [|done].
    by intros ->.
Qed.

Lemma terminal_id_inj (h h' : string) : terminal_id h = terminal_id h' -> h = h'.
Proof. unfold terminal_id. apply append_inj_l. Qed.

Lemma id_of_terminal_selector (h : string) :
  id_of_selector (terminal_selector h)
  = if selectable h then Some (terminal_id h) else None.
Proof.
  unfold terminal_selector, terminal_id.
  change ("#ssh_" +:+ sanitize_provider h)
    with (String "#" ("ssh_" +:+ sanitize_provider h)).
  cbn [id_of_selector]. change (Ascii.eqb "#" "#") with true. cbn iota.
  rewrite (identifier_plain_app "ssh_") by reflexivity.
  rewrite <- (append_nil_r (sanitize_provider h)).
  rewrite identifier_sanitize by done.
  destruct (selectable h); [|done].
  change (identifier "") with (Some ""). cbn [fmap option_fmap option_map].
  by rewrite append_nil_r.
Qed.

(** For a selectable host name the selector of line 21 finds the first
    terminal of that host. *)
Lemma find_terminal_selectable (ts : list Terminal) (h : string) :
  selectable h = true -> find_terminal ts h = terminal_of ts h.
Proof.
  intros Hs. unfold find_terminal, terminal_of.
  rewrite id_of_terminal_selector, Hs. f_equal.
  induction ts as [|t ts IH]; [done|]. rewrite !filter_cons, IH.
  destruct (decide (term_host t = h)) as [->|Hne].
  - by rewrite decide_True.
  - rewrite decide_False; [done|]. intros H. by apply terminal_id_inj in H.
Qed.

Lemma terminal_of_fmap (f : Terminal -> Terminal) (ts : list Terminal)
    (h : string) :
  (forall t, term_host (f t) = term_host t) ->
  terminal_of (f <$> ts) h = f <$> terminal_of ts h.
Proof.
  intros Hf. induction ts as [|t ts IH]; [done|].
  rewrite fmap_cons, !terminal_of_cons, Hf. by case_decide.
Qed.






Lemma transcript_of_set_first (h text : string) (ts : list Terminal) (h' : string) :
  transcript_of (set_first h text ts) h'
  = if decide (h' = h) then (fun _ => text) <$> transcript_of ts h'
    else transcript_of ts h'.
Proof.
  unfold transcript_of. induction ts as [|t ts IH]; [by case_decide|].
  cbn [set_first]. destruct (decide (term_host t = h)) as [Ht|Ht].
  - rewrite !terminal_of_cons. cbn [term_host]. rewrite Ht.
    destruct (decide (h = h')) as [<-|Hne].
    + by rewrite decide_True.
    + by rewrite decide_False by (by intros ->).
  - rewrite !terminal_of_cons.
    destruct (decide (term_host t = h')) as [Ht'|Ht'].
    + rewrite decide_False by congruence. done.
    + exact IH.
Qed.

Lemma transcript_of_set_every (h text : string) (ts : list Terminal) (h' : string) :
  transcript_of (set_every h text ts) h'
  = if decide (h' = h) then (fun _ => text) <$> transcript_of ts h'
    else transcript_of ts h'.
Proof.
  unfold transcript_of, set_every.
  rewrite terminal_of_fmap by (intros t; by case_decide).
  destruct (terminal_of ts h') as [t|] eqn:Ht; [|by case_decide].
  apply terminal_of_host in Ht. cbn. rewrite Ht.
  by destruct (decide (h' = h)).
Qed.

Lemma transcript_of_restore (old ts : list Terminal) (h h' : string) :
  selectable h = true ->
  transcript_of (restore old ts h) h'
  = if decide (h' = h) then restored old h <$> transcript_of ts h'
    else transcript_of ts h'.
Proof.
  intros Hs. unfold restore, restored. rewrite find_terminal_selectable by done.
  destruct (terminal_of old h) as [t0|].
  - destruct (by_getElementById _);
      [apply transcript_of_set_first | apply transcript_of_set_every].
  - case_decide; [|done]. by destruct (transcript_of ts h').
Qed.

Lemma transcript_of_foldl_restore (old : list Terminal) (hs : list string)
    (h : string) :
  Forall (fun h' => selectable h' = true) hs ->
  forall ts,
    transcript_of (foldl (restore old) ts hs) h
    = if decide (h ∈ hs) then restored old h <$> transcript_of ts h
      else transcript_of ts h.
Proof.
  induction 1 as [|h' hs Hh' Hhs IH]; intros ts; [done|].
  cbn [foldl]. rewrite IH, transcript_of_restore by done.
  destruct (decide (h = h')) as [->|Hne].
  - rewrite (decide_True (P := h' ∈ h' :: hs)) by constructor.
    case_decide; [|done].
    destruct (transcript_of ts h') as [x|]; [|done]. cbn. f_equal.
    unfold restored. by destruct (terminal_of old h').
  - destruct (decide (h ∈ hs)) as [Hin|Hin].
    + by rewrite decide_True by (by constructor).
    + rewrite decide_False; [done|]. by intros [->|?]%elem_of_cons.
Qed.

Lemma transcript_of_fresh (apps : list Appliance) (h : string) :
  transcript_of ((fun a => mkTerminal (hostname a) "") <$> apps) h
  = if decide (h ∈ hostname <$> apps) then Some "" else None.
Proof.
  unfold transcript_of. induction apps as [|a apps IH]; [done|].
  rewrite !fmap_cons, terminal_of_cons. cbn [term_host].
  destruct (decide (hostname a = h)) as [<-|Hne].
  - by rewrite decide_True by constructor.
  - rewrite IH. destruct (decide (h ∈ hostname <$> apps)) as [Hin|Hin].
    + by rewrite decide_True by (by constructor).
    + rewrite decide_False; [done|]. by intros [->|?]%elem_of_cons.
Qed.




(** X14. A change of the roster keeps the transcripts of the appliances
    that stay. When every host name of the new roster [apps] is
    selectable, the first terminal of an appliance of [apps] holds the
    text the first terminal of that host held before, or nothing if
    there was none; the terminals of the other host names are gone with
    their text. So an appliance that is removed and added again starts
    with an empty transcript. *)
Theorem ssh_rebuild_keeps_transcripts (apps : list Appliance) (s : SshPage)
    (h : string) :
  Forall (fun a => selectable (hostname a) = true) apps ->
  transcript_of (terminals (ssh_step (SshModify apps) s)) h
  = (if decide (h ∈ hostname <$> apps)
     then Some (default "" (transcript_of (terminals s) h))
     else None) /\
  (h ∈ hostname <$> apps ->
   forall others,
     Forall (fun a => selectable (hostname a) = true) others ->
     h ∉ hostname <$> others ->
     transcript_of
       (terminals (ssh_exec [SshModify others; SshModify apps] s)) h
     = Some "").
Proof.
  assert (forall s' apps',
    Forall (fun a => selectable (hostname a) = true) apps' ->
    transcript_of (terminals (ssh_step (SshModify apps') s')) h
    = if decide (h ∈ hostname <$> apps')
      then Some (default "" (transcript_of (terminals s') h)) else None) as H.
  { intros s' apps' Hsel. cbn [ssh_step ssh_rebuild terminals ssh_appliances].
    rewrite transcript_of_foldl_restore by (by rewrite Forall_fmap).
    rewrite transcript_of_fresh. case_decide; [|done]. cbn. f_equal.
    unfold restored, transcript_of. by destruct (terminal_of (terminals s') h). }
  intros Hsel. split; [by apply H|]. intros Hin others Hoth Hout.
  change (ssh_exec [SshModify others; SshModify apps] s)
    with (ssh_step (SshModify apps) (ssh_step (SshModify others) s)).
  rewrite H, decide_True by done. rewrite H, decide_False by done. done.
Qed.





Lemma ssh_rebuild_keeps_transcripts_witness :
  transcript_of
    (terminals (ssh_step (SshModify [mkAppliance "dp2" "x"; Scenario.dp1])
                  Scenario.ssh_answered)) "dp1"
  = Some "Version 9" /\
  transcript_of
    (terminals (ssh_exec [SshModify [mkAppliance "dp2" "x"];
                          SshModify [mkAppliance "dp2" "x"; Scenario.dp1]]
                  Scenario.ssh_answered)) "dp1"
  = Some "".
Proof.
  destruct (ssh_rebuild_keeps_transcripts
              [mkAppliance "dp2" "x"; Scenario.dp1] Scenario.ssh_answered "dp1")
    as [H1 H2]; [by repeat constructor|].
  split.
  - rewrite H1. vm_compute. reflexivity.
  - apply H2.
    + apply list_elem_of_further, list_elem_of_here.
    + by repeat constructor.
    + intros H. apply list_elem_of_singleton in H. discriminate.
Defined.


(** ** The idle page and the page at load *)

(** What the charts show and what they are drawn with. *)
Lemma idle_step_widgets (e : Event) (s : State) :
  toggle s = Start -> e ≠ Click ->
  toggle (step e s) = Start /\
  charts (step e s) = charts s /\
  page (step e s) = page s /\
  config_colors (step e s) = config_colors s.
Proof.
  intros Ht He. destruct e as [|ps|apps|i data|i|t]; try done.
  - cbn [step]. unfold run, on_change, publish_startCharting.
    by rewrite initialize_all_idle.
  - cbn [step]. unfold run. by rewrite initialize_all_idle.
  - cbn [step]. destruct (in_flight s !! i); [|done].
    unfold run. by rewrite success_idle.
  - cbn [step]. by case_decide.
Qed.

(** X18. An idle page is frozen. While the toggle displays "Start",
    whatever happens but a click (changes of the selection and of the
    roster, answers, failures, timers that fire) leaves the registry,
    every series, the containers on the page and the colours exactly as
    they are, and draws no new colour. *)
Theorem idle_page_is_frozen (es : list Event) (s : State) :
  toggle s = Start -> Forall (fun e => e ≠ Click) es ->
  toggle (exec es s) = Start /\
  charts (exec es s) = charts s /\
  status_main (exec es s) = status_main s /\
  dom_log (exec es s) = dom_log s /\
  config_colors (exec es s) = config_colors s.
Proof.
  intros Ht Hes.
  assert (toggle (exec es s) = Start /\ charts (exec es s) = charts s /\
          page (exec es s) = page s /\
          config_colors (exec es s) = config_colors s) as (H1 & H2 & H3 & H4).
  { revert s Ht. induction Hes as [|e es He Hes IH]; intros s Ht; [done|].
    destruct (idle_step_widgets e s Ht He) as (Ht1 & Hc1 & Hp1 & Hk1).
    destruct (IH _ Ht1) as (Ht2 & Hc2 & Hp2 & Hk2).
    cbn [exec foldl]. fold (exec es (step e s)).
    repeat split; congruence. }
  unfold page in H3. injection H3 as H3 H5. done.
Qed.

Lemma idle_page_is_frozen_witness :
  toggle Scenario.paused = Start /\
  charts (exec [Change ["memory"]; Timeout 0; Answer 0 (Scenario.answer 9);
                ModifyAppliances []] Scenario.paused)
  = charts Scenario.paused.
Proof.
  assert (toggle Scenario.paused = Start) as Ht by reflexivity.
  destruct (idle_page_is_frozen
              [Change ["memory"]; Timeout 0; Answer 0 (Scenario.answer 9);
               ModifyAppliances []] Scenario.paused Ht) as (_ & Hc & _).
  - repeat constructor; discriminate.
  - split; [exact Ht | exact Hc].
Defined.

(** X19. With [startonload] the monitoring starts with the first
    appliance, as the comment of lines 245-247 says: on a page loaded
    without appliances, the first publication of a roster that is not
    empty leaves the toggle at "Stop" and sets no timer, and when every
    checked provider is chartable it registers a new chart for exactly
    the checked providers and posts the first request. Without
    [startonload] the same publication only records the roster. *)
Theorem startonload_starts_with_first_appliance (cfg : ChartsConfig)
    (colors : option (gmap string Color)) (boxes : list string)
    (no_check : bool) (apps : list Appliance) :
  apps ≠ [] ->
  let s0 := loaded cfg colors [] boxes no_check in
  let s := step (ModifyAppliances apps) s0 in
  (startonload cfg = true ->
   toggle s = Stop /\
   pending_timers s = [] /\
   (Forall (fun p => chartable p = true) boxes ->
    (forall p, charts s !! p
               = if decide (p ∈ boxes) then Some (Some (new_chart s)) else None) /\
    in_flight s = [request_of (set_appliances apps s0)])) /\
  (startonload cfg = false -> s = set_appliances apps s0).
Proof.
  intros Ha s0 s. split.
  - intros Hon. unfold s. cbn [step]. set (s1 := set_appliances apps s0).
    assert (toggle s1 = Stop) as Ht by (unfold s1, s0; simpl; by rewrite Hon).
    split; [unfold run; by rewrite toggle_initialize_all|]. split.
    { pose proof (timers_initialize_all s1) as Hti.
      apply timers_eq in Hti as (Hp & _ & _). unfold run. by rewrite Hp. }
    intros Hbox.
    unfold run. rewrite (initialize_all_synced s1) by done. cbn [fst].
    rewrite synced_resync.
    destruct (resync_spec (cleaned s1)) as (Hi & Hti & Hc & _ & Hf).
    assert (checked (cleaned s1) = boxes) as Hch by (by rewrite cleaned_frame).
    rewrite Hch in *. split.
    + intros p. rewrite Hc, lookup_foldl_insert, lookup_empty.
      by rewrite (new_chart_settings (cleaned s1) (resync (cleaned s1)))
        by (by apply inputs_settings).
    + rewrite Hf. rewrite (cleaned_frame in_flight) by done.
      unfold request_of.
      rewrite (cleaned_frame appliances), (cleaned_frame checked),
        (cleaned_frame global_no_check_hostname) by done.
      done.
  - intros Hoff. unfold s. cbn [step]. unfold run.
    rewrite initialize_all_idle; [done|]. unfold s0. simpl. by rewrite Hoff.
Qed.

Lemma startonload_starts_with_first_appliance_witness :
  toggle (step (ModifyAppliances [Scenario.dp1]) Scenario.at_load) = Stop /\
  in_flight (step (ModifyAppliances [Scenario.dp1]) Scenario.at_load)
  = [request_of (set_appliances [Scenario.dp1] Scenario.at_load)].
Proof.
  destruct (startonload_starts_with_first_appliance Scenario.cfg None ["cpu"]
              false [Scenario.dp1]) as [H _]; [discriminate|].
  destruct (H eq_refl) as (Ht & _ & Hb).
  destruct Hb as [_ Hf]; [by repeat constructor|].
  split; [exact Ht | exact Hf].
Defined.

(** ** Pages that stay tidy *)

Lemma status_main_success (s : State) (data : Response) :
  status_main (run (success data) s) = status_main s /\
  checked (run (success data) s) = checked s.
Proof.
  unfold run. destruct (toggle s) eqn:Ht.
  - by rewrite success_idle.
  - rewrite success_monitoring by done.
    pose proof (keeps_add_data status_main data (fun _ _ => eq_refl) s) as H1.
    pose proof (keeps_add_data checked data (fun _ _ => eq_refl) s) as H2.
    by destruct (add_data data s) as [s1 [[]|]].
Qed.

Lemma tidy_initialize_all (s : State) :
  tidy_page s -> Forall (fun p => chartable p = true) (checked s) ->
  tidy_page (run initialize_all s) /\
  checked (run initialize_all s) = checked s.
Proof.
  intros Hty Hch. split; [|by apply (keeps_initialize_all checked)].
  unfold run. destruct (toggle s) eqn:Ht.
  { by rewrite initialize_all_idle. }
  destruct (appliances s) as [|a l] eqn:Ha.
  { by rewrite initialize_all_no_appliance. }
  rewrite initialize_all_synced by (by rewrite ?Ha). cbn [fst].
  rewrite synced_resync. destruct (cleaned_tidy s Hty) as [Hty1 _].
  apply resync_page; [done|]. by rewrite cleaned_frame.
Qed.

Lemma chartable_registry_layouts (s s' : State) :
  layouts s' = layouts s -> chartable_registry s -> chartable_registry s'.
Proof.
  intros Hl Hr p Hp. apply Hr.
  assert (is_Some (layouts s' !! p)) as H.
  { unfold layouts. rewrite lookup_fmap. by apply fmap_is_Some. }
  rewrite Hl in H. unfold layouts in H. rewrite lookup_fmap in H.
  by apply fmap_is_Some in H.
Qed.

Lemma chartable_registry_initialize_all (s : State) :
  Forall (fun p => chartable p = true) (checked s) ->
  chartable_registry s -> chartable_registry (run initialize_all s).
Proof.
  intros Hch Hr. unfold run. destruct (toggle s) eqn:Ht.
  { by rewrite initialize_all_idle. }
  destruct (appliances s) as [|a l] eqn:Ha.
  { by rewrite initialize_all_no_appliance. }
  rewrite initialize_all_synced by (by rewrite ?Ha). cbn [fst].
  rewrite synced_resync.
  destruct (resync_spec (cleaned s)) as (_ & _ & Hc & _).
  intros p [v Hv]. rewrite Hc, lookup_foldl_insert, lookup_empty in Hv.
  rewrite (cleaned_frame checked) in Hv by done.
  case_decide as Hin; [|done].
  by apply (proj1 (Forall_forall _ _) Hch).
Qed.

Lemma chartable_registry_success (s : State) (data : Response) :
  chartable_registry s -> chartable_registry (run (success data) s).
Proof.
  apply chartable_registry_layouts. unfold run.
  destruct (toggle s) eqn:Ht.
  - by rewrite success_idle.
  - rewrite success_monitoring by done.
    pose proof (layouts_add_data data s) as H.
    by destruct (add_data data s) as [s1 [[]|]].
Qed.

Lemma tidy_step (e : Event) (s : State) :
  chartable_event e ->
  tidy s /\ Forall (fun p => chartable p = true) (checked s) ->
  tidy (step e s) /\ Forall (fun p => chartable p = true) (checked (step e s)).
Proof.
  intros He [[Hty Hreg] Hch]. destruct e as [|ps|apps|i data|i|t].
  - destruct (toggle s) eqn:Ht.
    + by rewrite step_click_start.
    + by rewrite step_click_stop.
  - cbn [step]. unfold on_change, publish_startCharting.
    destruct (tidy_initialize_all (set_checked ps s)) as [H1 H2]; [done|done|].
    rewrite H2. split; [|done]. split; [done|].
    by apply chartable_registry_initialize_all.
  - cbn [step].
    destruct (tidy_initialize_all (set_appliances apps s)) as [H1 H2];
      [done|done|].
    rewrite H2. split; [|done]. split; [done|].
    by apply chartable_registry_initialize_all.
  - cbn [step]. destruct (in_flight s !! i); [|done].
    destruct (status_main_success (set_in_flight (delete i (in_flight s)) s)
                data) as [H1 H2].
    rewrite H2. split; [|done]. split.
    + by apply (tidy_status_main _ _ H1).
    + by apply chartable_registry_success.
  - done.
  - cbn [step]. by case_decide.
Qed.

(** X20. Pages stay tidy. From the page as it is loaded, with chartable
    providers in the checked boxes at load and after every change of the
    selection, whatever else happens the containers under [#status_main]
    are whole, no provider has two of them, every one belongs to a
    chartable provider, and the registry names chartable providers
    only. *)
Theorem chartable_pages_stay_tidy (cfg : ChartsConfig)
    (colors : option (gmap string Color)) (apps : list Appliance)
    (boxes : list string) (no_check : bool) (es : list Event) :
  Forall (fun p => chartable p = true) boxes ->
  Forall chartable_event es ->
  tidy (exec es (loaded cfg colors apps boxes no_check)).
Proof.
  intros Hb Hes.
  assert (tidy (loaded cfg colors apps boxes no_check) /\
          Forall (fun p => chartable p = true)
                 (checked (loaded cfg colors apps boxes no_check))) as H0.
  { split; [|done]. split.
    - apply (tidy_intro _ []); [done | constructor | constructor].
    - intros p [v Hv]. cbn [loaded charts] in Hv.
      by rewrite lookup_empty in Hv. }
  revert H0. generalize (loaded cfg colors apps boxes no_check).
  induction Hes as [|e es He Hes IH]; intros s Hs; [by destruct Hs|].
  cbn [exec foldl]. apply IH. by apply tidy_step.
Qed.

Lemma chartable_pages_stay_tidy_witness :
  tidy (exec [ModifyAppliances [Scenario.dp1]; Change ["memory"]; Click;
              Change ["cpu"; "memory"]]
             (loaded Scenario.cfg None [] ["cpu"] false)).
Proof.
  apply chartable_pages_stay_tidy.
  - by repeat constructor.
  - repeat constructor; by repeat constructor.
Defined.
